(** * kops task reconciliation: a shallow embedding of the task code

    The development follows the Go sources of the repository:
    - [openstacktasks.ServerGroup]          (package openstacktasks)
    - [hetznertasks.LoadBalancer]           (package hetznertasks)
    - [awstasks.ClassicLoadBalancer]        (package awstasks)
    - [awstasks.AutoscalingGroup]           (package awstasks)
    and the helpers of package [fi] that these tasks call.

    Conventions.
    - A Go pointer to a scalar ([*string], [*int64], [*bool]) is an [option].
    - A Go slice whose nil-ness the code tests is an [option (list _)];
      a slice that is only ranged over or appended to is a [list]
      (a nil slice and an empty slice are then both [[]]).
    - A Go [map[string]T] is a [gmap string T]; where the code tests the map
      against nil it is wrapped in an [option].
    - A Go function returning [(T, error)] returns an [outcome]; a run-time
      panic or [klog.Fatalf] is the [Panic] outcome.
    - Code that talks to a cloud runs in the monad [M W], a state monad over
      the world [W] of the cloud client with an error outcome that keeps the
      state reached so far (calls issued before a failure stay issued). *)

From Stdlib Require Import ZArith Ascii Bool Lia DecimalString DecimalPos.
From stdpp Require Import base tactics option list sorting gmap strings.

Set Default Proof Using "Type".
Set Warnings "-register-all".

(** ** Package fi: errors and value helpers *)

Module fi.

(** [fi.Lifecycle] is a string type in Go. *)
Definition Lifecycle := string.
Definition LifecycleSync : Lifecycle := "Sync".

(** The errors a cloud client hands back: an [awserr.Error] of the AWS SDK
    with its code and message, or any other provider error.  The typed
    errors of package fi below are made by the tasks, never by a client. *)
Inductive clouderror : Type :=
| AwsError (code message : string)
| OtherError (message : string).

(** Go [error] values as the tasks return them.  [RequiredField],
    [CannotChangeField] and [TryAgainLaterError] are the typed errors of
    package fi; [CloudError] is a provider error returned as it came;
    [Errorf] is [fmt.Errorf] with its format and arguments. *)
Inductive error : Type :=
| RequiredField (key : string)
| CannotChangeField (key : string)
| TryAgainLaterError (message : string)
| CloudError (err : clouderror)
| Errorf (format : string) (args : list fmtarg)
with fmtarg : Type :=
| ArgString (s : string)
| ArgInt (n : Z)
| ArgError (e : error).

(** Modelled from the spec: [fi.NewTryAgainLaterError] (package fi is not
    under src/), the constructor of the retryable signal. *)
Definition NewTryAgainLaterError (message : string) : error :=
  TryAgainLaterError message.

(** The scheduler retries exactly the [TryAgainLater] signal; every other
    error is fatal for the task. *)
Definition is_TryAgainLater (e : error) : bool :=
  match e with TryAgainLaterError _ => true | _ => false end.

(** Modelled from the spec: the [fi.*Value] readers of optional wrappers
    (package fi is not under src/): the value behind the pointer, the zero
    value of the type when the pointer is nil. *)
Definition StringValue (s : option string) : string := default "" s.
Definition BoolValue (b : option bool) : bool := default false b.
Definition IntValue (n : option Z) : Z := default 0%Z n.
Definition Int32Value (n : option Z) : Z := default 0%Z n.
Definition Int64Value (n : option Z) : Z := default 0%Z n.

Definition String (s : string) : option string := Some s.
Definition Bool (b : bool) : option bool := Some b.
Definition Int (n : Z) : option Z := Some n.

(** Go's [int32(x)] conversion of an [int]: wrap-around to 32 bits. *)
Definition int32 (n : Z) : Z :=
  ((n + 2 ^ 31) mod 2 ^ 32 - 2 ^ 31)%Z.
Definition Int32 (n : Z) : option Z := Some n.

End fi.

(** ** Outcomes and the cloud monad *)

Inductive outcome (A : Type) : Type :=
| Return (a : A)
| Raise (e : fi.error)
| Panic (msg : string).
Arguments Return {A} a.
Arguments Raise {A} e.
Arguments Panic {A} msg.

Global Instance outcome_ret : MRet outcome := fun A a => Return a.
Global Instance outcome_fmap : FMap outcome := fun A B f o =>
  match o with
  | Return a => Return (f a)
  | Raise e => Raise e
  | Panic msg => Panic msg
  end.
Global Instance outcome_bind : MBind outcome := fun A B k o =>
  match o with
  | Return a => k a
  | Raise e => Raise e
  | Panic msg => Panic msg
  end.

(** An outcome that is not the retryable signal of package fi. *)
Definition not_retryable {A} (o : outcome A) : Prop :=
  match o with Raise err => fi.is_TryAgainLater err = false | _ => True end.

Definition M (W A : Type) : Type := W -> outcome A * W.

Definition ret {W A} (a : A) : M W A := fun w => (Return a, w).
Definition raise {W A} (e : fi.error) : M W A := fun w => (Raise e, w).
Definition panic {W A} (msg : string) : M W A := fun w => (Panic msg, w).
Definition bind {W A B} (m : M W A) (k : A -> M W B) : M W B :=
  fun w =>
    match m w with
    | (Return a, w') => k a w'
    | (Raise e, w') => (Raise e, w')
    | (Panic msg, w') => (Panic msg, w')
    end.

Definition lift {W A} (o : outcome A) : M W A := fun w => (o, w).

Global Instance M_ret {W} : MRet (M W) := fun A a => ret a.
Global Instance M_bind {W} : MBind (M W) := fun A B k m => bind m k.

(** Turn the error of a call whose output is ignored into a return. *)
Definition check {W} (r : fi.clouderror + unit) (wrap : fi.clouderror -> fi.error) : M W unit :=
  match r with
  | inl err => raise (wrap err)
  | inr _ => mret tt
  end.

(** ** strings *)

Module strings.

(** [strings.HasPrefix(s, prefix)]. *)
Fixpoint HasPrefix (s prefix : string) : bool :=
  match prefix, s with
  | EmptyString, _ => true
  | String c p', String d s' => if Ascii.eqb c d then HasPrefix s' p' else false
  | String _ _, EmptyString => false
  end.

(** [strings.Contains(s, substr)]. *)
Fixpoint Contains (s substr : string) : bool :=
  HasPrefix s substr ||
  match s with
  | EmptyString => false
  | String _ s' => Contains s' substr
  end.

(** [strings.Split(s, sep)] for a separator that is not empty: [cur] is the
    piece being read, [skip] the bytes of a separator still to pass. *)
Fixpoint Split_from (s sep : string) (skip : nat) (cur : string) : list string :=
  match s with
  | EmptyString => [cur]
  | String c s' =>
      match skip with
      | S k => Split_from s' sep k cur
      | O =>
          if HasPrefix s sep then cur :: Split_from s' sep (String.length sep - 1) ""
          else Split_from s' sep 0 (cur +:+ String c "")
      end
  end.
Definition Split (s sep : string) : list string := Split_from s sep 0 "".

(** [strings.Join(elems, sep)]. *)
Fixpoint Join (elems : list string) (sep : string) : string :=
  match elems with
  | [] => ""
  | [x] => x
  | x :: rest => x +:+ sep +:+ Join rest sep
  end.

(** [strings.Replace(s, old, new, -1)] for an [old] that is not empty: every
    occurrence of [old], from the left and without overlap, becomes [new];
    [skip] counts the bytes of an occurrence still to pass. *)
Fixpoint Replace_from (s old new : string) (skip : nat) : string :=
  match s with
  | EmptyString => ""
  | String c s' =>
      match skip with
      | S k => Replace_from s' old new k
      | O =>
          if HasPrefix s old then new +:+ Replace_from s' old new (String.length old - 1)
          else String c (Replace_from s' old new 0)
      end
  end.
Definition Replace (s old new : string) : string := Replace_from s old new 0.

(** [strings.TrimSuffix(s, suffix)]: [s] without the trailing [suffix], [s]
    itself when it does not end with it. *)
Fixpoint TrimSuffix (s suffix : string) : string :=
  match s with
  | EmptyString => ""
  | String c s' => if String.eqb s suffix then "" else String c (TrimSuffix s' suffix)
  end.

(** Go's [<] on strings: byte-wise lexicographic order. *)
Definition lt (a b : string) : bool := String.ltb a b.

End strings.

(** ** A cloud client as a state machine

    A world pairs the backend state of a (fake or real) cloud with the log of
    the API calls issued so far.  [call c h] issues the call [c]: it is logged,
    the handler [h] of the backend answers it and moves the backend on. *)

Record World (S C : Type) : Type := mkWorld { backend : S; calls : list C }.
Arguments mkWorld {S C} backend calls.
Arguments backend {S C} w.
Arguments calls {S C} w.

Definition call {S C R} (c : C) (h : S -> (fi.clouderror + R) * S)
    : M (World S C) (fi.clouderror + R) :=
  fun w => let '(r, s') := h (backend w) in (Return r, mkWorld s' (calls w ++ [c])).

(** [m] keeps to the plan [plan]: from every world, the calls it makes are
    the first calls of [plan], in order, and all of [plan] when it returns. *)
Definition keeps_to {S C A} (m : M (World S C) A) (plan : list C) : Prop :=
  forall w, exists cs,
    calls (m w).2 = calls w ++ cs /\
    cs `prefix_of` plan /\
    (forall a, (m w).1 = Return a -> cs = plan).

(** ** Package openstack: the part of the client the ServerGroup task uses *)

Module openstack.

(** gophercloud's [servergroups.ServerGroup]. *)
Record servergroups_ServerGroup : Type := {
  sg_ID : string;
  sg_Name : string;
  sg_Policies : list string;
  sg_Members : list string
}.

(** The page handed back by [servergroups.List(..).AllPages()]; extracting the
    server groups from it ([servergroups.ExtractServerGroups]) can fail. *)
Inductive Page : Type :=
| MalformedPage (e : fi.clouderror)
| GroupsPage (groups : list servergroups_ServerGroup).

Definition ExtractServerGroups (page : Page) : fi.clouderror + list servergroups_ServerGroup :=
  match page with
  | MalformedPage e => inl e
  | GroupsPage groups => inr groups
  end.

Inductive Call : Type :=
| ListServerGroups
| CreateServerGroup (name : string) (policies : list string)
| ListInstances (name : string)
| DeleteInstanceWithID (id : string).

(** Calls that change the cloud. *)
Definition mutating (c : Call) : bool :=
  match c with
  | ListServerGroups | ListInstances _ => false
  | CreateServerGroup _ _ | DeleteInstanceWithID _ => true
  end.

(** [openstack.OpenstackCloud], restricted to what ServerGroup.Find calls. *)
Class OpenstackCloud (S : Type) : Type := {
  listServerGroups : S -> (fi.clouderror + Page) * S
}.

(** [servers.Server] of gophercloud, by the fields the tasks read. *)
Record servers_Server : Type := {
  srv_ID : string;
  srv_Name : string;
  srv_Metadata : gmap string string
}.

(** [openstack.OpenstackCloud], the part [RenderOpenstack] calls through
    [t.Cloud]: the answers of [CreateServerGroup(opt)], of
    [ListInstances(opts)] and of [DeleteInstanceWithID(id)].  A create call
    that succeeds answers with the group (a nil group beside a nil error,
    which the code would dereference, is left out). *)
Class OpenstackAPITarget (S : Type) : Type := {
  createServerGroup : string -> list string -> S -> (fi.clouderror + servergroups_ServerGroup) * S;
  listInstances : string -> S -> (fi.clouderror + list servers_Server) * S;
  deleteInstanceWithID : string -> S -> (fi.clouderror + unit) * S
}.

End openstack.

(** ** openstacktasks.ServerGroup *)

Module ServerGroup.
Import fi openstack.

(** The struct, without its [sync.Mutex]: the model is sequential. *)
Record t : Type := mk {
  ID : option string;
  Name : option string;
  ClusterName : option string;
  IGName : option string;
  Policies : list string;
  MaxSize : option Z;
  Lifecycle : fi.Lifecycle;
  members : list string;
  gotMemberList : bool
}.

(** The zero value [&ServerGroup{}]. *)
Definition empty : t := mk None None None None [] None "" [] false.

Definition CompareWithID (s : t) : option string := ID s.

(** The loop of [Find] over the listed server groups. *)
Fixpoint Find_loop (s : t) (serverGroups : list servergroups_ServerGroup)
    (actual : option t) : outcome (option t) :=
  match serverGroups with
  | [] => Return actual
  | serverGroup :: rest =>
      if String.eqb (sg_Name serverGroup) (StringValue (Name s)) then
        match actual with
        | Some _ =>
            Raise (Errorf "Found multiple server groups with name %s"
                     [ArgString (StringValue (Name s))])
        | None =>
            Find_loop s rest
              (Some {| Name := String (sg_Name serverGroup);
                       ClusterName := ClusterName s;
                       IGName := IGName s;
                       ID := String (sg_ID serverGroup);
                       Lifecycle := Lifecycle s;
                       Policies := sg_Policies serverGroup;
                       MaxSize := Int32 (int32 (Z.of_nat (length (sg_Members serverGroup))));
                       members := sg_Members serverGroup;
                       gotMemberList := false |})
        end
      else Find_loop s rest actual
  end.

(** [Find] returns the observed task and, as Go mutates the receiver through
    its pointer, the receiver after the call. *)
Definition Find {S} `{OpenstackCloud S} (s : option t)
    : M (World S Call) (option t * option t) :=
  match s with
  | None => mret (None, s)
  | Some s0 =>
      match Name s0 with
      | None => mret (None, s)
      | Some _ =>
          r ← call ListServerGroups listServerGroups;
          match r with
          | inl err => raise (Errorf "Failed to list server groups: %v" [ArgError (CloudError err)])
          | inr page =>
          match ExtractServerGroups page with
          | inl err => raise (Errorf "Failed to extract server groups: %v" [ArgError (CloudError err)])
          | inr serverGroups =>
              match Find_loop s0 serverGroups None with
              | Raise e => raise e
              | Panic msg => panic msg
              | Return None => mret (None, s)
              | Return (Some actual) =>
                  let s1 :=
                    if (Int32Value (MaxSize actual) <? Int32Value (MaxSize s0))%Z
                    then mk (ID s0) (Name s0) (ClusterName s0) (IGName s0) (Policies s0)
                            (MaxSize actual) (Lifecycle s0) (members s0) (gotMemberList s0)
                    else s0 in
                  let s2 :=
                    mk (ID actual) (Name s1) (ClusterName s1) (IGName s1) (Policies s1)
                       (MaxSize s1) (Lifecycle s1) (members actual) (gotMemberList s1) in
                  mret (Some actual, Some s2)
              end
          end
          end
      end
  end.

(** [CheckChanges(a, e, changes)]; [None] is the nil error. *)
Definition CheckChanges (a : option t) (e changes : t) : option error :=
  match a with
  | None =>
      if Name e is None then Some (RequiredField "Name") else None
  | Some _ =>
      if ID changes is Some _ then Some (CannotChangeField "ID")
      else if Name changes is Some _ then Some (CannotChangeField "Name")
      else None
  end.

(** [AddNewMember]: [klog.Fatalf] aborts the program once the member list
    has been handed out; otherwise the member is appended. *)
Definition AddNewMember (memberID : string) (s : t) : outcome t :=
  if gotMemberList s then
    Panic "attempt to add member after member list already returned"
  else
    Return (mk (ID s) (Name s) (ClusterName s) (IGName s) (Policies s) (MaxSize s)
               (Lifecycle s) (members s ++ [memberID]) (gotMemberList s)).

(** [GetMembers]: sets the flag and returns the cached list. *)
Definition GetMembers (s : t) : list string * t :=
  (members s,
   mk (ID s) (Name s) (ClusterName s) (IGName s) (Policies s) (MaxSize s)
      (Lifecycle s) (members s) true).

Global Instance t_eq_dec : EqDecision t.
Proof. solve_decision. Defined.

(** Modelled from the spec: the all-unchanged test of the engine (package
    fi is not under src/) for a Changes of this task kind: every field
    carries the unchanged marker, the struct is its zero value. *)
Definition unchanged (changes : t) : bool := bool_decide (changes = empty).

(** A client of the task issues a sequence of the two calls. *)
Inductive op : Type :=
| OpAddNewMember (memberID : string)
| OpGetMembers.

(** One call: the task afterwards and, for [GetMembers], the list returned. *)
Definition step (o : op) (s : t) : outcome (t * option (list string)) :=
  match o with
  | OpAddNewMember memberID =>
      match AddNewMember memberID s with
      | Return s' => Return (s', None)
      | Raise e => Raise e
      | Panic msg => Panic msg
      end
  | OpGetMembers => let '(l, s') := GetMembers s in Return (s', Some l)
  end.

(** A sequence of calls: the task at the end and the lists [GetMembers]
    returned on the way, in order; the first abort ends the program. *)
Fixpoint exec (ops : list op) (s : t) : outcome (t * list (list string)) :=
  match ops with
  | [] => Return (s, [])
  | o :: rest =>
      match step o s with
      | Return (s', r) =>
          match exec rest s' with
          | Return (s'', rs) => Return (s'', from_option (fun l => [l]) [] r ++ rs)
          | Raise e => Raise e
          | Panic msg => Panic msg
          end
      | Raise e => Raise e
      | Panic msg => Panic msg
      end
  end.

End ServerGroup.

(** ** Package hcloud / hetzner: the part of the client the LoadBalancer task uses *)

Module hetzner.

Inductive LoadBalancerTargetType : Type :=
| LoadBalancerTargetTypeServer
| LoadBalancerTargetTypeLabelSelector
| LoadBalancerTargetTypeIP.

Record hcloud_LoadBalancerService : Type := {
  svc_Protocol : string;
  svc_ListenPort : Z;
  svc_DestinationPort : Z
}.

Record hcloud_LoadBalancerTarget : Type := {
  tgt_Type : LoadBalancerTargetType;
  tgt_LabelSelector : option string   (* [*LoadBalancerTargetLabelSelector], its Selector *)
}.

(** [hcloud.LoadBalancer], the fields [Find] reads. *)
Record hcloud_LoadBalancer : Type := {
  lb_ID : Z;
  lb_Name : string;
  lb_Labels : gmap string string;
  lb_Location : option string;           (* [*Location], its Name *)
  lb_LoadBalancerType : option string;   (* [*LoadBalancerType], its Name *)
  lb_Services : list hcloud_LoadBalancerService;
  lb_Targets : list hcloud_LoadBalancerTarget
}.

Inductive Call : Type :=
| LoadBalancerAll
| LoadBalancerGet (idOrName : string)
| LoadBalancerCreate (name : string)
| LoadBalancerUpdate (id : Z) (name : string)
| LoadBalancerAddService (id : Z) (listenPort destinationPort : option Z)
| LoadBalancerAddLabelSelectorTarget (id : Z) (selector : string).

Definition mutating (c : Call) : bool :=
  match c with
  | LoadBalancerAll | LoadBalancerGet _ => false
  | _ => true
  end.

(** [hetzner.HetznerCloud], restricted to what LoadBalancer.Find calls. *)
Class HetznerCloud (S : Type) : Type := {
  loadBalancerAll : S -> (fi.clouderror + list hcloud_LoadBalancer) * S
}.

End hetzner.

(** ** hetznertasks.LoadBalancer *)

Module LoadBalancer.
Import fi hetzner.

(** [hetznertasks.Network] (declared outside src/): a task with a name and
    the provider-assigned ID that [RenderHetzner] reads. *)
Record Network : Type := {
  Network_Name : option string;
  Network_ID : option Z
}.

Record LoadBalancerService : Type := {
  Protocol : string;
  ListenerPort : option Z;
  DestinationPort : option Z
}.

Record t : Type := mk {
  Name : option string;
  Lifecycle : fi.Lifecycle;
  Network_ : option Network;
  ID : option Z;
  Location : string;
  Type_ : string;
  Services : list LoadBalancerService;
  Target : string;
  Labels : gmap string string
}.

(** The zero value [&LoadBalancer{}]. *)
Definition empty : t := mk None "" None None "" "" [] "" ∅.

Definition IsForAPIServer (e : t) : bool := true.

(** The body of the loop of [Find] for the load balancer that matches. *)
Definition Find_matches (v : t) (loadbalancer : hcloud_LoadBalancer) : t :=
  {| Lifecycle := Lifecycle v;
     Name := String (lb_Name loadbalancer);
     ID := Int (lb_ID loadbalancer);
     Labels := lb_Labels loadbalancer;
     Location := default "" (lb_Location loadbalancer);
     Type_ := default "" (lb_LoadBalancerType loadbalancer);
     Services :=
       map (fun service =>
              {| Protocol := svc_Protocol service;
                 ListenerPort := Int (svc_ListenPort service);
                 DestinationPort := Int (svc_DestinationPort service) |})
           (lb_Services loadbalancer);
     Target :=
       fold_left
         (fun acc target =>
            match tgt_Type target, tgt_LabelSelector target with
            | LoadBalancerTargetTypeLabelSelector, Some selector => selector
            | _, _ => acc
            end)
         (lb_Targets loadbalancer) "";
     Network_ := Network_ v |}.

(** The loop of [Find]: the first listed load balancer of that name wins. *)
Fixpoint Find_loop (v : t) (loadbalancers : list hcloud_LoadBalancer) : option t * t :=
  match loadbalancers with
  | [] => (None, v)
  | loadbalancer :: rest =>
      if String.eqb (lb_Name loadbalancer) (StringValue (Name v)) then
        let matches := Find_matches v loadbalancer in
        (Some matches,
         mk (Name v) (Lifecycle v) (Network_ v) (ID matches) (Location v) (Type_ v)
            (Services v) (Target v) (Labels v))
      else Find_loop v rest
  end.

(** [Find] returns the observed task and the receiver after the call. *)
Definition Find {S} `{HetznerCloud S} (v : t) : M (World S Call) (option t * t) :=
  r ← call LoadBalancerAll loadBalancerAll;
  match r with
  | inl err => raise (CloudError err)
  | inr loadbalancers => mret (Find_loop v loadbalancers)
  end.

(** [CheckChanges(a, e, changes)]; [None] is the nil error. *)
Definition CheckChanges (a : option t) (e changes : t) : option error :=
  match a with
  | Some a =>
      if Name changes is Some _ then Some (CannotChangeField "Name")
      else if ID changes is Some _ then Some (CannotChangeField "ID")
      else if negb (String.eqb (Location changes) "") then Some (CannotChangeField "Location")
      else if negb (String.eqb (Type_ changes) "") then Some (CannotChangeField "Type")
      else if (0 <? length (Services changes)) && (0 <? length (Services a))
           then Some (CannotChangeField "Subnets")
      else if negb (String.eqb (Target changes) "") && negb (String.eqb (Target a) "")
           then Some (CannotChangeField "Target")
      else None
  | None =>
      if Name e is None then Some (RequiredField "Name")
      else if String.eqb (Location e) "" then Some (RequiredField "Location")
      else if String.eqb (Type_ e) "" then Some (RequiredField "Type")
      else if length (Services e) =? 0 then Some (RequiredField "Services")
      else if String.eqb (Target e) "" then Some (RequiredField "Target")
      else None
  end.

Global Instance Network_eq_dec : EqDecision Network.
Proof. solve_decision. Defined.
Global Instance LoadBalancerService_eq_dec : EqDecision LoadBalancerService.
Proof. solve_decision. Defined.
Global Instance t_eq_dec : EqDecision t.
Proof. solve_decision. Defined.

(** Modelled from the spec: the all-unchanged test of the engine (package
    fi is not under src/) for a Changes of this task kind: every field
    carries the unchanged marker, the struct is its zero value. *)
Definition unchanged (changes : t) : bool := bool_decide (changes = empty).

End LoadBalancer.

(** ** Packages sort and strconv *)

Module sort.

(** One step of the insertion sort behind [sort.Stable]: the new element
    moves left past every element it is [less] than.  [rp] is the sorted
    prefix, last element first. *)
Fixpoint insert {A} (less : A -> A -> bool) (x : A) (rp : list A) : list A :=
  match rp with
  | [] => [x]
  | y :: rp' => if less x y then y :: insert less x rp' else x :: y :: rp'
  end.

(** [sort.Stable(data)]: ascending by [less], equal elements keep their
    original order.  (Go sorts blocks by insertion and merges them stably;
    the outcome is that of insertion sort.) *)
Definition Stable {A} (less : A -> A -> bool) (data : list A) : list A :=
  reverse (fold_left (fun rp x => insert less x rp) data []).

(** The order a list sorted by [less := fun a b => key a < key b] is in:
    ascending keys, equal keys allowed. *)
Definition ascending {A} (key : A -> string) (a b : A) : Prop :=
  String.leb (key a) (key b) = true.

(** [sort.Strings(x)]. *)
Definition Strings (x : list string) : list string := Stable strings.lt x.

End sort.

Module strconv.

Definition digit (c : ascii) : option Z :=
  let n := Z.of_N (N_of_ascii c) in
  if (48 <=? n)%Z && (n <=? 57)%Z then Some (n - 48)%Z else None.

Fixpoint digits (s : string) (acc : Z) : option Z :=
  match s with
  | EmptyString => Some acc
  | String c s' =>
      match digit c with
      | Some d => digits s' (10 * acc + d)%Z
      | None => None
      end
  end.

(** [strconv.ParseInt(s, 10, 64)]: an optional sign, then at least one
    decimal digit and nothing else; [None] is the syntax or range error. *)
Definition ParseInt (s : string) : option Z :=
  let '(neg, body) :=
    match s with
    | String "-" s' => (true, s')
    | String "+" s' => (false, s')
    | _ => (false, s)
    end in
  match body with
  | EmptyString => None
  | _ =>
      match digits body 0 with
      | Some n =>
          let v := if neg then (- n)%Z else n in
          if (- 2 ^ 63 <=? v)%Z && (v <? 2 ^ 63)%Z then Some v else None
      | None => None
      end
  end.

(** [strconv.FormatInt(i, 10)] and [strconv.Itoa(i)]. *)
Definition FormatInt (i : Z) : string := NilZero.string_of_int (Z.to_int i).
Definition Itoa (i : Z) : string := FormatInt i.

End strconv.

(** ** openstacktasks.ServerGroup: RenderOpenstack *)

Module ServerGroupRender.
Import fi openstack ServerGroup.

(** What [RenderOpenstack] uses and src/ does not hold: the constant
    [openstack.TagKopsName] of the repository, and [strings.ToLower] of the Go
    library (a Unicode case mapping); both are parameters of the model. *)
Class External : Type := {
  TagKopsName : string;
  ToLower : string -> string
}.

Definition set_ID (e : t) (v : option string) : t :=
  mk v (Name e) (ClusterName e) (IGName e) (Policies e) (MaxSize e) (Lifecycle e)
     (members e) (gotMemberList e).

(** The name of the instance with index [currentLastIndex]:
    [strings.ToLower(fmt.Sprintf("%s-%d.%s", IGName, currentLastIndex, ClusterName))]
    with every "." replaced by "-". *)
Definition instanceName `{External} (a : t) (currentLastIndex : Z) : string :=
  let iName :=
    ToLower (StringValue (IGName a) +:+ "-" +:+ strconv.FormatInt currentLastIndex +:+ "."
             +:+ StringValue (ClusterName a)) in
  strings.Replace iName "." "-".

(** The listed servers the loop keeps: those of the cluster (metadata "k8s")
    whose name or whose [TagKopsName] metadata is the instance name. *)
Definition instancesNamed `{External} (a : t) (instanceName : string)
    (allInstances : list servers_Server) : list servers_Server :=
  List.filter
    (fun server =>
       match srv_Metadata server !! "k8s" with
       | None => false
       | Some val =>
           if negb (String.eqb val (StringValue (ClusterName a))) then false
           else
             let metadataName := default "" (srv_Metadata server !! TagKopsName) in
             String.eqb (srv_Name server) instanceName
             || String.eqb metadataName instanceName
       end)
    allInstances.

(** The scale-down loop of [RenderOpenstack]:
    [for currentLastIndex > changes.MaxSize { ...; currentLastIndex -= 1 }],
    started at [a.MaxSize].  [n] is the number of iterations left, so that
    [currentLastIndex] is [changes.MaxSize + n]. *)
Fixpoint RenderOpenstack_loop {S} `{OpenstackAPITarget S} `{External} (n : nat) (a changes : t)
    : M (World S Call) unit :=
  match n with
  | O => mret tt
  | Datatypes.S n' =>
      let currentLastIndex := (Int32Value (MaxSize changes) + Z.of_nat n)%Z in
      let instanceName := instanceName a currentLastIndex in
      let opts := "^" +:+ StringValue (IGName a) in
      r ← call (ListInstances opts) (listInstances opts);
      match r with
      | inl err => raise (Errorf "error fetching instance list: %v" [ArgError (CloudError err)])
      | inr allInstances =>
          let instances := instancesNamed a instanceName allInstances in
          match instances with
          | [server] =>
              r ← call (DeleteInstanceWithID (srv_ID server)) (deleteInstanceWithID (srv_ID server));
              match r with
              | inl err =>
                  raise (Errorf "Could not delete instance %s: %v"
                           [ArgString instanceName; ArgError (CloudError err)])
              | inr _ => RenderOpenstack_loop n' a changes
              end
          | _ =>
              raise (Errorf "found %d instances with name: %s"
                       [ArgInt (Z.of_nat (length instances)); ArgString instanceName])
          end
      end
  end.

(** The number of iterations of the loop: the observed [MaxSize] minus the
    changed one when [changes.MaxSize] is set and smaller, else none. *)
Definition scaleDown (a changes : t) : nat :=
  match MaxSize changes with
  | Some _ =>
      if (Int32Value (MaxSize a) >? Int32Value (MaxSize changes))%Z
      then Z.to_nat (Int32Value (MaxSize a) - Int32Value (MaxSize changes))
      else O
  | None => O
  end.

(** [RenderOpenstack(t, a, e, changes)].  The monad value is the desired task
    after the call: the create path writes the new [ID] into it. *)
Definition RenderOpenstack {S} `{OpenstackAPITarget S} `{External} (a : option t) (e changes : t)
    : M (World S Call) t :=
  match a with
  | None =>
      let c := CreateServerGroup (StringValue (Name e)) (Policies e) in
      r ← call c (createServerGroup (StringValue (Name e)) (Policies e));
      match r with
      | inl err => raise (Errorf "error creating ServerGroup: %v" [ArgError (CloudError err)])
      | inr g => mret (set_ID e (String (sg_ID g)))
      end
  | Some a =>
      RenderOpenstack_loop (scaleDown a changes) a changes;;
      mret e
  end.

End ServerGroupRender.

(** ** hetznertasks.LoadBalancer: RenderHetzner *)

Module LoadBalancerRender.
Import fi hetzner LoadBalancer.

(** The option structs of hcloud-go that [RenderHetzner] fills, by the fields
    it sets.  A [*LoadBalancerType], [*Location], [*LoadBalancerAlgorithm] or
    [*Network] built in place is kept as the one field given to it. *)
Record hcloud_LoadBalancerCreateOptsService : Type := {
  cos_Protocol : string;
  cos_ListenPort : option Z;
  cos_DestinationPort : option Z
}.

Record hcloud_LoadBalancerCreateOpts : Type := {
  co_Name : string;
  co_LoadBalancerType : string;
  co_Algorithm : string;
  co_Location : string;
  co_Labels : gmap string string;
  co_Services : list hcloud_LoadBalancerCreateOptsService;
  co_Network : Z
}.

Record hcloud_LoadBalancerUpdateOpts : Type := {
  uo_Name : string;
  uo_Labels : gmap string string
}.

Record hcloud_LoadBalancerAddServiceOpts : Type := {
  so_Protocol : string;
  so_ListenPort : option Z;
  so_DestinationPort : option Z
}.

Record hcloud_LoadBalancerAddLabelSelectorTargetOpts : Type := {
  to_Selector : string;
  to_UsePrivateIP : option bool
}.

(** The calls of [RenderHetzner] on the load balancer client, with what is
    passed: the handle [loadbalancer] is a pointer and may be nil. *)
Inductive Call : Type :=
| Create (opts : hcloud_LoadBalancerCreateOpts)
| Get (idOrName : string)
| Update (loadbalancer : option hcloud_LoadBalancer) (opts : hcloud_LoadBalancerUpdateOpts)
| AddService (loadbalancer : option hcloud_LoadBalancer) (opts : hcloud_LoadBalancerAddServiceOpts)
| AddLabelSelectorTarget (loadbalancer : option hcloud_LoadBalancer)
    (opts : hcloud_LoadBalancerAddLabelSelectorTargetOpts).

(** [t.Cloud.LoadBalancerClient()]: the answers of the client, and the two
    constants of hcloud-go the code names.  [Create] answers with
    [result.LoadBalancer], [Get] with the load balancer, nil when there is
    none of that ID. *)
Class LoadBalancerClient (S : Type) : Type := {
  LoadBalancerServiceProtocolTCP : string;
  LoadBalancerAlgorithmTypeRoundRobin : string;
  client_Create :
    hcloud_LoadBalancerCreateOpts -> S -> (clouderror + option hcloud_LoadBalancer) * S;
  client_Get : string -> S -> (clouderror + option hcloud_LoadBalancer) * S;
  client_Update :
    option hcloud_LoadBalancer -> hcloud_LoadBalancerUpdateOpts -> S -> (clouderror + unit) * S;
  client_AddService :
    option hcloud_LoadBalancer -> hcloud_LoadBalancerAddServiceOpts -> S ->
    (clouderror + unit) * S;
  client_AddLabelSelectorTarget :
    option hcloud_LoadBalancer -> hcloud_LoadBalancerAddLabelSelectorTargetOpts -> S ->
    (clouderror + unit) * S
}.

(** The options of the create call. *)
Definition createOpts {S} `{LoadBalancerClient S} (e : t) (network : Network)
    : hcloud_LoadBalancerCreateOpts :=
  {| co_Name := StringValue (Name e);
     co_LoadBalancerType := Type_ e;
     co_Algorithm := LoadBalancerAlgorithmTypeRoundRobin;
     co_Location := Location e;
     co_Labels := Labels e;
     co_Services :=
       [{| cos_Protocol := LoadBalancerServiceProtocolTCP;
           cos_ListenPort := Int 443;
           cos_DestinationPort := Int 443 |}];
     co_Network := IntValue (Network_ID network) |}.

(** The loop over [e.Services] of the update path: one [AddService] each, the
    first error ends the function. *)
Fixpoint addServices {S} `{LoadBalancerClient S} (loadbalancer : option hcloud_LoadBalancer)
    (services : list LoadBalancerService) : M (World S Call) unit :=
  match services with
  | [] => mret tt
  | service :: rest =>
      let opts := {| so_Protocol := Protocol service;
                     so_ListenPort := ListenerPort service;
                     so_DestinationPort := DestinationPort service |} in
      r ← call (AddService loadbalancer opts) (client_AddService loadbalancer opts);
      check r CloudError;;
      addServices loadbalancer rest
  end.

(** [RenderHetzner(t, a, e, changes)]. *)
Definition RenderHetzner {S} `{LoadBalancerClient S} (a : option t) (e changes : t)
    : M (World S Call) unit :=
  loadbalancer ←
    match a with
    | None =>
        match Network_ e with
        | None =>
            raise (Errorf "failed to find network for loadbalancer %q"
                     [ArgString (StringValue (Name e))])
        | Some network =>
            let opts := createOpts e network in
            r ← call (Create opts) (client_Create opts);
            match r with
            | inl err => raise (CloudError err)
            | inr loadbalancer => mret loadbalancer
            end
        end
    | Some a =>
        let id := strconv.Itoa (IntValue (ID a)) in
        r ← call (Get id) (client_Get id);
        match r with
        | inl err => raise (CloudError err)
        | inr loadbalancer =>
            (if bool_decide (is_Some (Name changes)) || negb (size (Labels changes) =? 0) then
               let opts := {| uo_Name := StringValue (Name e); uo_Labels := Labels e |} in
               r ← call (Update loadbalancer opts) (client_Update loadbalancer opts);
               check r CloudError
             else mret tt);;
            (if 0 <? length (Services changes) then addServices loadbalancer (Services e)
             else mret tt);;
            mret loadbalancer
        end
    end;
  if match a with None => true | Some a => String.eqb (Target a) "" end then
    let opts := {| to_Selector := Target e; to_UsePrivateIP := Bool true |} in
    r ← call (AddLabelSelectorTarget loadbalancer opts)
          (client_AddLabelSelectorTarget loadbalancer opts);
    check r CloudError
  else mret tt.

Definition set_Services (e : t) (v : list LoadBalancerService) : t :=
  mk (Name e) (Lifecycle e) (Network_ e) (ID e) (Location e) (Type_ e) v (Target e) (Labels e).
Definition set_Network (e : t) (v : option Network) : t :=
  mk (Name e) (Lifecycle e) v (ID e) (Location e) (Type_ e) (Services e) (Target e) (Labels e).

End LoadBalancerRender.

(** ** Package awsup and the AWS SDK types the tasks use *)

Module awsup.

(** [elb.Listener]. *)
Record elb_Listener : Type := {
  LoadBalancerPort : option Z;
  InstancePort : option Z;
  Protocol : option string;
  InstanceProtocol : option string;
  SSLCertificateId : option string
}.

(** [elb.LoadBalancerDescription], the fields the tasks read. *)
Record elb_LoadBalancerDescription : Type := {
  LoadBalancerName : option string;
  DNSName : option string;
  CanonicalHostedZoneNameID : option string;
  Scheme : option string;
  lbd_Subnets : list (option string);
  lbd_SecurityGroups : list (option string);
  ListenerDescriptions : list elb_Listener
}.

(** [elb.HealthCheck]. *)
Record elb_HealthCheck : Type := {
  hc_Target : option string;
  hc_HealthyThreshold : option Z;
  hc_UnhealthyThreshold : option Z;
  hc_Interval : option Z;
  hc_Timeout : option Z
}.

(** [elb.LoadBalancerAttributes] with its four parts, each a pointer. *)
Record elb_AccessLog : Type := {
  al_EmitInterval : option Z;
  al_Enabled : option bool;
  al_S3BucketName : option string;
  al_S3BucketPrefix : option string
}.
Record elb_ConnectionDraining : Type := {
  cd_Enabled : option bool;
  cd_Timeout : option Z
}.
Record elb_LoadBalancerAttributes : Type := {
  attr_AccessLog : option elb_AccessLog;
  attr_ConnectionDraining : option elb_ConnectionDraining;
  attr_ConnectionSettings : option (option Z);        (* its IdleTimeout *)
  attr_CrossZoneLoadBalancing : option (option bool)  (* its Enabled *)
}.

(** [elb.CreateLoadBalancerInput]. *)
Record elb_CreateLoadBalancerInput : Type := {
  clb_LoadBalancerName : option string;
  clb_Scheme : option string;
  clb_Subnets : list (option string);
  clb_SecurityGroups : list (option string);
  clb_Listeners : list elb_Listener
}.

(** [autoscaling.Tag]. *)
Record autoscaling_Tag : Type := {
  tag_Key : option string;
  tag_Value : option string;
  tag_ResourceId : option string;
  tag_ResourceType : option string;
  tag_PropagateAtLaunch : option bool
}.

(** [autoscaling.LaunchTemplateSpecification]. *)
Record autoscaling_LaunchTemplateSpecification : Type := {
  lts_LaunchTemplateId : option string;
  lts_LaunchTemplateName : option string;
  lts_Version : option string
}.

(** [awstasks.InstanceRequirements] (declared outside src/). *)
Record InstanceRequirements : Type := {
  Architecture : option string;
  CPUMin : option Z;
  CPUMax : option Z;
  MemoryMin : option Z;
  MemoryMax : option Z
}.

(** [autoscaling.LaunchTemplateOverrides]: an instance type, or the
    requirements built by [overridesFromInstanceRequirements]. *)
Inductive autoscaling_LaunchTemplateOverrides : Type :=
| OverrideInstanceType (instanceType : option string)
| OverrideInstanceRequirements (ir : InstanceRequirements).

(** [autoscaling.LaunchTemplate]. *)
Record autoscaling_LaunchTemplate : Type := {
  lt_LaunchTemplateSpecification : option autoscaling_LaunchTemplateSpecification;
  lt_Overrides : list autoscaling_LaunchTemplateOverrides
}.

(** [autoscaling.InstancesDistribution]. *)
Record autoscaling_InstancesDistribution : Type := {
  OnDemandAllocationStrategy : option string;
  OnDemandBaseCapacity : option Z;
  OnDemandPercentageAboveBaseCapacity : option Z;
  SpotAllocationStrategy : option string;
  SpotInstancePools : option Z;
  SpotMaxPrice : option string
}.

(** [autoscaling.MixedInstancesPolicy]. *)
Record autoscaling_MixedInstancesPolicy : Type := {
  InstancesDistribution : option autoscaling_InstancesDistribution;
  mip_LaunchTemplate : option autoscaling_LaunchTemplate
}.

(** [autoscaling.Group], the fields the tasks read. *)
Record autoscaling_Group : Type := {
  AutoScalingGroupName : option string;
  Status : option string;
  g_MaxSize : option Z;
  g_MinSize : option Z;
  LoadBalancerNames : list (option string);
  g_TargetGroupARNs : list (option string);
  VPCZoneIdentifier : option string;
  EnabledMetrics : list (option string * option string);   (* Metric, Granularity *)
  g_Tags : list (option string * option string);           (* Key, Value *)
  g_LaunchTemplate : option autoscaling_LaunchTemplateSpecification;
  g_MixedInstancesPolicy : option autoscaling_MixedInstancesPolicy;
  SuspendedProcesses : list (option string);               (* ProcessName *)
  NewInstancesProtectedFromScaleIn : option bool
}.

(** [autoscaling.CreateAutoScalingGroupInput]. *)
Record autoscaling_CreateAutoScalingGroupInput : Type := {
  cr_AutoScalingGroupName : option string;
  cr_MinSize : option Z;
  cr_MaxSize : option Z;
  cr_NewInstancesProtectedFromScaleIn : option bool;
  cr_Tags : list autoscaling_Tag;
  cr_VPCZoneIdentifier : option string;
  cr_LoadBalancerNames : list (option string);
  cr_TargetGroupARNs : list (option string);
  cr_MixedInstancesPolicy : option autoscaling_MixedInstancesPolicy;
  cr_LaunchTemplate : option autoscaling_LaunchTemplateSpecification
}.

(** [autoscaling.UpdateAutoScalingGroupInput]. *)
Record autoscaling_UpdateAutoScalingGroupInput : Type := {
  up_AutoScalingGroupName : option string;
  up_LaunchTemplate : option autoscaling_LaunchTemplateSpecification;
  up_MixedInstancesPolicy : option autoscaling_MixedInstancesPolicy;
  up_MinSize : option Z;
  up_MaxSize : option Z;
  up_VPCZoneIdentifier : option string;
  up_NewInstancesProtectedFromScaleIn : option bool
}.

(** The calls the tasks issue through [awsup.AWSCloud] and
    [awsup.AWSAPITarget], each with its request. *)
Inductive Call : Type :=
| FindELBByNameTag (name : string)
| DescribeELBTags (loadBalancerNames : list string)
| DescribeLoadBalancersPages (loadBalancerNames : list string)
| DescribeLoadBalancerAttributes (loadBalancerName : string)
| CreateLoadBalancer (request : elb_CreateLoadBalancerInput)
| DetachLoadBalancerFromSubnets (loadBalancerName : string) (subnets : list string)
| AttachLoadBalancerToSubnets (loadBalancerName : string) (subnets : list string)
| ApplySecurityGroupsToLoadBalancer (loadBalancerName : string)
    (securityGroups : list (option string))
| DeleteLoadBalancerListeners (loadBalancerName : string) (ports : list Z)
| CreateLoadBalancerListeners (loadBalancerName : string) (listeners : list elb_Listener)
| AddELBTags (loadBalancerName : string) (tags : gmap string string)
| RemoveELBTags (loadBalancerName : string) (tags : gmap string string)
| ConfigureHealthCheck (loadBalancerName : string) (healthCheck : elb_HealthCheck)
| ModifyLoadBalancerAttributes (loadBalancerName : string)
| DescribeAutoScalingGroupsPages (autoScalingGroupNames : list string)
| CreateAutoScalingGroup (request : autoscaling_CreateAutoScalingGroupInput)
| UpdateAutoScalingGroup (request : autoscaling_UpdateAutoScalingGroupInput)
| EnableMetricsCollection (name granularity : option string) (metrics : list string)
| SuspendProcesses (name : option string) (processes : list string)
| ResumeProcesses (name : option string) (processes : list string)
| DeleteTags (tags : list autoscaling_Tag)
| CreateOrUpdateTags (tags : list autoscaling_Tag)
| DetachLoadBalancers (name : option string) (loadBalancerNames : list (option string))
| AttachLoadBalancers (name : option string) (loadBalancerNames : list (option string))
| DetachLoadBalancerTargetGroups (name : option string) (arns : list (option string))
| AttachLoadBalancerTargetGroups (name : option string) (arns : list (option string)).

(** Calls that only read the cloud. *)
Definition readonly (c : Call) : bool :=
  match c with
  | FindELBByNameTag _ | DescribeELBTags _ | DescribeLoadBalancersPages _
  | DescribeLoadBalancerAttributes _ | DescribeAutoScalingGroupsPages _ => true
  | _ => false
  end.

(** [awsup.AWSCloud]: the answers of the cloud.  [perform] answers every call
    whose output the tasks ignore. *)
Class AWSCloud (S : Type) : Type := {
  findELBByNameTag : string -> S -> (fi.clouderror + option elb_LoadBalancerDescription) * S;
  describeELBTags :
    list string -> S -> (fi.clouderror + gmap string (list (option string * option string))) * S;
  describeLoadBalancersPages :
    list string -> S -> (fi.clouderror + list (list elb_LoadBalancerDescription)) * S;
  describeAutoScalingGroupsPages :
    list string -> S -> (fi.clouderror + list (list autoscaling_Group)) * S;
  createLoadBalancer : elb_CreateLoadBalancerInput -> S -> (fi.clouderror + option string) * S;
  perform : Call -> S -> (fi.clouderror + unit) * S
}.

(** Modelled from the spec: [awsup.AWSErrorCode] and [awsup.AWSErrorMessage]
    (package awsup is not under src/): the code and the message of an
    [awserr.Error], the empty string for any other error. *)
Definition AWSErrorCode (err : fi.clouderror) : string :=
  match err with fi.AwsError code _ => code | _ => "" end.
Definition AWSErrorMessage (err : fi.clouderror) : string :=
  match err with fi.AwsError _ message => message | _ => "" end.

End awsup.

(** ** Document targets: Terraform and CloudFormation *)

Module terraformWriter.

(** [terraformWriter.Literal], by the constructors the tasks call. *)
Inductive Literal : Type :=
| LiteralFromStringValue (s : string)
| LiteralProperty (resourceType resourceName prop : string).

End terraformWriter.

Module cloudformation.

(** [cloudformation.Literal], by the constructors the tasks call. *)
Inductive Literal : Type :=
| LiteralString (s : string)
| Ref (resourceType resourceName : string)
| GetAtt (resourceType resourceName attribute : string).

End cloudformation.

Module target.

(** Modelled from the spec: [TerraformTarget] and [CloudformationTarget] with
    their [RenderResource] (packages terraform and cloudformation are not
    under src/): a document-emit target accumulates resource blocks, each a
    resource type, a resource name and the rendered item. *)
Record Document (Item : Type) : Type := { resources : list (string * string * Item) }.
Arguments resources {Item} d.

Definition RenderResource {Item} (resourceType resourceName : string) (item : Item)
    : M (Document Item) unit :=
  fun t => (Return tt, {| resources := resources t ++ [(resourceType, resourceName, item)] |}).

End target.

(** ** awstasks: the tasks referenced by the load balancer and the group *)

Module awstasks.

(** [awstasks.Subnet] and [awstasks.SecurityGroup] (declared outside src/):
    tasks with a name and the provider-assigned ID the code here reads. *)
Record Subnet : Type := { Subnet_Name : option string; Subnet_ID : option string }.
Record SecurityGroup : Type := { SecurityGroup_Name : option string; SecurityGroup_ID : option string }.

(** [awstasks.LaunchTemplate] and [awstasks.TargetGroup] (declared outside
    src/), by the fields the code here reads. *)
Record LaunchTemplate : Type := { LaunchTemplate_Name : option string; LaunchTemplate_ID : option string }.
Record TargetGroup : Type := { TargetGroup_Name : option string; TargetGroup_ARN : option string }.

(** Modelled from the spec: the [Less] of [OrderSubnetsById], of
    [OrderSecurityGroupsById] and of [OrderTargetGroupsByName] (declared
    outside src/): the lists are sorted by key, the key read as a string; the
    sibling [OrderLoadBalancersByName] under src/ compares [fi.StringValue]
    of the key with [<] the same way. *)
Definition OrderSubnetsById (a b : Subnet) : bool :=
  strings.lt (fi.StringValue (Subnet_ID a)) (fi.StringValue (Subnet_ID b)).
Definition OrderSecurityGroupsById (a b : SecurityGroup) : bool :=
  strings.lt (fi.StringValue (SecurityGroup_ID a)) (fi.StringValue (SecurityGroup_ID b)).
Definition OrderTargetGroupsByName (a b : TargetGroup) : bool :=
  strings.lt (fi.StringValue (TargetGroup_Name a)) (fi.StringValue (TargetGroup_Name b)).

End awstasks.

(** ** awstasks.ClassicLoadBalancer *)

Module ClassicLoadBalancer.
Import fi awsup awstasks.

Record ClassicLoadBalancerListener : Type := {
  InstancePort : Z;
  SSLCertificateID : string
}.

Record ClassicLoadBalancerHealthCheck : Type := {
  Target : option string;
  HealthyThreshold : option Z;
  UnhealthyThreshold : option Z;
  Interval : option Z;
  Timeout : option Z
}.

Record ClassicLoadBalancerAccessLog : Type := {
  EmitInterval : option Z;
  AccessLog_Enabled : option bool;
  S3BucketName : option string;
  S3BucketPrefix : option string
}.

Record ClassicLoadBalancerConnectionDraining : Type := {
  ConnectionDraining_Enabled : option bool;
  ConnectionDraining_Timeout : option Z
}.

Record ClassicLoadBalancerConnectionSettings : Type := {
  IdleTimeout : option Z
}.

Record ClassicLoadBalancerCrossZoneLoadBalancing : Type := {
  CrossZoneLoadBalancing_Enabled : option bool
}.

Record t : Type := mk {
  Name : option string;
  Lifecycle : fi.Lifecycle;
  LoadBalancerName : option string;
  DNSName : option string;
  HostedZoneId : option string;
  Subnets : option (list Subnet);
  SecurityGroups : option (list SecurityGroup);
  Listeners : option (gmap string ClassicLoadBalancerListener);
  Scheme : option string;
  HealthCheck : option ClassicLoadBalancerHealthCheck;
  AccessLog : option ClassicLoadBalancerAccessLog;
  ConnectionDraining : option ClassicLoadBalancerConnectionDraining;
  ConnectionSettings : option ClassicLoadBalancerConnectionSettings;
  CrossZoneLoadBalancing : option ClassicLoadBalancerCrossZoneLoadBalancing;
  SSLCertificateID_ : string;
  Tags : gmap string string;
  ForAPIServer : bool;
  Shared : option bool
}.

(** The zero value [&ClassicLoadBalancer{}]. *)
Definition empty : t :=
  mk None "" None None None None None None None None None None None None "" ∅ false None.

(** The elements of a slice that may be nil, and of a map that may be nil. *)
Definition elems {A} (s : option (list A)) : list A := default [] s.
Definition entries {A} (m : option (gmap string A)) : list (string * A) :=
  from_option map_to_list [] m.

Definition set_Subnets (e : t) (v : option (list Subnet)) : t :=
  mk (Name e) (Lifecycle e) (LoadBalancerName e) (DNSName e) (HostedZoneId e) v
     (SecurityGroups e) (Listeners e) (Scheme e) (HealthCheck e) (AccessLog e)
     (ConnectionDraining e) (ConnectionSettings e) (CrossZoneLoadBalancing e)
     (SSLCertificateID_ e) (Tags e) (ForAPIServer e) (Shared e).
Definition set_SecurityGroups (e : t) (v : option (list SecurityGroup)) : t :=
  mk (Name e) (Lifecycle e) (LoadBalancerName e) (DNSName e) (HostedZoneId e) (Subnets e)
     v (Listeners e) (Scheme e) (HealthCheck e) (AccessLog e)
     (ConnectionDraining e) (ConnectionSettings e) (CrossZoneLoadBalancing e)
     (SSLCertificateID_ e) (Tags e) (ForAPIServer e) (Shared e).
Definition set_LoadBalancerName (e : t) (v : option string) : t :=
  mk (Name e) (Lifecycle e) v (DNSName e) (HostedZoneId e) (Subnets e)
     (SecurityGroups e) (Listeners e) (Scheme e) (HealthCheck e) (AccessLog e)
     (ConnectionDraining e) (ConnectionSettings e) (CrossZoneLoadBalancing e)
     (SSLCertificateID_ e) (Tags e) (ForAPIServer e) (Shared e).
Definition set_DNSName (e : t) (v : option string) : t :=
  mk (Name e) (Lifecycle e) (LoadBalancerName e) v (HostedZoneId e) (Subnets e)
     (SecurityGroups e) (Listeners e) (Scheme e) (HealthCheck e) (AccessLog e)
     (ConnectionDraining e) (ConnectionSettings e) (CrossZoneLoadBalancing e)
     (SSLCertificateID_ e) (Tags e) (ForAPIServer e) (Shared e).
Definition set_HostedZoneId (e : t) (v : option string) : t :=
  mk (Name e) (Lifecycle e) (LoadBalancerName e) (DNSName e) v (Subnets e)
     (SecurityGroups e) (Listeners e) (Scheme e) (HealthCheck e) (AccessLog e)
     (ConnectionDraining e) (ConnectionSettings e) (CrossZoneLoadBalancing e)
     (SSLCertificateID_ e) (Tags e) (ForAPIServer e) (Shared e).

Definition CompareWithID (e : t) : option string := Name e.

(** [ClassicLoadBalancerListener.mapToAWS]. *)
Definition mapToAWS (e : ClassicLoadBalancerListener) (loadBalancerPort : Z) : elb_Listener :=
  if negb (String.eqb (SSLCertificateID e) "") then
    {| awsup.LoadBalancerPort := Some loadBalancerPort;
       awsup.InstancePort := Some (InstancePort e);
       Protocol := Some "SSL";
       InstanceProtocol := Some "SSL";
       SSLCertificateId := Some (SSLCertificateID e) |}
  else
    {| awsup.LoadBalancerPort := Some loadBalancerPort;
       awsup.InstancePort := Some (InstancePort e);
       Protocol := Some "TCP";
       InstanceProtocol := Some "TCP";
       SSLCertificateId := None |}.

(** [describeLoadBalancers]: every page is filtered; a failed listing
    discards what was found. *)
Definition describeLoadBalancers {S} `{AWSCloud S} (loadBalancerNames : list string)
    (filter : elb_LoadBalancerDescription -> bool)
    : M (World S Call) (error + list elb_LoadBalancerDescription) :=
  r ← call (DescribeLoadBalancersPages loadBalancerNames)
        (describeLoadBalancersPages loadBalancerNames);
  match r with
  | inl err => mret (inl (Errorf "error listing ELBs: %v" [ArgError (CloudError err)]))
  | inr pages => mret (inr (List.filter filter (concat pages)))
  end.

(** [findLoadBalancerByLoadBalancerName]. *)
Definition findLoadBalancerByLoadBalancerName {S} `{AWSCloud S} (loadBalancerName : string)
    : M (World S Call) (option elb_LoadBalancerDescription) :=
  r ← describeLoadBalancers [loadBalancerName]
        (fun lb => String.eqb (StringValue (awsup.LoadBalancerName lb)) loadBalancerName);
  match r with
  | inl err =>
      match err with
      | CloudError (AwsError "LoadBalancerNotFound" _) => mret None
      | _ => raise (Errorf "error listing ELBs: %v" [ArgError err])
      end
  | inr found =>
      match found with
      | [] => mret None
      | [lb] => mret (Some lb)
      | _ => raise (Errorf "Found multiple ELBs with name %q" [ArgString loadBalancerName])
      end
  end.

Definition IsForAPIServer (e : t) : bool := ForAPIServer e.

(** The [Less] of [OrderLoadBalancersByName]. *)
Definition OrderLoadBalancersByName (a b : t) : bool :=
  strings.lt (StringValue (Name a)) (StringValue (Name b)).

(** [ShouldCreate(a, e, changes)]: the boolean and the nil error. *)
Definition ShouldCreate (a : option t) (e changes : t) : bool * option error :=
  if BoolValue (Shared e) then (false, None) else (true, None).

(** [Normalize]: both lists are sorted in place, stably, by ID. *)
Definition Normalize (e : t) : t :=
  set_SecurityGroups
    (set_Subnets e (sort.Stable OrderSubnetsById <$> Subnets e))
    (sort.Stable OrderSecurityGroupsById <$> SecurityGroups e).

(** [CheckChanges(a, e, changes)]; [None] is the nil error. *)
Definition CheckChanges (a : option t) (e changes : t) : option error :=
  match a with
  | None =>
      if String.eqb (StringValue (Name e)) "" then Some (RequiredField "Name")
      else if negb (BoolValue (Shared e)) && (length (elems (SecurityGroups e)) =? 0)
           then Some (RequiredField "SecurityGroups")
      else if negb (BoolValue (Shared e)) && (length (elems (Subnets e)) =? 0)
           then Some (RequiredField "Subnets")
      else
        match
          match AccessLog e with
          | Some al =>
              match AccessLog_Enabled al with
              | None => Some (RequiredField "Acceslog.Enabled")
              | Some true =>
                  if S3BucketName al is None then Some (RequiredField "Acceslog.S3Bucket")
                  else None
              | Some false => None
              end
          | None => None
          end
        with
        | Some err => Some err
        | None =>
            match
              match ConnectionDraining e with
              | Some cd =>
                  if ConnectionDraining_Enabled cd is None
                  then Some (RequiredField "ConnectionDraining.Enabled") else None
              | None => None
              end
            with
            | Some err => Some err
            | None =>
                match CrossZoneLoadBalancing e with
                | Some cz =>
                    if CrossZoneLoadBalancing_Enabled cz is None
                    then Some (RequiredField "CrossZoneLoadBalancing.Enabled") else None
                | None => None
                end
            end
        end
  | Some _ => None
  end.

(** Helpers of the repository that are declared outside src/ and called by
    the render functions below; they are parameters of the model. *)
Class External (S : Type) : Type := {
  (* [slice.GetUniqueStrings(main, extra)] *)
  GetUniqueStrings : list string -> list string -> list string;
  (* the method [modifyLoadBalancerAttributes(t, a, e, changes)] *)
  modifyLoadBalancerAttributes : option t -> t -> t -> M (World S Call) unit;
  (* [cloud.BuildTags(name)] *)
  BuildTags : option string -> gmap string string;
  (* [TerraformLink()] of Subnet and of SecurityGroup *)
  Subnet_TerraformLink : Subnet -> terraformWriter.Literal;
  SecurityGroup_TerraformLink : SecurityGroup -> terraformWriter.Literal;
  (* [terraformWriter.SortLiterals] *)
  SortLiterals : list terraformWriter.Literal -> list terraformWriter.Literal;
  (* [CloudformationLink()] of Subnet and of SecurityGroup *)
  Subnet_CloudformationLink : Subnet -> cloudformation.Literal;
  SecurityGroup_CloudformationLink : SecurityGroup -> cloudformation.Literal;
  (* [buildCloudformationTags(tags)], each tag a key and a value *)
  buildCloudformationTags : gmap string string -> list (string * string);
  (* [fi.ToString] on a [*int64] *)
  ToString : option Z -> option string;
  (* [findHealthCheck(lb)] *)
  findHealthCheck : elb_LoadBalancerDescription -> outcome (option ClassicLoadBalancerHealthCheck);
  (* [findELBAttributes(cloud, name)] *)
  findELBAttributes : string -> M (World S Call) (option elb_LoadBalancerAttributes);
  (* [subnetSlicesEqualIgnoreOrder(l, r)] *)
  subnetSlicesEqualIgnoreOrder : list Subnet -> list Subnet -> bool
}.

(** The listeners of a request: every port of the map is parsed and the
    listener mapped; the first port that does not parse ends the function.
    (Go leaves the order in which a map is ranged over unspecified; the model
    takes that of [map_to_list].) *)
Fixpoint awsListeners {W} (l : list (string * ClassicLoadBalancerListener))
    : M W (list elb_Listener) :=
  match l with
  | [] => mret []
  | (loadBalancerPort, listener) :: rest =>
      match strconv.ParseInt loadBalancerPort with
      | None =>
          raise (Errorf "error parsing load balancer listener port: %q"
                   [ArgString loadBalancerPort])
      | Some loadBalancerPortInt =>
          ls ← awsListeners rest;
          mret (mapToAWS listener loadBalancerPortInt :: ls)
      end
  end.

(** [RenderAWS(t, a, e, changes)].  The monad value is the desired task after
    the call: the create path writes [DNSName] and [HostedZoneId] into it. *)
Definition RenderAWS {S} `{AWSCloud S} `{External S} (a : option t) (e changes : t)
    : M (World S Call) t :=
  let shared := BoolValue (Shared e) in
  if shared then mret e
  else
    '(loadBalancerName, e) ←
      match a with
      | None =>
          match LoadBalancerName e with
          | None => raise (RequiredField "LoadBalancerName")
          | Some loadBalancerName =>
              listeners ← awsListeners (entries (Listeners e));
              let request :=
                {| clb_LoadBalancerName := LoadBalancerName e;
                   clb_Scheme := Scheme e;
                   clb_Subnets := map Subnet_ID (elems (Subnets e));
                   clb_SecurityGroups := map SecurityGroup_ID (elems (SecurityGroups e));
                   clb_Listeners := listeners |} in
              r ← call (CreateLoadBalancer request) (createLoadBalancer request);
              match r with
              | inl err => raise (Errorf "error creating ELB: %v" [ArgError (CloudError err)])
              | inr response_DNSName =>
                  let e := set_DNSName e response_DNSName in
                  lb ← findLoadBalancerByLoadBalancerName loadBalancerName;
                  match lb with
                  | None =>
                      raise (Errorf "Unable to find newly created ELB %q"
                               [ArgString loadBalancerName])
                  | Some lb =>
                      mret (loadBalancerName,
                            set_HostedZoneId e (CanonicalHostedZoneNameID lb))
                  end
              end
          end
      | Some a =>
          let loadBalancerName := StringValue (LoadBalancerName a) in
          match Subnets changes with
          | Some _ =>
              let expectedSubnets := map (fun s => StringValue (Subnet_ID s)) (elems (Subnets e)) in
              let actualSubnets := map (fun s => StringValue (Subnet_ID s)) (elems (Subnets a)) in
              let oldSubnetIDs := GetUniqueStrings expectedSubnets actualSubnets in
              (if 0 <? length oldSubnetIDs then
                 r ← call (DetachLoadBalancerFromSubnets loadBalancerName oldSubnetIDs)
                       (perform (DetachLoadBalancerFromSubnets loadBalancerName oldSubnetIDs));
                 check r (fun err =>
                   Errorf "Error detaching Load Balancer from old subnets: %v" [ArgError (CloudError err)])
               else mret tt);;
              let newSubnetIDs := GetUniqueStrings actualSubnets expectedSubnets in
              (if 0 <? length newSubnetIDs then
                 r ← call (AttachLoadBalancerToSubnets loadBalancerName newSubnetIDs)
                       (perform (AttachLoadBalancerToSubnets loadBalancerName newSubnetIDs));
                 check r (fun err =>
                   Errorf "Error attaching Load Balancer to new subnets: %v" [ArgError (CloudError err)])
               else mret tt)
          | None => mret tt
          end;;
          match SecurityGroups changes with
          | Some _ =>
              let c := ApplySecurityGroupsToLoadBalancer loadBalancerName
                         (map SecurityGroup_ID (elems (SecurityGroups e))) in
              r ← call c (perform c);
              check r (fun err =>
                Errorf "Error updating security groups on Load Balancer: %v" [ArgError (CloudError err)])
          | None => mret tt
          end;;
          match Listeners changes with
          | Some _ =>
              elbDescription ←
                (fun w =>
                   match findLoadBalancerByLoadBalancerName loadBalancerName w with
                   | (Raise err, w') =>
                       (Raise (Errorf "error getting load balancer by name: %v" [ArgError err]), w')
                   | r => r
                   end);
              match elbDescription with
              | Some _ =>
                  (* the result of the call is dropped *)
                  _ ← call (DeleteLoadBalancerListeners loadBalancerName [443%Z])
                        (perform (DeleteLoadBalancerListeners loadBalancerName [443%Z]));
                  mret tt
              | None => mret tt
              end;;
              listeners ← awsListeners (entries (Listeners changes));
              r ← call (CreateLoadBalancerListeners loadBalancerName listeners)
                    (perform (CreateLoadBalancerListeners loadBalancerName listeners));
              check r (fun err =>
                Errorf "error creating LoadBalancerListeners: %v" [ArgError (CloudError err)])
          | None => mret tt
          end;;
          mret (loadBalancerName, e)
      end;
    r ← call (AddELBTags loadBalancerName (Tags e)) (perform (AddELBTags loadBalancerName (Tags e)));
    check r CloudError;;
    r ← call (RemoveELBTags loadBalancerName (Tags e))
          (perform (RemoveELBTags loadBalancerName (Tags e)));
    check r CloudError;;
    match HealthCheck changes, HealthCheck e with
    | Some _, Some hc =>
        let c := ConfigureHealthCheck loadBalancerName
                   {| hc_Target := Target hc;
                      hc_HealthyThreshold := HealthyThreshold hc;
                      hc_UnhealthyThreshold := UnhealthyThreshold hc;
                      hc_Interval := Interval hc;
                      hc_Timeout := Timeout hc |} in
        r ← call c (perform c);
        check r (fun err =>
          Errorf "error configuring health checks on ELB: %v" [ArgError (CloudError err)])
    | _, _ => mret tt
    end;;
    modifyLoadBalancerAttributes a e changes;;
    mret e.

Record terraformLoadBalancerListener : Type := {
  tf_InstancePort : Z;
  tf_InstanceProtocol : string;
  tf_LBPort : Z;
  tf_LBProtocol : string;
  tf_SSLCertificateID : option string
}.

Record terraformLoadBalancerHealthCheck : Type := {
  tf_Target : option string;
  tf_HealthyThreshold : option Z;
  tf_UnhealthyThreshold : option Z;
  tf_Interval : option Z;
  tf_Timeout : option Z
}.

(** [terraformLoadBalancerAccessLog] and, below,
    [cloudformationClassicLoadBalancerAccessLog] (declared outside src/), by
    the fields the render functions fill. *)
Record terraformLoadBalancerAccessLog : Type := {
  tf_EmitInterval : option Z;
  tf_Enabled : option bool;
  tf_S3BucketName : option string;
  tf_S3BucketPrefix : option string
}.

Record terraformLoadBalancer : Type := {
  tf_LoadBalancerName : option string;
  tf_Listener : list terraformLoadBalancerListener;
  tf_SecurityGroups : list terraformWriter.Literal;
  tf_Subnets : list terraformWriter.Literal;
  tf_Internal : option bool;
  tf_HealthCheck : option terraformLoadBalancerHealthCheck;
  tf_AccessLog : option terraformLoadBalancerAccessLog;
  tf_ConnectionDraining : option bool;
  tf_ConnectionDrainingTimeout : option Z;
  tf_CrossZoneLoadBalancing : option bool;
  tf_IdleTimeout : option Z;
  tf_Tags : gmap string string
}.

Fixpoint terraformListeners {W} (l : list (string * ClassicLoadBalancerListener))
    : M W (list terraformLoadBalancerListener) :=
  match l with
  | [] => mret []
  | (loadBalancerPort, listener) :: rest =>
      match strconv.ParseInt loadBalancerPort with
      | None =>
          raise (Errorf "error parsing load balancer listener port: %q"
                   [ArgString loadBalancerPort])
      | Some loadBalancerPortInt =>
          ls ← terraformListeners rest;
          mret ((if negb (String.eqb (SSLCertificateID listener) "") then
                   {| tf_InstanceProtocol := "SSL";
                      tf_InstancePort := InstancePort listener;
                      tf_LBPort := loadBalancerPortInt;
                      tf_LBProtocol := "SSL";
                      tf_SSLCertificateID := Some (SSLCertificateID listener) |}
                 else
                   {| tf_InstanceProtocol := "TCP";
                      tf_InstancePort := InstancePort listener;
                      tf_LBPort := loadBalancerPortInt;
                      tf_LBProtocol := "TCP";
                      tf_SSLCertificateID := None |}) :: ls)
      end
  end.

(** [RenderTerraform(t, a, e, changes)]. *)
Definition RenderTerraform {S} `{External S} (a : option t) (e changes : t)
    : M (target.Document terraformLoadBalancer) unit :=
  let shared := BoolValue (Shared e) in
  if shared then mret tt
  else
    match LoadBalancerName e with
    | None => raise (RequiredField "LoadBalancerName")
    | Some _ =>
        listeners ← terraformListeners (entries (Listeners e));
        let tf :=
          {| tf_LoadBalancerName := LoadBalancerName e;
             tf_Internal :=
               if String.eqb (StringValue (Scheme e)) "internal" then Bool true else None;
             tf_Subnets := SortLiterals (map Subnet_TerraformLink (elems (Subnets e)));
             tf_SecurityGroups :=
               SortLiterals (map SecurityGroup_TerraformLink (elems (SecurityGroups e)));
             tf_Listener := listeners;
             tf_HealthCheck :=
               (fun hc => {| tf_Target := Target hc;
                             tf_HealthyThreshold := HealthyThreshold hc;
                             tf_UnhealthyThreshold := UnhealthyThreshold hc;
                             tf_Interval := Interval hc;
                             tf_Timeout := Timeout hc |}) <$> HealthCheck e;
             tf_AccessLog :=
               match AccessLog e with
               | Some al =>
                   if BoolValue (AccessLog_Enabled al) then
                     Some {| tf_EmitInterval := EmitInterval al;
                             tf_Enabled := AccessLog_Enabled al;
                             tf_S3BucketName := S3BucketName al;
                             tf_S3BucketPrefix := S3BucketPrefix al |}
                   else None
               | None => None
               end;
             tf_ConnectionDraining := ConnectionDraining e ≫= ConnectionDraining_Enabled;
             tf_ConnectionDrainingTimeout := ConnectionDraining e ≫= ConnectionDraining_Timeout;
             tf_IdleTimeout := ConnectionSettings e ≫= IdleTimeout;
             tf_CrossZoneLoadBalancing :=
               CrossZoneLoadBalancing e ≫= CrossZoneLoadBalancing_Enabled;
             tf_Tags := Tags e ∪ BuildTags (Name e) |} in
        match Name e with
        | None => panic "invalid memory address or nil pointer dereference"
        | Some name => target.RenderResource "aws_elb" name tf
        end
    end.

(** [TerraformLink(params...)]; [klog.Fatalf] aborts the program. *)
Definition TerraformLink (e : t) (params : list string) : outcome terraformWriter.Literal :=
  if BoolValue (Shared e) then
    match LoadBalancerName e with
    | None => Panic "Name must be set, if LB is shared"
    | Some loadBalancerName => Return (terraformWriter.LiteralFromStringValue loadBalancerName)
    end
  else
    let prop := match params with p :: _ => p | [] => "id" end in
    match Name e with
    | None => Panic "invalid memory address or nil pointer dereference"
    | Some name => Return (terraformWriter.LiteralProperty "aws_elb" name prop)
    end.

Record cloudformationClassicLoadBalancerListener : Type := {
  cf_InstancePort : string;
  cf_InstanceProtocol : string;
  cf_LoadBalancerPort : string;
  cf_LoadBalancerProtocol : string
}.

Record cloudformationClassicLoadBalancerHealthCheck : Type := {
  cf_Target : option string;
  cf_HealthyThreshold : option string;
  cf_UnhealthyThreshold : option string;
  cf_Interval : option string;
  cf_Timeout : option string
}.

Record cloudformationClassicLoadBalancerAccessLog : Type := {
  cf_EmitInterval : option Z;
  cf_Enabled : option bool;
  cf_S3BucketName : option string;
  cf_S3BucketPrefix : option string
}.

Record cloudformationConnectionDrainingPolicy : Type := {
  cf_cd_Enabled : option bool;
  cf_cd_Timeout : option Z
}.

Record cloudformationConnectionSettings : Type := {
  cf_IdleTimeout : option Z
}.

Record cloudformationClassicLoadBalancer : Type := {
  cf_LoadBalancerName : option string;
  cf_Listener : list cloudformationClassicLoadBalancerListener;
  cf_SecurityGroups : list cloudformation.Literal;
  cf_Subnets : list cloudformation.Literal;
  cf_Scheme : option string;
  cf_HealthCheck : option cloudformationClassicLoadBalancerHealthCheck;
  cf_AccessLog : option cloudformationClassicLoadBalancerAccessLog;
  cf_ConnectionDrainingPolicy : option cloudformationConnectionDrainingPolicy;
  cf_ConnectionSettings : option cloudformationConnectionSettings;
  cf_CrossZoneLoadBalancing : option bool;
  cf_Tags : list (string * string)
}.

(** [RenderCloudformation(t, a, e, changes)]. *)
Definition RenderCloudformation {S} `{External S} (a : option t) (e changes : t)
    : M (target.Document cloudformationClassicLoadBalancer) unit :=
  let shared := BoolValue (Shared e) in
  if shared then mret tt
  else
    match LoadBalancerName e with
    | None => raise (RequiredField "LoadBalancerName")
    | Some _ =>
        let tf :=
          {| cf_LoadBalancerName := LoadBalancerName e;
             cf_Scheme := Scheme e;
             cf_Subnets := map Subnet_CloudformationLink (elems (Subnets e));
             cf_SecurityGroups :=
               map SecurityGroup_CloudformationLink (elems (SecurityGroups e));
             cf_Listener :=
               map (fun '(loadBalancerPort, listener) =>
                      {| cf_InstanceProtocol := "TCP";
                         cf_InstancePort := strconv.Itoa (InstancePort listener);
                         cf_LoadBalancerPort := loadBalancerPort;
                         cf_LoadBalancerProtocol := "TCP" |})
                   (entries (Listeners e));
             cf_HealthCheck :=
               (fun hc => {| cf_Target := Target hc;
                             cf_HealthyThreshold := ToString (HealthyThreshold hc);
                             cf_UnhealthyThreshold := ToString (UnhealthyThreshold hc);
                             cf_Interval := ToString (Interval hc);
                             cf_Timeout := ToString (Timeout hc) |}) <$> HealthCheck e;
             cf_AccessLog :=
               match AccessLog e with
               | Some al =>
                   if BoolValue (AccessLog_Enabled al) then
                     Some {| cf_EmitInterval := EmitInterval al;
                             cf_Enabled := AccessLog_Enabled al;
                             cf_S3BucketName := S3BucketName al;
                             cf_S3BucketPrefix := S3BucketPrefix al |}
                   else None
               | None => None
               end;
             cf_ConnectionDrainingPolicy :=
               (fun cd => {| cf_cd_Enabled := ConnectionDraining_Enabled cd;
                             cf_cd_Timeout := ConnectionDraining_Timeout cd |})
                 <$> ConnectionDraining e;
             cf_ConnectionSettings :=
               (fun cs => {| cf_IdleTimeout := IdleTimeout cs |}) <$> ConnectionSettings e;
             cf_CrossZoneLoadBalancing :=
               CrossZoneLoadBalancing e ≫= CrossZoneLoadBalancing_Enabled;
             cf_Tags := buildCloudformationTags (Tags e ∪ BuildTags (Name e)) |} in
        match Name e with
        | None => panic "invalid memory address or nil pointer dereference"
        | Some name =>
            target.RenderResource "AWS::ElasticLoadBalancing::LoadBalancer" name tf
        end
    end.

(** A slice built by appending to a nil slice: still nil when nothing was
    appended. *)
Definition appended {A} (l : list A) : option (list A) :=
  match l with [] => None | _ => Some l end.

(** The tags of [Find]: those under the key [*e.LoadBalancerName], without
    the ones CloudFormation sets. *)
Definition Find_tags (tags : list (option string * option string)) : gmap string string :=
  fold_left
    (fun m '(key, value) =>
       if strings.HasPrefix (StringValue key) "aws:cloudformation:" then m
       else <[StringValue key := StringValue value]> m)
    tags ∅.

(** The listeners of [Find], by load balancer port. *)
Definition Find_listeners (lds : list elb_Listener) : gmap string ClassicLoadBalancerListener :=
  fold_left
    (fun m l =>
       <[strconv.FormatInt (Int64Value (awsup.LoadBalancerPort l)) :=
           {| InstancePort := Int64Value (awsup.InstancePort l);
              SSLCertificateID := StringValue (SSLCertificateId l) |}]> m)
    lds ∅.

(** [Find(c)] returns the observed task and the receiver after the call: a
    load balancer that is found fills [DNSName], [HostedZoneId] and
    [LoadBalancerName] of the receiver.  When the observed subnets are those
    of the receiver in another order, [actual.Subnets = e.Subnets] makes the
    two tasks share one slice, and [actual.Normalize()] then sorts that slice
    in place: the receiver's [Subnets] come back sorted as well. *)
Definition Find {S} `{AWSCloud S} `{External S} (e : t) : M (World S Call) (option t * t) :=
  let name := StringValue (Name e) in
  r ← call (FindELBByNameTag name) (findELBByNameTag name);
  match r with
  | inl err => raise (CloudError err)
  | inr None => mret (None, e)
  | inr (Some lb) =>
      match awsup.LoadBalancerName lb with
      | None => panic "invalid memory address or nil pointer dereference"
      | Some lbName =>
          r ← call (DescribeELBTags [lbName]) (describeELBTags [lbName]);
          match r with
          | inl err => raise (CloudError err)
          | inr tagMap =>
              match LoadBalancerName e with
              | None => panic "invalid memory address or nil pointer dereference"
              | Some eName =>
                  let tags := Find_tags (default [] (tagMap !! eName)) in
                  let subnets :=
                    appended (map (fun subnet => {| Subnet_Name := None; Subnet_ID := subnet |})
                                  (lbd_Subnets lb)) in
                  let securityGroups :=
                    appended (map (fun sg => {| SecurityGroup_Name := None;
                                                SecurityGroup_ID := sg |})
                                  (lbd_SecurityGroups lb)) in
                  healthcheck ← lift (findHealthCheck lb);
                  lbAttributes ← findELBAttributes (StringValue (awsup.LoadBalancerName lb));
                  attrs ←
                    match lbAttributes with
                    | None => mret (None, None, None, None)
                    | Some la =>
                        match attr_AccessLog la, attr_ConnectionDraining la,
                              attr_ConnectionSettings la, attr_CrossZoneLoadBalancing la with
                        | Some al, Some cd, Some idle, Some cz =>
                            mret (Some {| EmitInterval := al_EmitInterval al;
                                          AccessLog_Enabled := al_Enabled al;
                                          S3BucketName := al_S3BucketName al;
                                          S3BucketPrefix := al_S3BucketPrefix al |},
                                  Some {| ConnectionDraining_Enabled := cd_Enabled cd;
                                          ConnectionDraining_Timeout := cd_Timeout cd |},
                                  Some {| IdleTimeout := idle |},
                                  Some {| CrossZoneLoadBalancing_Enabled := cz |})
                        | _, _, _, _ =>
                            panic "invalid memory address or nil pointer dereference"
                        end
                    end;
                  let '(accessLog, connectionDraining, connectionSettings, crossZone) := attrs in
                  let actual :=
                    {| Name := Name e;
                       LoadBalancerName := awsup.LoadBalancerName lb;
                       DNSName := awsup.DNSName lb;
                       HostedZoneId := CanonicalHostedZoneNameID lb;
                       Scheme := awsup.Scheme lb;
                       Lifecycle := Lifecycle e;
                       ForAPIServer := ForAPIServer e;
                       Tags := tags;
                       Subnets :=
                         if subnetSlicesEqualIgnoreOrder (elems subnets) (elems (Subnets e))
                         then Subnets e else subnets;
                       SecurityGroups := securityGroups;
                       Listeners := Some (Find_listeners (ListenerDescriptions lb));
                       HealthCheck := healthcheck;
                       AccessLog := accessLog;
                       ConnectionDraining := connectionDraining;
                       ConnectionSettings := connectionSettings;
                       CrossZoneLoadBalancing := crossZone;
                       SSLCertificateID_ := "";
                       Shared := None |} in
                  let e := if DNSName e is None then set_DNSName e (DNSName actual) else e in
                  let e := if HostedZoneId e is None
                           then set_HostedZoneId e (HostedZoneId actual) else e in
                  let e := if LoadBalancerName e is None
                           then set_LoadBalancerName e (LoadBalancerName actual) else e in
                  let e :=
                    if negb (String.eqb (StringValue (LoadBalancerName e))
                                        (StringValue (LoadBalancerName actual)))
                    then set_LoadBalancerName e (LoadBalancerName actual) else e in
                  let e :=
                    if subnetSlicesEqualIgnoreOrder (elems subnets) (elems (Subnets e))
                    then set_Subnets e (Subnets (Normalize actual)) else e in
                  mret (Some (Normalize actual), e)
              end
          end
      end
  end.

(** [route53.AliasTarget], the fields the lookup reads. *)
Record route53_AliasTarget : Type := {
  alias_DNSName : option string;
  alias_HostedZoneId : option string
}.

(** [findLoadBalancerByAlias(cloud, alias)]: all load balancers are listed;
    the pointer [alias] is dereferenced. *)
Definition findLoadBalancerByAlias {S} `{AWSCloud S} (alias : option route53_AliasTarget)
    : M (World S Call) (option elb_LoadBalancerDescription) :=
  match alias with
  | None => panic "invalid memory address or nil pointer dereference"
  | Some alias =>
      let dnsName := StringValue (alias_DNSName alias) in
      let matchDnsName := strings.TrimSuffix dnsName "." in
      if String.eqb matchDnsName "" then raise (Errorf "DNSName not set on AliasTarget" [])
      else
        let matchHostedZoneId := StringValue (alias_HostedZoneId alias) in
        r ← describeLoadBalancers []
              (fun lb =>
                 if negb (String.eqb matchHostedZoneId
                            (StringValue (CanonicalHostedZoneNameID lb)))
                 then false
                 else
                   let lbDnsName := strings.TrimSuffix (StringValue (awsup.DNSName lb)) "." in
                   String.eqb lbDnsName matchDnsName
                   || String.eqb ("dualstack." +:+ lbDnsName) matchDnsName);
        match r with
        | inl err => raise (Errorf "error listing ELBs: %v" [ArgError err])
        | inr found =>
            match found with
            | [] => mret None
            | [lb] => mret (Some lb)
            | _ => raise (Errorf "Found multiple ELBs with DNSName %q" [ArgString dnsName])
            end
        end
  end.

(** [FindAddresses(context)]: the DNS name of the load balancer, nil when
    there is no load balancer or no name. *)
Definition FindAddresses {S} `{AWSCloud S} (e : t) : M (World S Call) (option (list string)) :=
  let name := StringValue (Name e) in
  r ← call (FindELBByNameTag name) (findELBByNameTag name);
  match r with
  | inl err => raise (CloudError err)
  | inr None => mret None
  | inr (Some lb) =>
      let lbDnsName := StringValue (awsup.DNSName lb) in
      if String.eqb lbDnsName "" then mret None else mret (Some [lbDnsName])
  end.

End ClassicLoadBalancer.

(** ** awstasks.AutoscalingGroup *)

Module AutoscalingGroup.
Import fi awsup awstasks.

Record t : Type := mk {
  Name : option string;
  Lifecycle : fi.Lifecycle;
  Granularity : option string;
  InstanceProtection : option bool;
  LaunchTemplate_ : option LaunchTemplate;
  LoadBalancers : option (list ClassicLoadBalancer.t);
  MaxSize : option Z;
  Metrics : option (list string);
  MinSize : option Z;
  MixedInstanceOverrides : option (list string);
  InstanceRequirements_ : option InstanceRequirements;
  MixedOnDemandAllocationStrategy : option string;
  MixedOnDemandBase : option Z;
  MixedOnDemandAboveBase : option Z;
  MixedSpotAllocationStrategy : option string;
  MixedSpotInstancePools : option Z;
  MixedSpotMaxPrice : option string;
  Subnets : option (list Subnet);
  SuspendProcesses_ : option (list string);
  Tags : option (gmap string string);
  TargetGroups : option (list TargetGroup)
}.

(** The zero value [&AutoscalingGroup{}]. *)
Definition empty : t :=
  mk None "" None None None None None None None None None None None None None None None
     None None None None.

Definition elems {A} (s : option (list A)) : list A := default [] s.
Definition entries {A} (m : option (gmap string A)) : list (string * A) :=
  from_option map_to_list [] m.

Definition set_Metrics (e : t) (v : option (list string)) : t :=
  mk (Name e) (Lifecycle e) (Granularity e) (InstanceProtection e) (LaunchTemplate_ e)
     (LoadBalancers e) (MaxSize e) v (MinSize e) (MixedInstanceOverrides e)
     (InstanceRequirements_ e) (MixedOnDemandAllocationStrategy e) (MixedOnDemandBase e)
     (MixedOnDemandAboveBase e) (MixedSpotAllocationStrategy e) (MixedSpotInstancePools e)
     (MixedSpotMaxPrice e) (Subnets e) (SuspendProcesses_ e) (Tags e) (TargetGroups e).

Definition CompareWithID (e : t) : option string := Name e.

(** [findAutoscalingGroup(cloud, name)]: groups with a Status (delete in
    progress) are skipped, groups of another name are skipped with a warning;
    a failed listing discards what was found. *)
Definition findAutoscalingGroup {S} `{AWSCloud S} (name : string)
    : M (World S Call) (option autoscaling_Group) :=
  r ← call (DescribeAutoScalingGroupsPages [name]) (describeAutoScalingGroupsPages [name]);
  match r with
  | inl err => raise (Errorf "error listing AutoscalingGroups: %v" [ArgError (CloudError err)])
  | inr pages =>
      let found :=
        List.filter
          (fun g =>
             match Status g with
             | Some _ => false
             | None => String.eqb (StringValue (AutoScalingGroupName g)) name
             end)
          (concat pages) in
      match found with
      | [] => mret None
      | [g] => mret (Some g)
      | _ => raise (Errorf "found multiple AutoscalingGroups with name: %q" [ArgString name])
      end
  end.

(** [normalize(c)]: the metrics are sorted in place; the error is nil. *)
Definition normalize (e : t) : t * option error :=
  (set_Metrics e (sort.Strings <$> Metrics e), None).

(** [CheckChanges(a, ex, changes)]; [None] is the nil error. *)
Definition CheckChanges (a : option t) (ex changes : t) : option error :=
  match a with
  | Some _ =>
      if Name ex is None then Some (RequiredField "Name") else None
  | None => None
  end.

(** [UseMixedInstancesPolicy]. *)
Definition UseMixedInstancesPolicy (e : t) : bool :=
  match LaunchTemplate_ e with
  | None => false
  | Some _ =>
      if MixedOnDemandAboveBase e is Some _ then true
      else if MixedOnDemandBase e is Some _ then true
      else if MixedSpotAllocationStrategy e is Some _ then true
      else if MixedSpotInstancePools e is Some _ then true
      else if 0 <? length (elems (MixedInstanceOverrides e)) then true
      else if MixedSpotMaxPrice e is Some _ then true
      else if InstanceRequirements_ e is Some _ then true
      else false
  end.

(** [AutoscalingGroupTags] (the map is ranged over in the order of
    [map_to_list]; Go leaves the order unspecified). *)
Definition AutoscalingGroupTags (e : t) : list autoscaling_Tag :=
  map (fun '(k, v) =>
         {| tag_Key := Some k;
            tag_Value := Some v;
            tag_ResourceId := Name e;
            tag_ResourceType := Some "auto-scaling-group";
            tag_PropagateAtLaunch := Some true |})
      (entries (Tags e)).

Definition AutoscalingGroupSubnets (e : t) : list string :=
  map (fun x => StringValue (Subnet_ID x)) (elems (Subnets e)).

Definition AutoscalingLoadBalancers (e : t) : list (option string) :=
  map ClassicLoadBalancer.LoadBalancerName (elems (LoadBalancers e)).

Definition AutoscalingTargetGroups (e : t) : list (option string) :=
  map TargetGroup_ARN (elems (TargetGroups e)).

(** [processCompare(a, b)]: the processes of [a] that are not in [b].  [*a]
    is evaluated when the outer loop starts; [*b] only in the body of that
    loop, so a nil [b] is dereferenced only when [*a] has an element. *)
Definition processCompare (a b : option (list string)) : outcome (list string) :=
  match a with
  | None => Panic "invalid memory address or nil pointer dereference"
  | Some [] => Return []
  | Some ((_ :: _) as a) =>
      match b with
      | None => Panic "invalid memory address or nil pointer dereference"
      | Some b => Return (List.filter (fun ap => negb (existsb (String.eqb ap) b)) a)
      end
  end.

(** [getASGTagsToDelete(currentTags)]. *)
Definition getASGTagsToDelete (e : t) (currentTags : option (gmap string string))
    : list autoscaling_Tag :=
  omap (fun '(k, v) =>
          match (default ∅ (Tags e)) !! k with
          | Some _ => None
          | None =>
              Some {| tag_Key := Some k;
                      tag_Value := Some v;
                      tag_ResourceId := Name e;
                      tag_ResourceType := Some "auto-scaling-group";
                      tag_PropagateAtLaunch := None |}
          end)
       (entries currentTags).

(** The names of a list of tasks, each pointer dereferenced. *)
Fixpoint derefAll {A} (key : A -> option string) (l : list A) : outcome (list string) :=
  match l with
  | [] => Return []
  | x :: rest =>
      match key x with
      | None => Panic "invalid memory address or nil pointer dereference"
      | Some k =>
          match derefAll key rest with
          | Return ks => Return (k :: ks)
          | Raise e => Raise e
          | Panic msg => Panic msg
          end
      end
  end.

(** [getLBsToDetach(currentLBs)]: the desired names are collected first, then
    the current load balancers whose name is not among them are kept. *)
Definition getLBsToDetach (e : t) (currentLBs : list ClassicLoadBalancer.t)
    : outcome (list (option string)) :=
  match derefAll ClassicLoadBalancer.Name (elems (LoadBalancers e)) with
  | Return desiredLBs =>
      match derefAll ClassicLoadBalancer.Name currentLBs with
      | Return currentNames =>
          Return (map Some (List.filter (fun n => negb (existsb (String.eqb n) desiredLBs))
                                        currentNames))
      | Raise err => Raise err
      | Panic msg => Panic msg
      end
  | Raise err => Raise err
  | Panic msg => Panic msg
  end.

(** [getTGsToDetach(currentTGs)]. *)
Definition getTGsToDetach (e : t) (currentTGs : list TargetGroup)
    : outcome (list (option string)) :=
  match derefAll TargetGroup_ARN (elems (TargetGroups e)) with
  | Return desiredTGs =>
      match derefAll TargetGroup_ARN currentTGs with
      | Return currentARNs =>
          Return (map Some (List.filter (fun n => negb (existsb (String.eqb n) desiredTGs))
                                        currentARNs))
      | Raise err => Raise err
      | Panic msg => Panic msg
      end
  | Raise err => Raise err
  | Panic msg => Panic msg
  end.

(** The load balancer names of the create request: a load balancer task
    without a [LoadBalancerName] is looked up in the cloud by its name tag. *)
Fixpoint createLoadBalancerNames {S} `{AWSCloud S} (l : list ClassicLoadBalancer.t)
    : M (World S Call) (list (option string)) :=
  match l with
  | [] => mret []
  | k :: rest =>
      n ←
        match ClassicLoadBalancer.LoadBalancerName k with
        | None =>
            let name := StringValue (ClassicLoadBalancer.Name k) in
            r ← call (FindELBByNameTag name) (findELBByNameTag name);
            match r with
            | inl err => raise (CloudError err)
            | inr None => raise (Errorf "could not find load balancer to attach" [])
            | inr (Some lbDesc) => mret (awsup.LoadBalancerName lbDesc)
            end
        | Some _ => mret (ClassicLoadBalancer.LoadBalancerName k)
        end;
      ns ← createLoadBalancerNames rest;
      mret (n :: ns)
  end.

(** The mixed instances policy of the create request. *)
Definition createMixedInstancesPolicy (e : t) (lt : LaunchTemplate)
    : autoscaling_MixedInstancesPolicy :=
  {| InstancesDistribution :=
       Some {| OnDemandAllocationStrategy := None;
               OnDemandPercentageAboveBaseCapacity := MixedOnDemandAboveBase e;
               OnDemandBaseCapacity := MixedOnDemandBase e;
               SpotAllocationStrategy := MixedSpotAllocationStrategy e;
               SpotInstancePools := MixedSpotInstancePools e;
               SpotMaxPrice := MixedSpotMaxPrice e |};
     mip_LaunchTemplate :=
       Some {| lt_LaunchTemplateSpecification :=
                 Some {| lts_LaunchTemplateId := LaunchTemplate_ID lt;
                         lts_LaunchTemplateName := None;
                         lts_Version := Some "$Latest" |};
               lt_Overrides :=
                 map (fun x => OverrideInstanceType (String x))
                     (elems (MixedInstanceOverrides e))
                 ++ match InstanceRequirements_ e with
                    | Some ir => [OverrideInstanceRequirements ir]
                    | None => []
                    end |} |}.

(** The request of the create path: [autoscaling.CreateAutoScalingGroupInput]
    as the code fills it before the call.  [v] is the receiver of the
    method. *)
Definition createRequest {S} `{AWSCloud S} (v e : t)
    : M (World S Call) autoscaling_CreateAutoScalingGroupInput :=
  loadBalancerNames ← createLoadBalancerNames (elems (LoadBalancers e));
  let request mixedInstancesPolicy launchTemplate :=
    {| cr_AutoScalingGroupName := Name e;
       cr_MinSize := MinSize e;
       cr_MaxSize := MaxSize e;
       cr_NewInstancesProtectedFromScaleIn := InstanceProtection e;
       cr_Tags := AutoscalingGroupTags v;
       cr_VPCZoneIdentifier := String (strings.Join (AutoscalingGroupSubnets e) ",");
       cr_LoadBalancerNames := loadBalancerNames;
       cr_TargetGroupARNs := map TargetGroup_ARN (elems (TargetGroups e));
       cr_MixedInstancesPolicy := mixedInstancesPolicy;
       cr_LaunchTemplate := launchTemplate |} in
  if UseMixedInstancesPolicy e then
    match LaunchTemplate_ e with
    | Some lt => mret (request (Some (createMixedInstancesPolicy e lt)) None)
    | None => panic "invalid memory address or nil pointer dereference"
    end
  else
    match LaunchTemplate_ e with
    | Some lt =>
        mret (request None
                (Some {| lts_LaunchTemplateId := LaunchTemplate_ID lt;
                         lts_LaunchTemplateName := None;
                         lts_Version := Some "$Latest" |}))
    | None =>
        raise (Errorf "could not find one of launch template or mixed instances policy" [])
    end.

(** The condition under which a failed [CreateAutoScalingGroup] is retried:
    the IAM instance profile is not visible yet. *)
Definition profile_not_propagated (err : clouderror) : Prop :=
  AWSErrorCode err = "ValidationError" /\
  strings.Contains (AWSErrorMessage err) "Invalid IAM Instance Profile name" = true.

(** What the create path returns when [CreateAutoScalingGroup] fails. *)
Definition createError (err : clouderror) : error :=
  let code := AWSErrorCode err in
  let message := AWSErrorMessage err in
  if String.eqb code "ValidationError"
     && strings.Contains message "Invalid IAM Instance Profile name"
  then NewTryAgainLaterError "waiting for the IAM Instance Profile to be propagated"
  else Errorf "error creating AutoScalingGroup: %s" [ArgString message].

(** The end of the create path, once the group exists: the metrics are
    enabled and the processes suspended. *)
Definition createMetricsAndProcesses {S} `{AWSCloud S} (e : t) : M (World S Call) unit :=
  (let c := EnableMetricsCollection (Name e) (Granularity e) (elems (Metrics e)) in
   r ← call c (perform c);
   check r (fun err =>
     Errorf "error enabling metrics collection for AutoscalingGroup: %v"
       [ArgError (CloudError err)]));;
  match SuspendProcesses_ e with
  | None => panic "invalid memory address or nil pointer dereference"
  | Some processes =>
      if 0 <? length processes then
        (* one pointer per element is put in the request, each taken from the
           loop variable; the model records the elements ranged over *)
        let c := SuspendProcesses (Name e) processes in
        r ← call c (perform c);
        check r (fun err => Errorf "error suspending processes: %v" [ArgError (CloudError err)])
      else mret tt
  end.

(** The branch [a == nil] of [RenderAWS]: the group is created. *)
Definition RenderAWS_create {S} `{AWSCloud S} (v e : t) : M (World S Call) unit :=
  request ← createRequest v e;
  r ← call (CreateAutoScalingGroup request) (perform (CreateAutoScalingGroup request));
  match r with
  | inl err => raise (createError err)
  | inr _ => createMetricsAndProcesses e
  end.

(** [overridesFromInstanceRequirements] is declared outside src/; its result
    is kept as the override built from the requirements. *)
Definition overridesFromInstanceRequirements (ir : InstanceRequirements)
    : autoscaling_LaunchTemplateOverrides :=
  OverrideInstanceRequirements ir.

(** [&autoscaling.LaunchTemplateSpecification{LaunchTemplateId:
    e.LaunchTemplate.ID, Version: "$Latest"}]; the pointer is dereferenced. *)
Definition latestSpecification (e : t) : outcome autoscaling_LaunchTemplateSpecification :=
  match LaunchTemplate_ e with
  | Some lt =>
      Return {| lts_LaunchTemplateId := LaunchTemplate_ID lt;
                lts_LaunchTemplateName := None;
                lts_Version := Some "$Latest" |}
  | None => Panic "invalid memory address or nil pointer dereference"
  end.

(** The closure [setup] of the update path: the policy of the request,
    created with an empty distribution when the request has none yet. *)
Definition setup (mip : option autoscaling_MixedInstancesPolicy)
    : autoscaling_MixedInstancesPolicy :=
  default
    {| InstancesDistribution :=
         Some {| OnDemandAllocationStrategy := None;
                 OnDemandBaseCapacity := None;
                 OnDemandPercentageAboveBaseCapacity := None;
                 SpotAllocationStrategy := None;
                 SpotInstancePools := None;
                 SpotMaxPrice := None |};
       mip_LaunchTemplate := None |}
    mip.

(** [setup(request).InstancesDistribution.F = v] for a field [F], done by [f]. *)
Definition setDistribution
    (f : autoscaling_InstancesDistribution -> autoscaling_InstancesDistribution)
    (mip : option autoscaling_MixedInstancesPolicy)
    : outcome (option autoscaling_MixedInstancesPolicy) :=
  let m := setup mip in
  match InstancesDistribution m with
  | Some d =>
      Return (Some {| InstancesDistribution := Some (f d);
                      mip_LaunchTemplate := mip_LaunchTemplate m |})
  | None => Panic "invalid memory address or nil pointer dereference"
  end.

(** The request of the update path, fields in the order the code fills
    them.  (The assignment of [NewInstancesProtectedFromScaleIn], which the
    code makes after the metrics and process calls, touches nothing else and
    cannot fail; it is gathered here.) *)
Definition updateRequest (a e changes : t) : outcome autoscaling_UpdateAutoScalingGroupInput :=
  '(launchTemplate, mip) ←
    (if bool_decide (is_Some (LaunchTemplate_ changes))
        || (UseMixedInstancesPolicy a && negb (UseMixedInstancesPolicy e))
     then
       spec ← latestSpecification e;
       if UseMixedInstancesPolicy e then
         let m := setup None in
         mret (None,
               Some {| InstancesDistribution := InstancesDistribution m;
                       mip_LaunchTemplate :=
                         Some {| lt_LaunchTemplateSpecification := Some spec;
                                 lt_Overrides := [] |} |})
       else mret (Some spec, None)
     else mret (None, None));
  mip ←
    (if MixedOnDemandAboveBase changes is Some _ then
       setDistribution
         (fun d => {| OnDemandAllocationStrategy := OnDemandAllocationStrategy d;
                      OnDemandBaseCapacity := OnDemandBaseCapacity d;
                      OnDemandPercentageAboveBaseCapacity := MixedOnDemandAboveBase e;
                      SpotAllocationStrategy := SpotAllocationStrategy d;
                      SpotInstancePools := SpotInstancePools d;
                      SpotMaxPrice := SpotMaxPrice d |}) mip
     else mret mip);
  mip ←
    (if MixedOnDemandBase changes is Some _ then
       setDistribution
         (fun d => {| OnDemandAllocationStrategy := OnDemandAllocationStrategy d;
                      OnDemandBaseCapacity := MixedOnDemandBase e;
                      OnDemandPercentageAboveBaseCapacity := OnDemandPercentageAboveBaseCapacity d;
                      SpotAllocationStrategy := SpotAllocationStrategy d;
                      SpotInstancePools := SpotInstancePools d;
                      SpotMaxPrice := SpotMaxPrice d |}) mip
     else mret mip);
  mip ←
    (if MixedSpotAllocationStrategy changes is Some _ then
       setDistribution
         (fun d => {| OnDemandAllocationStrategy := OnDemandAllocationStrategy d;
                      OnDemandBaseCapacity := OnDemandBaseCapacity d;
                      OnDemandPercentageAboveBaseCapacity := OnDemandPercentageAboveBaseCapacity d;
                      SpotAllocationStrategy := MixedSpotAllocationStrategy e;
                      SpotInstancePools := SpotInstancePools d;
                      SpotMaxPrice := SpotMaxPrice d |}) mip
     else mret mip);
  mip ←
    (if MixedSpotInstancePools changes is Some _ then
       setDistribution
         (fun d => {| OnDemandAllocationStrategy := OnDemandAllocationStrategy d;
                      OnDemandBaseCapacity := OnDemandBaseCapacity d;
                      OnDemandPercentageAboveBaseCapacity := OnDemandPercentageAboveBaseCapacity d;
                      SpotAllocationStrategy := SpotAllocationStrategy d;
                      SpotInstancePools := MixedSpotInstancePools e;
                      SpotMaxPrice := SpotMaxPrice d |}) mip
     else mret mip);
  mip ←
    (if MixedSpotMaxPrice changes is Some _ then
       setDistribution
         (fun d => {| OnDemandAllocationStrategy := OnDemandAllocationStrategy d;
                      OnDemandBaseCapacity := OnDemandBaseCapacity d;
                      OnDemandPercentageAboveBaseCapacity := OnDemandPercentageAboveBaseCapacity d;
                      SpotAllocationStrategy := SpotAllocationStrategy d;
                      SpotInstancePools := SpotInstancePools d;
                      SpotMaxPrice := MixedSpotMaxPrice e |}) mip
     else mret mip);
  mip ←
    (if bool_decide (is_Some (MixedInstanceOverrides changes))
        || bool_decide (is_Some (InstanceRequirements_ changes))
     then
       let m := setup mip in
       p ←
         match mip_LaunchTemplate m with
         | Some p => mret p
         | None =>
             spec ← latestSpecification e;
             mret {| lt_LaunchTemplateSpecification := Some spec; lt_Overrides := [] |}
         end;
       let overrides :=
         lt_Overrides p
         ++ map (fun x => OverrideInstanceType (String x)) (elems (MixedInstanceOverrides changes))
         ++ match InstanceRequirements_ changes with
            | Some ir => [overridesFromInstanceRequirements ir]
            | None => []
            end in
       mret (Some {| InstancesDistribution := InstancesDistribution m;
                     mip_LaunchTemplate :=
                       Some {| lt_LaunchTemplateSpecification :=
                                 lt_LaunchTemplateSpecification p;
                               lt_Overrides := overrides |} |})
     else mret mip);
  mret {| up_AutoScalingGroupName := Name e;
          up_LaunchTemplate := launchTemplate;
          up_MixedInstancesPolicy := mip;
          up_MinSize := if MinSize changes is Some _ then MinSize e else None;
          up_MaxSize := if MaxSize changes is Some _ then MaxSize e else None;
          up_VPCZoneIdentifier :=
            if Subnets changes is Some _
            then Some (strings.Join (AutoscalingGroupSubnets e) ",") else None;
          up_NewInstancesProtectedFromScaleIn :=
            if InstanceProtection changes is Some _ then InstanceProtection e else None |}.

(** A call of the update path whose output is dropped and whose error is
    wrapped by [format]. *)
Definition perform_ {S} `{AWSCloud S} (c : Call) (format : string) : M (World S Call) unit :=
  r ← call c (perform c);
  check r (fun err => Errorf format [ArgError (CloudError err)]).

(** The branch [a != nil] of [RenderAWS]: the group is updated. *)
Definition RenderAWS_update {S} `{AWSCloud S} (a e changes : t) : M (World S Call) unit :=
  request ← lift (updateRequest a e changes);
  let updateTagsRequest :=
    if Tags changes is Some _ then Some (AutoscalingGroupTags e) else None in
  let deleteTagsRequest :=
    if Tags changes is Some _ then
      if 0 <? length (entries (Tags a)) then Some (getASGTagsToDelete e (Tags a)) else None
    else None in
  '(attachLBRequest, detachLBRequest) ←
    (if LoadBalancers changes is Some _ then
       let attach :=
         if 0 <? length (elems (LoadBalancers e))
         then Some (AutoscalingLoadBalancers e) else None in
       if 0 <? length (elems (LoadBalancers a)) then
         names ← lift (getLBsToDetach e (elems (LoadBalancers a)));
         mret (attach, Some names)
       else mret (attach, None)
     else mret (None, None));
  '(attachTGRequest, detachTGRequest) ←
    (if TargetGroups changes is Some _ then
       let attach :=
         if 0 <? length (elems (TargetGroups e))
         then Some (AutoscalingTargetGroups e) else None in
       if 0 <? length (elems (TargetGroups a)) then
         arns ← lift (getTGsToDetach e (elems (TargetGroups a)));
         mret (attach, Some arns)
       else mret (attach, None)
     else mret (None, None));
  (if bool_decide (is_Some (Metrics changes)) || bool_decide (is_Some (Granularity changes))
   then
     if negb (length (elems (Metrics e)) =? 0) then
       perform_ (EnableMetricsCollection (Name e) (Granularity e) (elems (Metrics e)))
         "error enabling metrics collection for AutoscalingGroup: %v"
     else mret tt
   else mret tt);;
  (if SuspendProcesses_ changes is Some _ then
     toSuspend ← lift (processCompare (SuspendProcesses_ e) (SuspendProcesses_ a));
     toResume ← lift (processCompare (SuspendProcesses_ a) (SuspendProcesses_ e));
     (if 0 <? length toSuspend then
        perform_ (SuspendProcesses (Name e) toSuspend) "error suspending processes: %v"
      else mret tt);;
     (if 0 <? length toResume then
        perform_ (ResumeProcesses (Name e) toResume) "error resuming processes: %v"
      else mret tt)
   else mret tt);;
  perform_ (UpdateAutoScalingGroup request) "error updating AutoscalingGroup: %v";;
  match deleteTagsRequest with
  | Some tags =>
      if 0 <? length tags then
        perform_ (DeleteTags tags) "error deleting old AutoscalingGroup tags: %v"
      else mret tt
  | None => mret tt
  end;;
  match updateTagsRequest with
  | Some tags => perform_ (CreateOrUpdateTags tags) "error updating AutoscalingGroup tags: %v"
  | None => mret tt
  end;;
  match detachLBRequest with
  | Some names => perform_ (DetachLoadBalancers (Name e) names) "error detatching LoadBalancers: %v"
  | None => mret tt
  end;;
  match attachLBRequest with
  | Some names => perform_ (AttachLoadBalancers (Name e) names) "error attaching LoadBalancers: %v"
  | None => mret tt
  end;;
  match detachTGRequest with
  | Some arns =>
      perform_ (DetachLoadBalancerTargetGroups (Name e) arns) "error detaching TargetGroups: %v"
  | None => mret tt
  end;;
  match attachTGRequest with
  | Some arns =>
      perform_ (AttachLoadBalancerTargetGroups (Name e) arns) "error attaching TargetGroups: %v"
  | None => mret tt
  end.

(** [RenderAWS(t, a, e, changes)] with receiver [v]. *)
Definition RenderAWS {S} `{AWSCloud S} (v : t) (a : option t) (e changes : t)
    : M (World S Call) unit :=
  match a with
  | None => RenderAWS_create v e
  | Some a => RenderAWS_update a e changes
  end.

(** Helpers of the repository that are declared outside src/ and called by
    [Find]; they are parameters of the model. *)
Class External : Type := {
  (* [awsup.GetTargetGroupNameFromARN(arn)] *)
  GetTargetGroupNameFromARN : string -> error + string;
  (* [awsup.GetResourceName32(cluster, prefix)] *)
  GetResourceName32 : string -> string -> string;
  (* [findInstanceRequirements(g)], its error dropped *)
  findInstanceRequirements : autoscaling_Group -> option InstanceRequirements;
  (* [subnetSlicesEqualIgnoreOrder(l, r)] *)
  subnetSlicesEqualIgnoreOrder : list Subnet -> list Subnet -> bool
}.

(** The load balancers of [Find]: one task per attached name; a nil name is
    dereferenced. *)
Definition Find_loadBalancers (names : list (option string))
    : outcome (list ClassicLoadBalancer.t) :=
  map (fun lb =>
         ClassicLoadBalancer.mk (Some lb) "" (Some lb) None None None None None None None None
           None None None "" ∅ false None)
    <$> derefAll id names.

(** The target groups of [Find]. *)
Fixpoint Find_targetGroups `{External} (clusterName : string) (g : autoscaling_Group)
    (arns : list (option string)) : outcome (list TargetGroup) :=
  match arns with
  | [] => Return []
  | tg :: rest =>
      match GetTargetGroupNameFromARN (StringValue tg) with
      | inl err => Raise err
      | inr targetGroupName =>
          match tg with
          | None => Panic "invalid memory address or nil pointer dereference"
          | Some arn =>
              let name :=
                if negb (String.eqb targetGroupName (GetResourceName32 clusterName "tcp"))
                   && negb (String.eqb targetGroupName (GetResourceName32 clusterName "tls"))
                then targetGroupName
                else StringValue (AutoScalingGroupName g) +:+ "-" +:+ targetGroupName in
              tgs ← Find_targetGroups clusterName g rest;
              mret ({| TargetGroup_ARN := Some arn; TargetGroup_Name := Some name |} :: tgs)
          end
      end
  end.

(** The tags of [Find], without the ones CloudFormation sets. *)
Definition Find_tags (tags : list (option string * option string)) : gmap string string :=
  fold_left
    (fun m '(key, value) =>
       if strings.HasPrefix (StringValue key) "aws:cloudformation:" then m
       else <[StringValue key := StringValue value]> m)
    tags ∅.

(** [Find(c)]; [clusterName] is [c.Cluster.Name].  The receiver is not
    written to. *)
Definition Find {S} `{AWSCloud S} `{External} (clusterName : string) (e : t)
    : M (World S Call) (option t) :=
  g ← findAutoscalingGroup (StringValue (Name e));
  match g with
  | None => mret None
  | Some g =>
      loadBalancers ← lift (Find_loadBalancers (LoadBalancerNames g));
      let apiLBTask :=
        fold_left (fun acc lb => if negb (BoolValue (ClassicLoadBalancer.Shared lb))
                                 then Some lb else acc)
                  (elems (LoadBalancers e)) None in
      loadBalancers ←
        match apiLBTask with
        | Some apiLBTask =>
            if 0 <? length loadBalancers then
              let name := StringValue (ClassicLoadBalancer.Name apiLBTask) in
              r ← call (FindELBByNameTag name) (findELBByNameTag name);
              match r with
              | inl err => raise (CloudError err)
              | inr None => mret loadBalancers
              | inr (Some apiLBDesc) =>
                  mret (map (fun lb =>
                               if String.eqb (StringValue (awsup.LoadBalancerName apiLBDesc))
                                             (StringValue (ClassicLoadBalancer.Name lb))
                               then apiLBTask else lb)
                            loadBalancers)
              end
            else mret loadBalancers
        | None => mret loadBalancers
        end;
      let loadBalancers :=
        sort.Stable ClassicLoadBalancer.OrderLoadBalancersByName loadBalancers in
      targetGroups ← lift (Find_targetGroups clusterName g (g_TargetGroupARNs g));
      let targetGroups := sort.Stable OrderTargetGroupsByName targetGroups in
      let subnets :=
        match VPCZoneIdentifier g with
        | Some zones =>
            Some (map (fun subnet => {| Subnet_Name := None; Subnet_ID := Some subnet |})
                      (strings.Split zones ","))
        | None => None
        end in
      let metrics :=
        match EnabledMetrics g with
        | [] => None
        | ms => Some (sort.Strings (map (fun m => StringValue m.1) ms))
        end in
      let granularity := fold_left (fun _ m => m.2) (EnabledMetrics g) None in
      let tags :=
        match g_Tags g with
        | [] => None
        | ts => Some (Find_tags ts)
        end in
      let launchTemplate : option LaunchTemplate :=
        match g_LaunchTemplate g with
        | Some lt => Some {| LaunchTemplate_Name := lts_LaunchTemplateName lt;
                             LaunchTemplate_ID := lts_LaunchTemplateId lt |}
        | None => None
        end in
      let distribution : option autoscaling_InstancesDistribution :=
        g_MixedInstancesPolicy g ≫= InstancesDistribution in
      let policyTemplate : option autoscaling_LaunchTemplate :=
        g_MixedInstancesPolicy g ≫= mip_LaunchTemplate in
      let launchTemplate :=
        match policyTemplate ≫= lt_LaunchTemplateSpecification with
        | Some lt => Some {| LaunchTemplate_Name := lts_LaunchTemplateName lt;
                             LaunchTemplate_ID := lts_LaunchTemplateId lt |}
        | None => launchTemplate
        end in
      let overrides :=
        match policyTemplate with
        | Some lt =>
            match lt_Overrides lt with
            | [] => None
            | os =>
                Some (map (fun n => match n with
                                    | OverrideInstanceType it => StringValue it
                                    | OverrideInstanceRequirements _ => ""
                                    end) os)
            end
        | None => None
        end in
      processes ← lift (derefAll id (SuspendedProcesses g));
      mret (Some
        {| Name := AutoScalingGroupName g;
           MaxSize := g_MaxSize g;
           MinSize := g_MinSize g;
           LoadBalancers := Some loadBalancers;
           TargetGroups := Some targetGroups;
           Subnets :=
             if subnetSlicesEqualIgnoreOrder (elems subnets) (elems (Subnets e))
             then Subnets e else subnets;
           Metrics := metrics;
           Granularity := granularity;
           Tags := tags;
           LaunchTemplate_ := launchTemplate;
           MixedOnDemandAboveBase := distribution ≫= OnDemandPercentageAboveBaseCapacity;
           MixedOnDemandAllocationStrategy := distribution ≫= OnDemandAllocationStrategy;
           MixedOnDemandBase := distribution ≫= OnDemandBaseCapacity;
           MixedSpotAllocationStrategy := distribution ≫= SpotAllocationStrategy;
           MixedSpotInstancePools := distribution ≫= SpotInstancePools;
           MixedSpotMaxPrice := distribution ≫= SpotMaxPrice;
           MixedInstanceOverrides := overrides;
           InstanceRequirements_ := findInstanceRequirements g;
           SuspendProcesses_ := Some processes;
           Lifecycle := Lifecycle e;
           InstanceProtection := NewInstancesProtectedFromScaleIn g |})
  end.

End AutoscalingGroup.

(** ** The diff engine and the per-task run of the reconciliation engine

    Package [fi] itself ([BuildChanges], [DefaultDeltaRunMethod], the targets)
    is not under src/; the two modules below follow the specification. *)

Module diff.

(** Modelled from the spec: the declared attributes of a Task (package fi and
    its reflection-based comparison are not under src/).  An attribute is an
    optional wrapper that is absent, a scalar, a reference to another Task by
    its name, a multi-valued attribute, or a nested value object with named
    members (a tag map is one).  Internal-only attributes are not part of the
    value. *)
Inductive value : Type :=
| VAbsent
| VString (s : string)
| VInt (n : Z)
| VBool (b : bool)
| VRef (name : string)
| VList (items : list value)
| VObject (members : list (string * value)).

(** Modelled from the spec: semantic equality of attributes (the comparison
    of package fi is not under src/): value equality for scalars, the same
    referenced name for Task references, deep equality for nested values. *)
Fixpoint value_eqb (a b : value) : bool :=
  match a, b with
  | VAbsent, VAbsent => true
  | VString s, VString s' => String.eqb s s'
  | VInt n, VInt n' => Z.eqb n n'
  | VBool x, VBool x' => Bool.eqb x x'
  | VRef n, VRef n' => String.eqb n n'
  | VList l, VList l' =>
      (fix items_eqb (l l' : list value) : bool :=
         match l, l' with
         | [], [] => true
         | x :: r, x' :: r' => value_eqb x x' && items_eqb r r'
         | _, _ => false
         end) l l'
  | VObject m, VObject m' =>
      (fix members_eqb (m m' : list (string * value)) : bool :=
         match m, m' with
         | [], [] => true
         | (k, x) :: r, (k', x') :: r' =>
             String.eqb k k' && value_eqb x x' && members_eqb r r'
         | _, _ => false
         end) m m'
  | _, _ => false
  end.

(** Modelled from the spec: a Task (the interface of package fi is not under
    src/): a stable name, a Lifecycle and the declared attributes by field
    name. *)
Record Task : Type := {
  name : string;
  lifecycle : fi.Lifecycle;
  attributes : gmap string value
}.

(** Modelled from the spec: a Changes value (built by [fi.BuildChanges], not
    under src/): shaped like the Task, each field either the "unchanged"
    marker [None] or the desired value of a field that differs. *)
Definition Changes : Type := gmap string (option value).

(** Modelled from the spec: [BuildChanges(a, e, changes)] (package fi is not
    under src/): every declared attribute of the desired task is compared
    with the observed one; only fields that differ are populated. *)
Definition BuildChanges (a e : Task) : Changes :=
  map_imap
    (fun field ve =>
       match attributes a !! field with
       | Some va => if value_eqb va ve then Some None else Some (Some ve)
       | None => Some (Some ve)
       end)
    (attributes e).

(** A Changes value is all-unchanged when every field carries the marker. *)
Definition unchanged (changes : Changes) : bool :=
  forallb (fun '(_, v) => if v is None then true else false) (map_to_list changes).

(** The [testTask] of the test of the dry-run target: a name, a lifecycle
    and a tag map. *)
Definition testTask (Name : option string) (Lifecycle : fi.Lifecycle)
    (Tags : list (string * string)) : Task :=
  {| name := fi.StringValue Name;
     lifecycle := Lifecycle;
     attributes :=
       list_to_map
         [("Name", from_option VString VAbsent Name);
          ("Lifecycle", VString Lifecycle);
          ("Tags", VObject (map (fun '(k, v) => (k, VString v)) Tags))] |}.

End diff.

Module engine.
Import fi.

(** Modelled from the spec: the states of a task in one run (the scheduler
    is not under src/): [unvisited -> observed -> diffed -> validated ->
    rendered | failed | skipped]. *)
Inductive state : Type :=
| unvisited
| observed
| diffed
| validated
| rendered
| failed (err : error)
| skipped.

(** The lifecycle calls the engine makes on a task, as recorded in a run. *)
Inductive event : Type :=
| EvFind
| EvCheckChanges
| EvRender.

Section Run.
Context {T C W : Type}.
(** The capability set of a task kind: [Find], the diff, [CheckChanges] and
    the [Render] of the active target. *)
Variable Find : T -> M W (option T * T).
Variable BuildChanges : option T -> T -> C.
Variable unchanged : C -> bool.
Variable CheckChanges : option T -> T -> C -> option error.
Variable Render : option T -> T -> C -> M W unit.

(** Modelled from the spec: what the engine does with a computed Changes
    (the run method of package fi is not under src/): an all-unchanged
    Changes makes the task [rendered] with no mutation performed; otherwise
    [CheckChanges] validates the delta before any mutation and only on
    success [Render] is dispatched to the target. *)
Definition applyChanges (a : option T) (e : T) (changes : C) (w : W) : state * list event * W :=
  if unchanged changes then (rendered, [], w)
  else
    match CheckChanges a e changes with
    | Some err => (failed err, [EvCheckChanges], w)
    | None =>
        match Render a e changes w with
        | (Return _, w') => (rendered, [EvCheckChanges; EvRender], w')
        | (Raise err, w') => (failed err, [EvCheckChanges; EvRender], w')
        | (Panic msg, w') => (failed (Errorf msg []), [EvCheckChanges; EvRender], w')
        end
    end.

(** Modelled from the spec: one attempt of a task (the scheduler is not under
    src/): Find (observe), compute Changes (diff), then [applyChanges]. *)
Definition runTask (e : T) (w : W) : state * list event * W :=
  match Find e w with
  | (Return (a, e'), w') =>
      let '(s, evs, w'') := applyChanges a e' (BuildChanges a e') w' in
      (s, EvFind :: evs, w'')
  | (Raise err, w') => (failed err, [EvFind], w')
  | (Panic msg, w') => (failed (Errorf msg []), [EvFind], w')
  end.

End Run.

End engine.

(** ** Fake clouds and sample tasks, for concrete runs *)

Module fake.
Import fi.

(** A fake OpenStack: the backend state is the list of its server groups. *)
Definition openstackCloud
    : openstack.OpenstackCloud (list openstack.servergroups_ServerGroup) :=
  {| openstack.listServerGroups := fun b => (inr (openstack.GroupsPage b), b) |}.

(** A fake Hetzner cloud: the backend state is the list of its load balancers. *)
Definition hetznerCloud : hetzner.HetznerCloud (list hetzner.hcloud_LoadBalancer) :=
  {| hetzner.loadBalancerAll := fun b => (inr b, b) |}.

(** A fake AWS: its load balancers, its autoscaling groups, and the error it
    answers [CreateAutoScalingGroup] with, if any. *)
Record AWS : Type := {
  elbs : list awsup.elb_LoadBalancerDescription;
  groups : list awsup.autoscaling_Group;
  createGroupError : option clouderror
}.

Definition awsCloud : awsup.AWSCloud AWS :=
  {| awsup.findELBByNameTag := fun name b =>
       (inr (head (List.filter
                     (fun lb => String.eqb (StringValue (awsup.LoadBalancerName lb)) name)
                     (elbs b))), b);
     awsup.describeELBTags := fun _ b => (inr ∅, b);
     awsup.describeLoadBalancersPages := fun _ b => (inr [elbs b], b);
     awsup.describeAutoScalingGroupsPages := fun _ b => (inr [groups b], b);
     awsup.createLoadBalancer := fun _ b => (inr None, b);
     awsup.perform := fun c b =>
       match c, createGroupError b with
       | awsup.CreateAutoScalingGroup _, Some err => (inl err, b)
       | _, _ => (inr tt, b)
       end |}.

Definition external : ClassicLoadBalancer.External AWS :=
  {| ClassicLoadBalancer.GetUniqueStrings := fun main extra =>
       List.filter (fun x => negb (existsb (String.eqb x) main)) extra;
     ClassicLoadBalancer.modifyLoadBalancerAttributes := fun _ _ _ => mret tt;
     ClassicLoadBalancer.BuildTags := fun _ => ∅;
     ClassicLoadBalancer.Subnet_TerraformLink := fun s =>
       terraformWriter.LiteralFromStringValue (StringValue (awstasks.Subnet_ID s));
     ClassicLoadBalancer.SecurityGroup_TerraformLink := fun s =>
       terraformWriter.LiteralFromStringValue (StringValue (awstasks.SecurityGroup_ID s));
     ClassicLoadBalancer.SortLiterals := fun l => l;
     ClassicLoadBalancer.Subnet_CloudformationLink := fun s =>
       cloudformation.LiteralString (StringValue (awstasks.Subnet_ID s));
     ClassicLoadBalancer.SecurityGroup_CloudformationLink := fun s =>
       cloudformation.LiteralString (StringValue (awstasks.SecurityGroup_ID s));
     ClassicLoadBalancer.buildCloudformationTags := map_to_list;
     ClassicLoadBalancer.ToString := fun n => strconv.FormatInt <$> n;
     ClassicLoadBalancer.findHealthCheck := fun _ => Return None;
     ClassicLoadBalancer.findELBAttributes := fun _ => mret None;
     ClassicLoadBalancer.subnetSlicesEqualIgnoreOrder := fun l r =>
       bool_decide (map awstasks.Subnet_ID l ≡ₚ map awstasks.Subnet_ID r) |}.

Definition externalASG : AutoscalingGroup.External :=
  {| AutoscalingGroup.GetTargetGroupNameFromARN := fun arn => inr arn;
     AutoscalingGroup.GetResourceName32 := fun cluster prefix => prefix +:+ "-" +:+ cluster;
     AutoscalingGroup.findInstanceRequirements := fun _ => None;
     AutoscalingGroup.subnetSlicesEqualIgnoreOrder := fun l r =>
       bool_decide (map awstasks.Subnet_ID l ≡ₚ map awstasks.Subnet_ID r) |}.

Definition emptyWorld {S C} (b : S) : World S C := mkWorld b [].

(** A server group task named "nodes". *)
Definition serverGroup : ServerGroup.t :=
  ServerGroup.mk None (Some "nodes") (Some "c.example.com") (Some "nodes") [] (Some 2%Z)
    LifecycleSync [] false.

Definition osGroup (id name : string) : openstack.servergroups_ServerGroup :=
  {| openstack.sg_ID := id; openstack.sg_Name := name;
     openstack.sg_Policies := []; openstack.sg_Members := [] |}.

(** An autoscaling group of the cloud, and a classic load balancer. *)
Definition asGroup (name : string) (status : option string) : awsup.autoscaling_Group :=
  {| awsup.AutoScalingGroupName := Some name; awsup.Status := status;
     awsup.g_MaxSize := Some 3%Z; awsup.g_MinSize := Some 1%Z;
     awsup.LoadBalancerNames := []; awsup.g_TargetGroupARNs := [];
     awsup.VPCZoneIdentifier := None; awsup.EnabledMetrics := []; awsup.g_Tags := [];
     awsup.g_LaunchTemplate := None; awsup.g_MixedInstancesPolicy := None;
     awsup.SuspendedProcesses := []; awsup.NewInstancesProtectedFromScaleIn := None |}.

Definition elb (name : string) : awsup.elb_LoadBalancerDescription :=
  {| awsup.LoadBalancerName := Some name; awsup.DNSName := None;
     awsup.CanonicalHostedZoneNameID := None; awsup.Scheme := None;
     awsup.lbd_Subnets := []; awsup.lbd_SecurityGroups := [];
     awsup.ListenerDescriptions := [] |}.

(** A group task with a launch template and no process to suspend. *)
Definition autoscalingGroup : AutoscalingGroup.t :=
  AutoscalingGroup.mk (Some "nodes.c") LifecycleSync None None
    (Some {| awstasks.LaunchTemplate_Name := Some "nodes.c";
             awstasks.LaunchTemplate_ID := Some "lt-1" |})
    None (Some 3%Z) (Some ["GroupMaxSize"; "GroupDesiredCapacity"]) (Some 1%Z)
    None None None None None None None None None (Some []) None None.

(** Two subnets that have no ID yet, as on the create path. *)
Definition subnetA : awstasks.Subnet :=
  {| awstasks.Subnet_Name := Some "us-test-1a"; awstasks.Subnet_ID := None |}.
Definition subnetB : awstasks.Subnet :=
  {| awstasks.Subnet_Name := Some "us-test-1b"; awstasks.Subnet_ID := None |}.

(** A Hetzner load balancer task named "api". *)
Definition loadBalancer : LoadBalancer.t :=
  LoadBalancer.mk (Some "api") LifecycleSync None None "fsn1" "lb11"
    [{| LoadBalancer.Protocol := "tcp";
        LoadBalancer.ListenerPort := Some 443%Z;
        LoadBalancer.DestinationPort := Some 443%Z |}]
    "kops.k8s.io/instance-role=control-plane" ∅.

End fake.

(** ** More clouds and tasks for concrete runs *)

Module fixtures.
Import fi.

(** An AWS whose load balancer listing fails with LoadBalancerNotFound and
    whose other calls succeed with nothing to report. *)
Definition awsNotFound : awsup.AWSCloud unit :=
  {| awsup.findELBByNameTag := fun _ b => (inr None, b);
     awsup.describeELBTags := fun _ b => (inr ∅, b);
     awsup.describeLoadBalancersPages := fun _ b =>
       (inl (AwsError "LoadBalancerNotFound" "There is no ACTIVE Load Balancer named api"), b);
     awsup.describeAutoScalingGroupsPages := fun _ b => (inr [], b);
     awsup.createLoadBalancer := fun _ b => (inr None, b);
     awsup.perform := fun _ b => (inr tt, b) |}.

(** A server group of the cloud with two members. *)
Definition osGroupWithMembers (id name : string) : openstack.servergroups_ServerGroup :=
  {| openstack.sg_ID := id; openstack.sg_Name := name;
     openstack.sg_Policies := ["anti-affinity"];
     openstack.sg_Members := ["m-1"; "m-2"] |}.

(** A server group task that wants five members and has handed out its
    (empty) member list already. *)
Definition serverGroupFive : ServerGroup.t :=
  ServerGroup.mk None (Some "nodes") (Some "c.example.com") (Some "nodes") [] (Some 5%Z)
    LifecycleSync [] true.

(** A load balancer of the Hetzner cloud. *)
Definition hcloudLB (id : Z) (name : string) : hetzner.hcloud_LoadBalancer :=
  {| hetzner.lb_ID := id; hetzner.lb_Name := name; hetzner.lb_Labels := ∅;
     hetzner.lb_Location := Some "fsn1"; hetzner.lb_LoadBalancerType := Some "lb11";
     hetzner.lb_Services := []; hetzner.lb_Targets := [] |}.

(** An AWS account that may read and not write: the backend state is the
    list of its load balancers, the listings answer from it, and every
    changing call is refused. *)
Definition awsReadOnly : awsup.AWSCloud (list awsup.elb_LoadBalancerDescription) :=
  {| awsup.findELBByNameTag := fun name b =>
       (inr (head (List.filter
                     (fun lb => String.eqb (StringValue (awsup.LoadBalancerName lb)) name) b)),
        b);
     awsup.describeELBTags := fun _ b => (inr ∅, b);
     awsup.describeLoadBalancersPages := fun _ b => (inr [b], b);
     awsup.describeAutoScalingGroupsPages := fun _ b => (inr [], b);
     awsup.createLoadBalancer := fun _ b => (inl (AwsError "AccessDenied" ""), b);
     awsup.perform := fun _ b => (inl (AwsError "AccessDenied" ""), b) |}.

(** The helpers of ClassicLoadBalancer over any backend state, as in
    [fake.external]. *)
Definition external (S : Type) : ClassicLoadBalancer.External S :=
  {| ClassicLoadBalancer.GetUniqueStrings := fun main extra =>
       List.filter (fun x => negb (existsb (String.eqb x) main)) extra;
     ClassicLoadBalancer.modifyLoadBalancerAttributes := fun _ _ _ => mret tt;
     ClassicLoadBalancer.BuildTags := fun _ => ∅;
     ClassicLoadBalancer.Subnet_TerraformLink := fun s =>
       terraformWriter.LiteralFromStringValue (StringValue (awstasks.Subnet_ID s));
     ClassicLoadBalancer.SecurityGroup_TerraformLink := fun s =>
       terraformWriter.LiteralFromStringValue (StringValue (awstasks.SecurityGroup_ID s));
     ClassicLoadBalancer.SortLiterals := fun l => l;
     ClassicLoadBalancer.Subnet_CloudformationLink := fun s =>
       cloudformation.LiteralString (StringValue (awstasks.Subnet_ID s));
     ClassicLoadBalancer.SecurityGroup_CloudformationLink := fun s =>
       cloudformation.LiteralString (StringValue (awstasks.SecurityGroup_ID s));
     ClassicLoadBalancer.buildCloudformationTags := map_to_list;
     ClassicLoadBalancer.ToString := fun n => strconv.FormatInt <$> n;
     ClassicLoadBalancer.findHealthCheck := fun _ => Return None;
     ClassicLoadBalancer.findELBAttributes := fun _ => mret None;
     ClassicLoadBalancer.subnetSlicesEqualIgnoreOrder := fun l r =>
       bool_decide (map awstasks.Subnet_ID l ≡ₚ map awstasks.Subnet_ID r) |}.

(** A classic load balancer task "api" with the given listeners. *)
Definition classicLoadBalancer
    (listeners : list (string * ClassicLoadBalancer.ClassicLoadBalancerListener))
    : ClassicLoadBalancer.t :=
  ClassicLoadBalancer.mk (Some "api") LifecycleSync (Some "api") None None None None
    (Some (list_to_map listeners)) None None None None None None "" ∅ false None.

Definition listener (port : Z) : ClassicLoadBalancer.ClassicLoadBalancerListener :=
  {| ClassicLoadBalancer.InstancePort := port; ClassicLoadBalancer.SSLCertificateID := "" |}.

(** A group task that uses a mixed instances policy (a spot price is set). *)
Definition mixedGroup : AutoscalingGroup.t :=
  AutoscalingGroup.mk (Some "nodes.c") LifecycleSync None None
    (Some {| awstasks.LaunchTemplate_Name := Some "nodes.c";
             awstasks.LaunchTemplate_ID := Some "lt-1" |})
    None (Some 3%Z) None (Some 1%Z)
    None None None None None None None (Some "0.5") None (Some []) None None.

(** A fake OpenStack for RenderOpenstack: the backend state is the list of
    its servers; every server is listed whatever the name pattern, a deleted
    server is gone, a new server group gets the ID "sg-1". *)
Definition openstackTarget : openstack.OpenstackAPITarget (list openstack.servers_Server) :=
  {| openstack.createServerGroup := fun name policies b =>
       (inr {| openstack.sg_ID := "sg-1"; openstack.sg_Name := name;
               openstack.sg_Policies := policies; openstack.sg_Members := [] |}, b);
     openstack.listInstances := fun _ b => (inr b, b);
     openstack.deleteInstanceWithID := fun id b =>
       (inr tt, List.filter (fun s => negb (String.eqb (openstack.srv_ID s) id)) b) |}.

(** The parameters of RenderOpenstack: the tag is "KopsName", names here are
    in lower case already. *)
Definition externalOpenstack : ServerGroupRender.External :=
  {| ServerGroupRender.TagKopsName := "KopsName";
     ServerGroupRender.ToLower := fun s => s |}.

(** A server of the cluster "c.example.com". *)
Definition server (id name : string) : openstack.servers_Server :=
  {| openstack.srv_ID := id; openstack.srv_Name := name;
     openstack.srv_Metadata := {["k8s" := "c.example.com"]} |}.

(** The observed server group "nodes" with three members, and the change of
    MaxSize to one. *)
Definition serverGroupThree : ServerGroup.t :=
  ServerGroup.mk (Some "sg-0") (Some "nodes") (Some "c.example.com") (Some "nodes") []
    (Some 3%Z) LifecycleSync [] false.
Definition serverGroupMaxSize (n : Z) : ServerGroup.t :=
  ServerGroup.mk None None None None [] (Some n) "" [] false.

(** A fake Hetzner client for RenderHetzner: the backend state is the list
    of load balancers; a created one gets the ID 1, the other calls succeed
    and change nothing. *)
Definition hetznerClient : LoadBalancerRender.LoadBalancerClient (list hetzner.hcloud_LoadBalancer) :=
  {| LoadBalancerRender.LoadBalancerServiceProtocolTCP := "tcp";
     LoadBalancerRender.LoadBalancerAlgorithmTypeRoundRobin := "round_robin";
     LoadBalancerRender.client_Create := fun opts b =>
       let lb := hcloudLB 1 (LoadBalancerRender.co_Name opts) in (inr (Some lb), b ++ [lb]);
     LoadBalancerRender.client_Get := fun id b =>
       (inr (head (List.filter
                     (fun lb => String.eqb (strconv.Itoa (hetzner.lb_ID lb)) id) b)), b);
     LoadBalancerRender.client_Update := fun _ _ b => (inr tt, b);
     LoadBalancerRender.client_AddService := fun _ _ b => (inr tt, b);
     LoadBalancerRender.client_AddLabelSelectorTarget := fun _ _ b => (inr tt, b) |}.

(** The observed load balancer "api" with ID 11, no service and no target. *)
Definition loadBalancerBare : LoadBalancer.t :=
  LoadBalancer.mk (Some "api") LifecycleSync None (Some 11%Z) "fsn1" "lb11" [] "" ∅.

(** A group task with a launch template whose SuspendProcesses is nil. *)
Definition groupNilProcesses : AutoscalingGroup.t :=
  AutoscalingGroup.mk (Some "nodes.c") LifecycleSync None None
    (Some {| awstasks.LaunchTemplate_Name := Some "nodes.c";
             awstasks.LaunchTemplate_ID := Some "lt-1" |})
    None (Some 3%Z) None (Some 1%Z)
    None None None None None None None None None None None None.

End fixtures.

(** * Properties *)

(** ** The cloud monad *)

Lemma bind_Return {W A B} (m : M W A) (k : A -> M W B) w a w' :
  m w = (Return a, w') -> (m ≫= k) w = k a w'.
Proof. intros Hm. unfold mbind, M_bind, bind. by rewrite Hm. Qed.

Lemma bind_Raise {W A B} (m : M W A) (k : A -> M W B) w e w' :
  m w = (Raise e, w') -> (m ≫= k) w = (Raise e, w').
Proof. intros Hm. unfold mbind, M_bind, bind. by rewrite Hm. Qed.

Lemma call_run {S C R} (c : C) (h : S -> (fi.clouderror + R) * S) (w : World S C) :
  call c h w = (Return (h (backend w)).1, mkWorld (h (backend w)).2 (calls w ++ [c])).
Proof. unfold call. by destruct (h (backend w)). Qed.

(** ** ServerGroup: the member list *)

Section ServerGroup_members.
Import ServerGroup.

Lemma GetMembers_flag s : gotMemberList (GetMembers s).2 = true.
Proof. reflexivity. Qed.

Lemma AddNewMember_after s memberID :
  gotMemberList s = true ->
  AddNewMember memberID s = Panic "attempt to add member after member list already returned".
Proof. intros Hs. unfold AddNewMember. by rewrite Hs. Qed.

Lemma exec_GetMembers ops s :
  exec (OpGetMembers :: ops) s =
  match exec ops (GetMembers s).2 with
  | Return (s', ls) => Return (s', members s :: ls)
  | Raise e => Raise e
  | Panic msg => Panic msg
  end.
Proof. reflexivity. Qed.

Lemma exec_AddNewMember_after ops s memberID :
  gotMemberList s = true ->
  exec (OpAddNewMember memberID :: ops) s =
  Panic "attempt to add member after member list already returned".
Proof. intros Hs. simpl. by rewrite (AddNewMember_after _ _ Hs). Qed.

(** Once the flag is set, a run either aborts at an [AddNewMember], or it
    consists of [GetMembers] calls that all return the same list. *)
Lemma exec_finalized ops : forall s,
  gotMemberList s = true ->
  match exec ops s with
  | Return (s', ls) =>
      members s' = members s /\ gotMemberList s' = true /\
      Forall (eq (members s)) ls /\ Forall (eq OpGetMembers) ops
  | Panic _ => exists memberID, OpAddNewMember memberID ∈ ops
  | Raise _ => False
  end.
Proof.
  induction ops as [|o ops IH]; intros s Hs.
  - simpl. by repeat split.
  - destruct o as [memberID|].
    + rewrite (exec_AddNewMember_after _ _ _ Hs). exists memberID. by left.
    + rewrite exec_GetMembers.
      specialize (IH (GetMembers s).2 (GetMembers_flag s)).
      destruct (exec ops (GetMembers s).2) as [[s' ls]|err|msg].
      * destruct IH as (Hm & Hf & Hls & Hops). repeat split; auto.
      * done.
      * destruct IH as [memberID Hin]. exists memberID. by right.
Qed.

(** C8.  After [GetMembers] has returned a list [l], whatever sequence of
    [AddNewMember] and [GetMembers] calls follows: if the program is still
    running the member list is still [l], every later [GetMembers] returned
    [l] again and no [AddNewMember] was among the calls; the program aborted
    only at an [AddNewMember]; and one more [AddNewMember] aborts it. *)
Theorem ServerGroup_member_list_final (s : t) (ops : list op) :
  match exec ops (GetMembers s).2 with
  | Return (s2, ls) =>
      members s2 = (GetMembers s).1 /\ Forall (eq (GetMembers s).1) ls /\
      Forall (eq OpGetMembers) ops /\
      forall memberID, exists msg, AddNewMember memberID s2 = Panic msg
  | Panic _ => exists memberID, OpAddNewMember memberID ∈ ops
  | Raise _ => False
  end.
Proof.
  pose proof (exec_finalized ops (GetMembers s).2 (GetMembers_flag s)) as H.
  destruct (exec ops (GetMembers s).2) as [[s2 ls]|err|msg]; auto.
  destruct H as (Hm & Hf & Hls & Hops). repeat split; auto.
  intros memberID. eexists. by apply AddNewMember_after.
Qed.

End ServerGroup_members.

(** ** CheckChanges: immutable and required fields *)

Section CheckChanges_facts.
Import fi engine.

Lemma ServerGroup_CheckChanges_ID a e changes :
  is_Some (ServerGroup.ID changes) ->
  ServerGroup.CheckChanges (Some a) e changes = Some (CannotChangeField "ID").
Proof. intros [id Hid]. unfold ServerGroup.CheckChanges. by rewrite Hid. Qed.

Lemma LoadBalancer_CheckChanges_ID a e changes :
  is_Some (LoadBalancer.ID changes) ->
  LoadBalancer.CheckChanges (Some a) e changes =
  Some (CannotChangeField
          (if LoadBalancer.Name changes is Some _ then "Name" else "ID")).
Proof.
  intros [id Hid]. unfold LoadBalancer.CheckChanges.
  rewrite Hid. by destruct (LoadBalancer.Name changes).
Qed.

Lemma ServerGroup_changed_ID changes :
  is_Some (ServerGroup.ID changes) -> ServerGroup.unchanged changes = false.
Proof.
  intros [id Hid]. unfold ServerGroup.unchanged.
  apply bool_decide_eq_false. intros ->. discriminate.
Qed.

Lemma LoadBalancer_changed_ID changes :
  is_Some (LoadBalancer.ID changes) -> LoadBalancer.unchanged changes = false.
Proof.
  intros [id Hid]. unfold LoadBalancer.unchanged.
  apply bool_decide_eq_false. intros ->. discriminate.
Qed.

(** The engine does not reach Render when validation fails. *)
Lemma applyChanges_validation_error {T C W} (unchanged : C -> bool)
    (CheckChanges : option T -> T -> C -> option error)
    (Render : option T -> T -> C -> M W unit) a e changes w err :
  unchanged changes = false ->
  CheckChanges a e changes = Some err ->
  applyChanges unchanged CheckChanges Render a e changes w = (failed err, [EvCheckChanges], w).
Proof. intros Hu Hc. unfold applyChanges. by rewrite Hu, Hc. Qed.

(** C2, as the claim states it, fails for the Hetzner load balancer: with
    the observed task present and [changes.ID] set, a [changes.Name] that is
    set as well makes CheckChanges name the field Name, not ID. *)
Lemma LoadBalancer_CheckChanges_ID_counterexample :
  ~ (forall a e changes : LoadBalancer.t,
       is_Some (LoadBalancer.ID changes) ->
       LoadBalancer.CheckChanges (Some a) e changes = Some (CannotChangeField "ID")).
Proof.
  intros H.
  specialize (H fake.loadBalancer fake.loadBalancer
                (LoadBalancer.mk (Some "api2") "" None (Some 7%Z) "" "" [] "" ∅)).
  simpl in H. specialize (H (mk_is_Some _ _ eq_refl)). discriminate H.
Qed.

(** C2 (amended).  With the observed task present and [changes.ID] set:
    ServerGroup.CheckChanges returns CannotChangeField("ID"); the Hetzner
    LoadBalancer.CheckChanges returns CannotChangeField("ID") when
    [changes.Name] is nil and CannotChangeField("Name") when it is set; and
    whatever the Render function of the target is, the engine stops the task
    at the validation error without invoking Render and without touching
    the world. *)
Theorem CheckChanges_ID_immutable {W W' : Type}
    (RenderS : option ServerGroup.t -> ServerGroup.t -> ServerGroup.t -> M W unit)
    (RenderL : option LoadBalancer.t -> LoadBalancer.t -> LoadBalancer.t -> M W' unit)
    (sa se schanges : ServerGroup.t) (la le lchanges : LoadBalancer.t) (w : W) (w' : W') :
  is_Some (ServerGroup.ID schanges) ->
  is_Some (LoadBalancer.ID lchanges) ->
  ServerGroup.CheckChanges (Some sa) se schanges = Some (CannotChangeField "ID") /\
  (LoadBalancer.Name lchanges = None ->
   LoadBalancer.CheckChanges (Some la) le lchanges = Some (CannotChangeField "ID")) /\
  (is_Some (LoadBalancer.Name lchanges) ->
   LoadBalancer.CheckChanges (Some la) le lchanges = Some (CannotChangeField "Name")) /\
  applyChanges ServerGroup.unchanged ServerGroup.CheckChanges RenderS (Some sa) se schanges w
    = (failed (CannotChangeField "ID"), [EvCheckChanges], w) /\
  exists field,
    applyChanges LoadBalancer.unchanged LoadBalancer.CheckChanges RenderL (Some la) le lchanges w'
      = (failed (CannotChangeField field), [EvCheckChanges], w').
Proof.
  intros HS HL.
  pose proof (ServerGroup_CheckChanges_ID sa se schanges HS) as HcS.
  pose proof (LoadBalancer_CheckChanges_ID la le lchanges HL) as HcL.
  split; [exact HcS|]. split; [|split; [|split]].
  - intros Hn. by rewrite Hn in HcL.
  - intros [n Hn]. by rewrite Hn in HcL.
  - apply applyChanges_validation_error; [by apply ServerGroup_changed_ID|exact HcS].
  - eexists. apply applyChanges_validation_error; [by apply LoadBalancer_changed_ID|exact HcL].
Qed.

(** The amended C2 at a server group and a load balancer whose ID changes. *)
Lemma CheckChanges_ID_immutable_witness :
  ServerGroup.CheckChanges (Some fake.serverGroup) fake.serverGroup
    (ServerGroup.mk (Some "y") None None None [] None "" [] false)
  = Some (CannotChangeField "ID").
Proof.
  exact (proj1 (CheckChanges_ID_immutable
                  (fun _ _ _ => mret tt) (fun _ _ _ => mret tt)
                  fake.serverGroup fake.serverGroup
                  (ServerGroup.mk (Some "y") None None None [] None "" [] false)
                  fake.loadBalancer fake.loadBalancer
                  (LoadBalancer.mk None "" None (Some 7%Z) "" "" [] "" ∅)
                  (tt : unit) (tt : unit)
                  (mk_is_Some _ _ eq_refl) (mk_is_Some _ _ eq_refl))).
Defined.

(** C3.  On the create path ([a == nil]) AutoscalingGroup.CheckChanges
    accepts every desired task, one without a Name included: its check of
    Name sits under [a != nil]. *)
Theorem AutoscalingGroup_CheckChanges_create_accepts (ex changes : AutoscalingGroup.t) :
  AutoscalingGroup.CheckChanges None ex changes = None.
Proof. reflexivity. Qed.

(** The Hetzner load balancer does reject a create without a mandatory
    attribute: the error names the first of Name, Location, Type, Services
    and Target that is unset. *)
Lemma LoadBalancer_CheckChanges_create_required (e changes : LoadBalancer.t) :
  LoadBalancer.CheckChanges None e changes =
  if LoadBalancer.Name e is None then Some (RequiredField "Name")
  else if String.eqb (LoadBalancer.Location e) "" then Some (RequiredField "Location")
  else if String.eqb (LoadBalancer.Type_ e) "" then Some (RequiredField "Type")
  else if bool_decide (LoadBalancer.Services e = []) then Some (RequiredField "Services")
  else if String.eqb (LoadBalancer.Target e) "" then Some (RequiredField "Target")
  else None.
Proof.
  unfold LoadBalancer.CheckChanges.
  destruct (LoadBalancer.Name e); [|done].
  destruct (String.eqb (LoadBalancer.Location e) ""); [done|].
  destruct (String.eqb (LoadBalancer.Type_ e) ""); [done|].
  by destruct (LoadBalancer.Services e).
Qed.

(** C4.  With the observed load balancer present, nothing changed but the
    services, and both service lists non-empty, the Hetzner CheckChanges
    returns CannotChangeField with the field name "Subnets"; the task has no
    such field, the offending one is Services. *)
Theorem LoadBalancer_CheckChanges_Services_names_Subnets (a e changes : LoadBalancer.t) :
  LoadBalancer.Name changes = None ->
  LoadBalancer.ID changes = None ->
  LoadBalancer.Location changes = "" ->
  LoadBalancer.Type_ changes = "" ->
  LoadBalancer.Services changes <> [] ->
  LoadBalancer.Services a <> [] ->
  LoadBalancer.CheckChanges (Some a) e changes = Some (CannotChangeField "Subnets") /\
  LoadBalancer.CheckChanges (Some a) e changes <> Some (CannotChangeField "Services").
Proof.
  intros Hname Hid Hloc Htype Hchanged Hobserved.
  assert (LoadBalancer.CheckChanges (Some a) e changes = Some (CannotChangeField "Subnets"))
    as Hcheck.
  { unfold LoadBalancer.CheckChanges. rewrite Hname, Hid, Hloc, Htype. simpl.
    destruct (LoadBalancer.Services changes) as [|c cs]; [done|].
    by destruct (LoadBalancer.Services a) as [|o os]. }
  split; [exact Hcheck|]. rewrite Hcheck. discriminate.
Qed.

End CheckChanges_facts.

(** C4 at the load balancer "api" whose one service is to be replaced. *)
Lemma LoadBalancer_CheckChanges_Services_names_Subnets_witness :
  LoadBalancer.CheckChanges (Some fake.loadBalancer) fake.loadBalancer
    (LoadBalancer.mk None "" None None "" ""
       [{| LoadBalancer.Protocol := "tcp";
           LoadBalancer.ListenerPort := Some 6443%Z;
           LoadBalancer.DestinationPort := Some 6443%Z |}] "" ∅)
  = Some (fi.CannotChangeField "Subnets").
Proof.
  exact (proj1 (LoadBalancer_CheckChanges_Services_names_Subnets
                  fake.loadBalancer fake.loadBalancer
                  (LoadBalancer.mk None "" None None "" ""
                     [{| LoadBalancer.Protocol := "tcp";
                         LoadBalancer.ListenerPort := Some 6443%Z;
                         LoadBalancer.DestinationPort := Some 6443%Z |}] "" ∅)
                  eq_refl eq_refl eq_refl eq_refl
                  ltac:(discriminate) ltac:(discriminate))).
Defined.

(** ** ClassicLoadBalancer: a shared load balancer is never rendered *)

Section ClassicLoadBalancer_shared.
Import fi ClassicLoadBalancer.
Context {S : Type} `{!awsup.AWSCloud S} `{!External S}.

(** C10.  For a ClassicLoadBalancer whose Shared is true: ShouldCreate
    returns false with a nil error, and RenderAWS, RenderTerraform and
    RenderCloudformation return nil at once; the world of the cloud client
    (backend state and call log) and the document are left as they were, and
    so is the desired task. *)
Theorem ClassicLoadBalancer_shared_noop (a : option t) (e changes : t)
    (w : World S awsup.Call)
    (dT : target.Document terraformLoadBalancer)
    (dC : target.Document cloudformationClassicLoadBalancer) :
  Shared e = Some true ->
  ShouldCreate a e changes = (false, None) /\
  RenderAWS a e changes w = (Return e, w) /\
  RenderTerraform a e changes dT = (Return tt, dT) /\
  RenderCloudformation a e changes dC = (Return tt, dC).
Proof.
  intros Hshared.
  unfold ShouldCreate, RenderAWS, RenderTerraform, RenderCloudformation.
  rewrite Hshared. by simpl.
Qed.

End ClassicLoadBalancer_shared.

(** C10 at a shared load balancer named "ext", on the fake AWS. *)
Lemma ClassicLoadBalancer_shared_noop_witness :
  let e := ClassicLoadBalancer.mk (Some "ext") fi.LifecycleSync (Some "ext-elb") None None
             None None None None None None None None None "" ∅ false (Some true) in
  @ClassicLoadBalancer.RenderAWS fake.AWS fake.awsCloud fake.external None e
     ClassicLoadBalancer.empty (fake.emptyWorld (fake.Build_AWS [] [] None))
  = (Return e, fake.emptyWorld (fake.Build_AWS [] [] None)).
Proof.
  intros e.
  exact (proj1 (proj2 (@ClassicLoadBalancer_shared_noop fake.AWS fake.awsCloud fake.external
                         None e ClassicLoadBalancer.empty
                         (fake.emptyWorld (fake.Build_AWS [] [] None))
                         {| target.resources := [] |} {| target.resources := [] |}
                         eq_refl))).
Defined.

(** ** Lookups that find more than one resource *)

Section Multiple_matches.
Import fi.

Lemma ServerGroup_Find_loop_multiple s serverGroups : forall actual,
  1 < length (List.filter
                (fun g => String.eqb (openstack.sg_Name g) (StringValue (ServerGroup.Name s)))
                serverGroups)
      + (if actual is Some _ then 1 else 0) ->
  ServerGroup.Find_loop s serverGroups actual =
  Raise (Errorf "Found multiple server groups with name %s"
           [ArgString (StringValue (ServerGroup.Name s))]).
Proof.
  induction serverGroups as [|g rest IH]; intros actual Hlen; simpl in *.
  - destruct actual; simpl in Hlen; lia.
  - destruct (String.eqb (openstack.sg_Name g) (StringValue (ServerGroup.Name s))); simpl in *.
    + destruct actual; [done|]. apply IH. simpl. lia.
    + by apply IH.
Qed.

Lemma more_than_one {A} (l : list A) :
  1 < length l -> exists x y rest, l = x :: y :: rest.
Proof. destruct l as [|x [|y rest]]; simpl; try lia. eauto. Qed.

Lemma LoadBalancer_Find_loop_first v pre lb post :
  hetzner.lb_Name lb = StringValue (LoadBalancer.Name v) ->
  Forall (fun x => hetzner.lb_Name x <> StringValue (LoadBalancer.Name v)) pre ->
  LoadBalancer.Find_loop v (pre ++ lb :: post) =
  (Some (LoadBalancer.Find_matches v lb),
   LoadBalancer.mk (LoadBalancer.Name v) (LoadBalancer.Lifecycle v) (LoadBalancer.Network_ v)
     (Some (hetzner.lb_ID lb)) (LoadBalancer.Location v) (LoadBalancer.Type_ v)
     (LoadBalancer.Services v) (LoadBalancer.Target v) (LoadBalancer.Labels v)).
Proof.
  intros Hlb Hpre. induction Hpre as [|x pre Hx _ IH]; simpl.
  - by rewrite (proj2 (String.eqb_eq _ _) Hlb).
  - by rewrite (proj2 (String.eqb_neq _ _) Hx).
Qed.

(** C9 (amended).  When more than one listed resource matches the lookup
    key, three lookups return an error and no observed value: ServerGroup.Find
    when two or more server groups have the desired Name, findAutoscalingGroup
    when two or more groups that are not being deleted have the name, and
    findLoadBalancerByLoadBalancerName when two or more ELBs have the name.
    The Hetzner LoadBalancer.Find does not: it returns the first listed load
    balancer of the name as the observed task, with no error, whatever is
    listed after it. *)
Theorem lookup_multiple_matches_error :
  (forall S (cloud : openstack.OpenstackCloud S) (s : ServerGroup.t) name
          (w : World S openstack.Call) page b' serverGroups,
     ServerGroup.Name s = Some name ->
     openstack.listServerGroups (backend w) = (inr page, b') ->
     openstack.ExtractServerGroups page = inr serverGroups ->
     1 < length (List.filter (fun g => String.eqb (openstack.sg_Name g) name) serverGroups) ->
     ServerGroup.Find (Some s) w =
     (Raise (Errorf "Found multiple server groups with name %s" [ArgString name]),
      mkWorld b' (calls w ++ [openstack.ListServerGroups]))) /\
  (forall S (cloud : awsup.AWSCloud S) name (w : World S awsup.Call) pages b',
     awsup.describeAutoScalingGroupsPages [name] (backend w) = (inr pages, b') ->
     1 < length (List.filter
                   (fun g => match awsup.Status g with
                             | Some _ => false
                             | None => String.eqb (StringValue (awsup.AutoScalingGroupName g)) name
                             end)
                   (concat pages)) ->
     AutoscalingGroup.findAutoscalingGroup name w =
     (Raise (Errorf "found multiple AutoscalingGroups with name: %q" [ArgString name]),
      mkWorld b' (calls w ++ [awsup.DescribeAutoScalingGroupsPages [name]]))) /\
  (forall S (cloud : awsup.AWSCloud S) loadBalancerName (w : World S awsup.Call) pages b',
     awsup.describeLoadBalancersPages [loadBalancerName] (backend w) = (inr pages, b') ->
     1 < length (List.filter
                   (fun lb => String.eqb (StringValue (awsup.LoadBalancerName lb))
                                loadBalancerName)
                   (concat pages)) ->
     ClassicLoadBalancer.findLoadBalancerByLoadBalancerName loadBalancerName w =
     (Raise (Errorf "Found multiple ELBs with name %q" [ArgString loadBalancerName]),
      mkWorld b' (calls w ++ [awsup.DescribeLoadBalancersPages [loadBalancerName]]))) /\
  (forall S (cloud : hetzner.HetznerCloud S) (v : LoadBalancer.t) (w : World S hetzner.Call)
          pre lb post b',
     hetzner.loadBalancerAll (backend w) = (inr (pre ++ lb :: post), b') ->
     hetzner.lb_Name lb = StringValue (LoadBalancer.Name v) ->
     Forall (fun x => hetzner.lb_Name x <> StringValue (LoadBalancer.Name v)) pre ->
     LoadBalancer.Find v w =
     (Return (Some (LoadBalancer.Find_matches v lb),
              LoadBalancer.mk (LoadBalancer.Name v) (LoadBalancer.Lifecycle v)
                (LoadBalancer.Network_ v) (Some (hetzner.lb_ID lb)) (LoadBalancer.Location v)
                (LoadBalancer.Type_ v) (LoadBalancer.Services v) (LoadBalancer.Target v)
                (LoadBalancer.Labels v)),
      mkWorld b' (calls w ++ [hetzner.LoadBalancerAll]))).
Proof.
  split; [|split; [|split]].
  - intros S cloud s name w page b' serverGroups Hname Hlist Hextract Hlen.
    unfold ServerGroup.Find. rewrite Hname.
    erewrite bind_Return; [|apply call_run].
    rewrite Hlist. simpl. rewrite Hextract.
    rewrite ServerGroup_Find_loop_multiple.
    + by rewrite Hname.
    + rewrite Hname. simpl. lia.
  - intros S cloud name w pages b' Hlist Hlen.
    unfold AutoscalingGroup.findAutoscalingGroup.
    erewrite bind_Return; [|apply call_run].
    rewrite Hlist. simpl.
    destruct (more_than_one _ Hlen) as (x & y & rest & ->). done.
  - intros S cloud loadBalancerName w pages b' Hlist Hlen.
    unfold ClassicLoadBalancer.findLoadBalancerByLoadBalancerName,
      ClassicLoadBalancer.describeLoadBalancers.
    unfold mbind, M_bind, bind. rewrite call_run, Hlist. simpl.
    destruct (more_than_one _ Hlen) as (x & y & rest & ->). done.
  - intros S cloud v w pre lb post b' Hlist Hlb Hpre.
    unfold LoadBalancer.Find.
    erewrite bind_Return; [|apply call_run].
    rewrite Hlist. simpl. by rewrite (LoadBalancer_Find_loop_first _ _ _ _ Hlb Hpre).
Qed.

End Multiple_matches.

(** C9 as claimed fails for the Hetzner load balancer: on a cloud that lists
    two load balancers named "api", Find for the task "api" returns no
    error. *)
Lemma lookup_multiple_matches_counterexample :
  ~ (forall S (cloud : hetzner.HetznerCloud S) (v : LoadBalancer.t)
            (w : World S hetzner.Call) loadbalancers b',
       hetzner.loadBalancerAll (backend w) = (inr loadbalancers, b') ->
       1 < length (List.filter
                     (fun lb => String.eqb (hetzner.lb_Name lb)
                                  (fi.StringValue (LoadBalancer.Name v)))
                     loadbalancers) ->
       exists err, (LoadBalancer.Find v w).1 = Raise err).
Proof.
  intros H.
  destruct (H _ fake.hetznerCloud fake.loadBalancer
              (fake.emptyWorld [fixtures.hcloudLB 21 "api"; fixtures.hcloudLB 22 "api"])
              _ _ eq_refl ltac:(vm_compute; lia)) as [err Herr].
  vm_compute in Herr. discriminate.
Qed.

(** C9 on the fake clouds: two server groups named "nodes", two autoscaling
    groups named "nodes.c" next to one that is being deleted, two ELBs named
    "api"; and two Hetzner load balancers named "api", of which Find observes
    the first, with ID 21. *)
Lemma lookup_multiple_matches_error_witness :
  (@ServerGroup.Find _ fake.openstackCloud (Some fake.serverGroup)
     (fake.emptyWorld [fake.osGroup "1" "nodes"; fake.osGroup "2" "nodes"])).1
  = Raise (fi.Errorf "Found multiple server groups with name %s" [fi.ArgString "nodes"]) /\
  (@AutoscalingGroup.findAutoscalingGroup _ fake.awsCloud "nodes.c"
     (fake.emptyWorld
        (fake.Build_AWS []
           [fake.asGroup "nodes.c" None; fake.asGroup "nodes.c" (Some "Delete in progress");
            fake.asGroup "nodes.c" None] None))).1
  = Raise (fi.Errorf "found multiple AutoscalingGroups with name: %q" [fi.ArgString "nodes.c"]) /\
  (@ClassicLoadBalancer.findLoadBalancerByLoadBalancerName _ fake.awsCloud "api"
     (fake.emptyWorld (fake.Build_AWS [fake.elb "api"; fake.elb "api"] [] None))).1
  = Raise (fi.Errorf "Found multiple ELBs with name %q" [fi.ArgString "api"]) /\
  (exists actual v',
     (@LoadBalancer.Find _ fake.hetznerCloud fake.loadBalancer
        (fake.emptyWorld [fixtures.hcloudLB 21 "api"; fixtures.hcloudLB 22 "api"])).1
     = Return (Some actual, v') /\
     LoadBalancer.ID actual = Some 21%Z /\ LoadBalancer.ID v' = Some 21%Z).
Proof.
  split; [|split; [|split]].
  - exact (f_equal fst
             (proj1 lookup_multiple_matches_error _ fake.openstackCloud fake.serverGroup "nodes"
                (fake.emptyWorld [fake.osGroup "1" "nodes"; fake.osGroup "2" "nodes"])
                _ _ _ eq_refl eq_refl eq_refl ltac:(vm_compute; lia))).
  - exact (f_equal fst
             (proj1 (proj2 lookup_multiple_matches_error) _ fake.awsCloud "nodes.c"
                (fake.emptyWorld
                   (fake.Build_AWS []
                      [fake.asGroup "nodes.c" None;
                       fake.asGroup "nodes.c" (Some "Delete in progress");
                       fake.asGroup "nodes.c" None] None))
                _ _ eq_refl ltac:(vm_compute; lia))).
  - exact (f_equal fst
             (proj1 (proj2 (proj2 lookup_multiple_matches_error)) _ fake.awsCloud "api"
                (fake.emptyWorld (fake.Build_AWS [fake.elb "api"; fake.elb "api"] [] None))
                _ _ eq_refl ltac:(vm_compute; lia))).
  - eexists _, _. split; [|split].
    + exact (f_equal fst
               (proj2 (proj2 (proj2 lookup_multiple_matches_error)) _ fake.hetznerCloud
                  fake.loadBalancer
                  (fake.emptyWorld [fixtures.hcloudLB 21 "api"; fixtures.hcloudLB 22 "api"])
                  [] (fixtures.hcloudLB 21 "api") [fixtures.hcloudLB 22 "api"] _
                  eq_refl eq_refl ltac:(constructor))).
    + reflexivity.
    + reflexivity.
Defined.

(** ** Find when nothing matches *)

Section Find_absent.
Import fi.



(** Whatever it finds, ServerGroup.Find issues at most the one listing call,
    and LoadBalancer.Find exactly the one; neither call changes the cloud. *)
Lemma ServerGroup_Find_calls {S} `{!openstack.OpenstackCloud S}
    (s : option ServerGroup.t) (w : World S openstack.Call) :
  calls (ServerGroup.Find s w).2 = calls w \/
  calls (ServerGroup.Find s w).2 = calls w ++ [openstack.ListServerGroups].
Proof.
  unfold ServerGroup.Find.
  destruct s as [s0|]; [|by left].
  destruct (ServerGroup.Name s0); [|by left].
  right. unfold mbind, M_bind, bind. rewrite call_run.
  destruct (openstack.listServerGroups (backend w)) as [[err|page] b']; simpl; [done|].
  destruct (openstack.ExtractServerGroups page) as [err|groups]; [done|].
  by destruct (ServerGroup.Find_loop s0 groups None) as [[actual|]| |].
Qed.

Lemma LoadBalancer_Find_calls {S} `{!hetzner.HetznerCloud S}
    (v : LoadBalancer.t) (w : World S hetzner.Call) :
  calls (LoadBalancer.Find v w).2 = calls w ++ [hetzner.LoadBalancerAll].
Proof.
  unfold LoadBalancer.Find, mbind, M_bind, bind. rewrite call_run.
  by destruct (hetzner.loadBalancerAll (backend w)) as [[err|lbs] b'].
Qed.


End Find_absent.



(** ** AutoscalingGroup: the retryable error of the create path *)

Section AutoscalingGroup_create.
Import fi awsup AutoscalingGroup.
Context {S : Type} `{!AWSCloud S}.

Lemma createError_retryable err :
  is_TryAgainLater (createError err) = true <-> profile_not_propagated err.
Proof.
  unfold createError, profile_not_propagated.
  destruct (String.eqb_spec (AWSErrorCode err) "ValidationError") as [->|Hne]; simpl.
  - destruct (strings.Contains _ _); simpl; split; intros; destruct_and?; done.
  - split; [done|]. by intros [? _].
Qed.

Lemma createError_fatal err :
  ~ profile_not_propagated err ->
  createError err = Errorf "error creating AutoScalingGroup: %s" [ArgString (AWSErrorMessage err)].
Proof.
  intros Hn. unfold createError.
  destruct (String.eqb_spec (AWSErrorCode err) "ValidationError") as [Hc|Hne]; simpl; [|done].
  destruct (strings.Contains _ _) eqn:Hm; [|done].
  destruct Hn. by split.
Qed.

Lemma createLoadBalancerNames_not_retryable l (w : World S Call) :
  not_retryable (createLoadBalancerNames l w).1.
Proof.
  revert w. induction l as [|k rest IH]; intros w; simpl; [done|].
  unfold mbind, M_bind, bind.
  destruct (ClassicLoadBalancer.LoadBalancerName k) as [n|]; simpl.
  - specialize (IH w). destruct (createLoadBalancerNames rest w) as [[ns|err|msg] w']; done.
  - rewrite call_run.
    destruct (findELBByNameTag _ (backend w)) as [[err|[lbDesc|]] b']; simpl; try done.
    match goal with |- context [createLoadBalancerNames rest ?w0] => specialize (IH w0) end.
    destruct (createLoadBalancerNames rest _) as [[ns|err|msg] w']; done.
Qed.

Lemma createRequest_not_retryable v e (w : World S Call) :
  not_retryable (createRequest v e w).1.
Proof.
  unfold createRequest, mbind, M_bind, bind.
  pose proof (createLoadBalancerNames_not_retryable (elems (LoadBalancers e)) w) as H.
  destruct (createLoadBalancerNames _ w) as [[ns|err|msg] w']; simpl in *; try done.
  destruct (UseMixedInstancesPolicy e), (LaunchTemplate_ e); done.
Qed.

Lemma createMetricsAndProcesses_not_retryable e (w : World S Call) :
  not_retryable (createMetricsAndProcesses e w).1.
Proof.
  unfold createMetricsAndProcesses, mbind, M_bind, bind. rewrite call_run.
  destruct (perform _ (backend w)) as [[err|[]] b']; simpl; [done|].
  destruct (SuspendProcesses_ e) as [processes|]; [|done].
  destruct (0 <? length processes); [|done].
  rewrite call_run. by destruct (perform _ _) as [[err|[]] b''].
Qed.

(** The create path, once the request is built. *)
Lemma RenderAWS_create_run v e (w : World S Call) request w1 :
  createRequest v e w = (Return request, w1) ->
  RenderAWS_create v e w =
  match perform (CreateAutoScalingGroup request) (backend w1) with
  | (inl err, b') =>
      (Raise (createError err), mkWorld b' (calls w1 ++ [CreateAutoScalingGroup request]))
  | (inr _, b') =>
      createMetricsAndProcesses e (mkWorld b' (calls w1 ++ [CreateAutoScalingGroup request]))
  end.
Proof.
  intros Hreq. unfold RenderAWS_create.
  erewrite bind_Return; [|exact Hreq].
  erewrite bind_Return; [|apply call_run].
  by destruct (perform _ (backend w1)) as [[err|[]] b'].
Qed.

(** C6.  On the create path ([a == nil]) RenderAWS returns the retryable
    TryAgainLater error exactly when the CreateAutoScalingGroup call was
    issued and failed with the error code "ValidationError" and a message
    that contains "Invalid IAM Instance Profile name"; any other failure of
    that call is returned as the error "error creating AutoScalingGroup",
    which is not retryable. *)
Theorem RenderAWS_create_TryAgainLater (v e changes : t) (w : World S Call) :
  ((exists message, (RenderAWS v None e changes w).1 = Raise (TryAgainLaterError message)) <->
   (exists request w1 err b',
      createRequest v e w = (Return request, w1) /\
      perform (CreateAutoScalingGroup request) (backend w1) = (inl err, b') /\
      profile_not_propagated err)) /\
  (forall request w1 err b',
     createRequest v e w = (Return request, w1) ->
     perform (CreateAutoScalingGroup request) (backend w1) = (inl err, b') ->
     ~ profile_not_propagated err ->
     RenderAWS v None e changes w =
     (Raise (Errorf "error creating AutoScalingGroup: %s" [ArgString (AWSErrorMessage err)]),
      mkWorld b' (calls w1 ++ [CreateAutoScalingGroup request]))).
Proof.
  unfold RenderAWS. split; [split|].
  - intros [message Hr].
    pose proof (createRequest_not_retryable v e w) as Hq.
    destruct (createRequest v e w) as [[request|err|msg] w1] eqn:Hreq.
    + rewrite (RenderAWS_create_run _ _ _ _ _ Hreq) in Hr.
      destruct (perform _ (backend w1)) as [[err|[]] b'] eqn:Hperform; simpl in Hr.
      * injection Hr as Hr.
        assert (profile_not_propagated err) as [Hcode Hmsg]
          by (apply createError_retryable; by rewrite Hr).
        by exists request, w1, err, b'.
      * pose proof (createMetricsAndProcesses_not_retryable e
                      (mkWorld b' (calls w1 ++ [CreateAutoScalingGroup request]))) as Hm.
        rewrite Hr in Hm. done.
    + unfold RenderAWS_create in Hr. erewrite bind_Raise in Hr; [|exact Hreq].
      simpl in *. injection Hr as ->. done.
    + unfold RenderAWS_create, mbind, M_bind, bind in Hr. rewrite Hreq in Hr. done.
  - intros (request & w1 & err & b' & Hreq & Hperform & Hcond).
    rewrite (RenderAWS_create_run _ _ _ _ _ Hreq), Hperform. simpl.
    apply createError_retryable in Hcond.
    destruct (createError err); try done. by eexists.
  - intros request w1 err b' Hreq Hperform Hcond.
    rewrite (RenderAWS_create_run _ _ _ _ _ Hreq), Hperform.
    by rewrite (createError_fatal _ Hcond).
Qed.

End AutoscalingGroup_create.

(** C6 on the fake AWS, which answers CreateAutoScalingGroup with a
    ValidationError about the instance profile. *)
Lemma RenderAWS_create_TryAgainLater_witness :
  exists message,
    (@AutoscalingGroup.RenderAWS _ fake.awsCloud fake.autoscalingGroup None
       fake.autoscalingGroup AutoscalingGroup.empty
       (fake.emptyWorld
          (fake.Build_AWS [] []
             (Some (fi.AwsError "ValidationError"
                      "Invalid IAM Instance Profile name: nodes.c"))))).1
    = Raise (fi.TryAgainLaterError message).
Proof.
  apply (proj2 (proj1 (@RenderAWS_create_TryAgainLater _ fake.awsCloud
                         fake.autoscalingGroup fake.autoscalingGroup AutoscalingGroup.empty
                         (fake.emptyWorld
                            (fake.Build_AWS [] []
                               (Some (fi.AwsError "ValidationError"
                                        "Invalid IAM Instance Profile name: nodes.c"))))))).
  eexists _, _, _, _. split; [reflexivity|]. split; [reflexivity|]. by split.
Defined.

(** ** Sorting by key *)

Section String_order.

Lemma Ascii_compare_refl c : Ascii.compare c c = Eq.
Proof. apply N.compare_refl. Qed.

Lemma Ascii_compare_Lt_trans x y z :
  Ascii.compare x y = Lt -> Ascii.compare y z = Lt -> Ascii.compare x z = Lt.
Proof. unfold Ascii.compare. rewrite !N.compare_lt_iff. lia. Qed.

Lemma String_leb_trans a : forall b c,
  String.leb a b = true -> String.leb b c = true -> String.leb a c = true.
Proof.
  unfold String.leb.
  induction a as [|x a IH]; intros [|y b] [|z c]; simpl; try done.
  destruct (Ascii.compare x y) eqn:Hxy; [| |done];
    destruct (Ascii.compare y z) eqn:Hyz; try done.
  - apply Ascii.compare_eq_iff in Hxy as ->. apply Ascii.compare_eq_iff in Hyz as ->.
    rewrite Ascii_compare_refl. apply IH.
  - apply Ascii.compare_eq_iff in Hxy as ->. by rewrite Hyz.
  - apply Ascii.compare_eq_iff in Hyz as <-. by rewrite Hxy.
  - by rewrite (Ascii_compare_Lt_trans _ _ _ Hxy Hyz).
Qed.

Lemma String_ltb_leb a b : String.ltb a b = negb (String.leb b a).
Proof.
  unfold String.ltb, String.leb. rewrite (String.compare_antisym a b).
  by destruct (String.compare b a).
Qed.

Global Instance String_leb_Transitive : Transitive (fun a b => String.leb a b = true).
Proof. intros a b c. apply String_leb_trans. Qed.

Global Instance String_leb_AntiSymm : AntiSymm (=) (fun a b => String.leb a b = true).
Proof. intros a b. apply String.leb_antisym. Qed.

End String_order.

Section Stable_by_key.
Context {A : Type} (key : A -> string).

Local Abbreviation less := (fun a b => strings.lt (key a) (key b)) (only parsing).
Local Abbreviation descending := (flip (sort.ascending key)) (only parsing).

Lemma less_false a b : less a b = false -> sort.ascending key b a.
Proof.
  unfold strings.lt, sort.ascending. rewrite String_ltb_leb.
  by intros ?%negb_false_iff.
Qed.

Lemma less_true a b : less a b = true -> sort.ascending key a b.
Proof.
  unfold strings.lt, sort.ascending. rewrite String_ltb_leb.
  intros Hlt%negb_true_iff.
  destruct (String.leb_total (key a) (key b)) as [H|H]; [done|congruence].
Qed.

Lemma ascending_trans a b c :
  sort.ascending key a b -> sort.ascending key b c -> sort.ascending key a c.
Proof. unfold sort.ascending. apply String_leb_trans. Qed.

Lemma insert_Permutation x rp : sort.insert less x rp ≡ₚ x :: rp.
Proof.
  induction rp as [|y rp IH]; simpl; [done|].
  destruct (strings.lt (key x) (key y)); [|done].
  by rewrite IH, Permutation_swap.
Qed.

Lemma insert_StronglySorted x rp :
  StronglySorted descending rp -> StronglySorted descending (sort.insert less x rp).
Proof.
  induction 1 as [|y rp Hrp IH Hy]; simpl.
  - repeat constructor.
  - destruct (strings.lt (key x) (key y)) eqn:Hlt.
    + constructor; [done|].
      rewrite insert_Permutation. constructor; [|done].
      by apply less_true.
    + constructor; [by constructor|].
      apply less_false in Hlt. constructor; [done|].
      eapply Forall_impl; [exact Hy|].
      intros z Hz. unfold flip in *. by eapply ascending_trans.
Qed.

Lemma fold_insert_Permutation l : forall rp,
  fold_left (fun rp x => sort.insert less x rp) l rp ≡ₚ l ++ rp.
Proof.
  induction l as [|x l IH]; intros rp; simpl; [done|].
  by rewrite IH, insert_Permutation, Permutation_middle.
Qed.

Lemma fold_insert_StronglySorted l : forall rp,
  StronglySorted descending rp ->
  StronglySorted descending (fold_left (fun rp x => sort.insert less x rp) l rp).
Proof.
  induction l as [|x l IH]; intros rp Hrp; simpl; [done|].
  by apply IH, insert_StronglySorted.
Qed.

Lemma StronglySorted_reverse (R : relation A) l :
  StronglySorted (flip R) l -> StronglySorted R (reverse l).
Proof.
  induction 1 as [|x l Hl IH Hx]; [constructor|].
  rewrite reverse_cons.
  apply StronglySorted_app_2; [|done|repeat constructor].
  intros x1 x2 Hx1 Hx2. apply list_elem_of_singleton in Hx2 as ->.
  rewrite Forall_forall in Hx. apply Hx. by apply elem_of_reverse.
Qed.

(** [sort.Stable] returns a permutation of its input, in ascending order. *)
Lemma Stable_Permutation l : sort.Stable less l ≡ₚ l.
Proof.
  unfold sort.Stable. rewrite reverse_Permutation.
  by rewrite fold_insert_Permutation, app_nil_r.
Qed.

Lemma Stable_StronglySorted l : StronglySorted (sort.ascending key) (sort.Stable less l).
Proof.
  unfold sort.Stable. apply StronglySorted_reverse, fold_insert_StronglySorted. constructor.
Qed.

(** Sorting two lists that differ only in order gives the same keys in the
    same order. *)
Lemma Stable_keys l1 l2 :
  l1 ≡ₚ l2 -> map key (sort.Stable less l1) = map key (sort.Stable less l2).
Proof.
  intros Hp.
  apply (StronglySorted_unique (fun a b => String.leb a b = true)).
  - eapply (StronglySorted_fmap key (sort.ascending key)); [|apply Stable_StronglySorted].
    done.
  - eapply (StronglySorted_fmap key (sort.ascending key)); [|apply Stable_StronglySorted].
    done.
  - apply fmap_Permutation. by rewrite !Stable_Permutation.
Qed.

Lemma NoDup_keys_inj l x y :
  NoDup (map key l) -> x ∈ l -> y ∈ l -> key x = key y -> x = y.
Proof.
  induction l as [|z l IH]; simpl; intros Hnd Hx Hy Hk; [by inv Hx|].
  apply NoDup_cons in Hnd as [Hz Hnd].
  inv Hx; inv Hy; auto.
  - exfalso. apply Hz. rewrite Hk. by apply list_elem_of_fmap_2.
  - exfalso. apply Hz. rewrite <- Hk. by apply list_elem_of_fmap_2.
Qed.

(** When the keys are pairwise distinct the sorted lists themselves agree. *)
Lemma Stable_unique l1 l2 :
  NoDup (map key l1) -> l1 ≡ₚ l2 -> sort.Stable less l1 = sort.Stable less l2.
Proof.
  intros Hnd Hp.
  apply (StronglySorted_unique_strong (sort.ascending key));
    [|apply Stable_StronglySorted..|by rewrite !Stable_Permutation].
  intros x1 x2 Hx1 Hx2 H12 H21.
  apply (NoDup_keys_inj l1); [done| | |by apply (anti_symm (fun a b => String.leb a b = true))].
  - by rewrite <- (Stable_Permutation l1).
  - by rewrite Hp, <- (Stable_Permutation l2).
Qed.

Lemma strings_lt_irrefl k : strings.lt k k = false.
Proof.
  unfold strings.lt. rewrite String_ltb_leb.
  by destruct (String.leb_total k k) as [->| ->].
Qed.

Lemma filter_reverse_eq (f : A -> bool) l :
  List.filter f (reverse l) = reverse (List.filter f l).
Proof.
  induction l as [|x l IH]; [done|].
  rewrite reverse_cons, List.filter_app, IH. simpl.
  destruct (f x); [by rewrite reverse_cons|by rewrite app_nil_r].
Qed.

(** The insertion moves the new element only past elements of another key. *)
Lemma insert_filter k x rp :
  List.filter (fun a => String.eqb (key a) k) (sort.insert less x rp) =
  List.filter (fun a => String.eqb (key a) k) (x :: rp).
Proof.
  induction rp as [|y rp IH]; [done|].
  cbn [sort.insert]. destruct (strings.lt (key x) (key y)) eqn:Hlt; [|done].
  cbn [List.filter] in *. rewrite IH.
  destruct (String.eqb (key x) k) eqn:Hx, (String.eqb (key y) k) eqn:Hy; try done.
  apply String.eqb_eq in Hx, Hy. rewrite Hx, Hy, strings_lt_irrefl in Hlt. done.
Qed.

Lemma fold_insert_filter k l : forall rp,
  List.filter (fun a => String.eqb (key a) k)
    (fold_left (fun rp x => sort.insert less x rp) l rp) =
  List.filter (fun a => String.eqb (key a) k) (reverse l ++ rp).
Proof.
  induction l as [|x l IH]; intros rp; [done|].
  cbn [fold_left]. rewrite IH, reverse_cons, <- app_assoc.
  rewrite !List.filter_app. f_equal. rewrite <- List.filter_app. apply insert_filter.
Qed.

(** [sort.Stable] is stable: the elements of one key come out in the order
    they came in. *)
Lemma Stable_stable k l :
  List.filter (fun a => String.eqb (key a) k) (sort.Stable less l) =
  List.filter (fun a => String.eqb (key a) k) l.
Proof.
  unfold sort.Stable.
  by rewrite filter_reverse_eq, fold_insert_filter, app_nil_r, filter_reverse_eq,
    reverse_involutive.
Qed.

End Stable_by_key.

(** ** Normalize: the order of set-valued attributes *)

Section Normalize_order.
Import fi awstasks.

Lemma Strings_Permutation (l1 l2 : list string) :
  l1 ≡ₚ l2 -> sort.Strings l1 = sort.Strings l2.
Proof.
  intros Hp. pose proof (Stable_keys id l1 l2 Hp) as H.
  by rewrite !list_fmap_id in H.
Qed.

(** C5, as the claim states it, fails: two subnets that have no ID yet sort
    under the same key, the stable sort keeps them in the order they came
    in, and the two orders of the list stay different after Normalize. *)
Lemma ClassicLoadBalancer_Normalize_counterexample :
  [fake.subnetB; fake.subnetA] ≡ₚ [fake.subnetA; fake.subnetB] /\
  ClassicLoadBalancer.Subnets
    (ClassicLoadBalancer.Normalize
       (ClassicLoadBalancer.set_Subnets ClassicLoadBalancer.empty
          (Some [fake.subnetB; fake.subnetA])))
  <> ClassicLoadBalancer.Subnets
       (ClassicLoadBalancer.Normalize
          (ClassicLoadBalancer.set_Subnets ClassicLoadBalancer.empty
             (Some [fake.subnetA; fake.subnetB]))).
Proof. split; [apply Permutation_swap|]. vm_compute. discriminate. Qed.

(** C5 (amended).  ClassicLoadBalancer.Normalize replaces Subnets and
    SecurityGroups, and nothing else, by the same elements sorted by ID: each
    normalized list is a permutation of the list it came from, is in
    ascending order of ID, and keeps the elements of one ID in the order they
    came in (the sort is stable); nil lists stay nil.  So for a copy whose
    Subnets and SecurityGroups are permuted, Normalize yields lists with the
    same IDs in the same order, and the same task when the IDs of each list
    are pairwise distinct.  AutoscalingGroup.normalize replaces Metrics by
    the same strings in ascending order and returns no error, so two groups
    whose Metrics differ only in order are equal after it. *)
Theorem Normalize_permutation
    (e : ClassicLoadBalancer.t) (subnets p : list Subnet) (sgs q : list SecurityGroup)
    (g : AutoscalingGroup.t) (metrics m : list string) :
  p ≡ₚ subnets -> q ≡ₚ sgs -> m ≡ₚ metrics ->
  let e1 := ClassicLoadBalancer.set_SecurityGroups
              (ClassicLoadBalancer.set_Subnets e (Some subnets)) (Some sgs) in
  let e2 := ClassicLoadBalancer.set_SecurityGroups
              (ClassicLoadBalancer.set_Subnets e (Some p)) (Some q) in
  (exists sortedSubnets sortedGroups,
     ClassicLoadBalancer.Normalize e1 =
       ClassicLoadBalancer.set_SecurityGroups
         (ClassicLoadBalancer.set_Subnets e (Some sortedSubnets)) (Some sortedGroups) /\
     sortedSubnets ≡ₚ subnets /\
     StronglySorted (sort.ascending (fun s => StringValue (Subnet_ID s))) sortedSubnets /\
     (forall k,
        List.filter (fun s => String.eqb (StringValue (Subnet_ID s)) k) sortedSubnets =
        List.filter (fun s => String.eqb (StringValue (Subnet_ID s)) k) subnets) /\
     sortedGroups ≡ₚ sgs /\
     StronglySorted (sort.ascending (fun s => StringValue (SecurityGroup_ID s))) sortedGroups /\
     (forall k,
        List.filter (fun s => String.eqb (StringValue (SecurityGroup_ID s)) k) sortedGroups =
        List.filter (fun s => String.eqb (StringValue (SecurityGroup_ID s)) k) sgs)) /\
  ClassicLoadBalancer.Normalize
    (ClassicLoadBalancer.set_SecurityGroups (ClassicLoadBalancer.set_Subnets e None) None)
  = ClassicLoadBalancer.set_SecurityGroups (ClassicLoadBalancer.set_Subnets e None) None /\
  map (fun s => StringValue (Subnet_ID s))
      (ClassicLoadBalancer.elems (ClassicLoadBalancer.Subnets (ClassicLoadBalancer.Normalize e2)))
  = map (fun s => StringValue (Subnet_ID s))
      (ClassicLoadBalancer.elems (ClassicLoadBalancer.Subnets (ClassicLoadBalancer.Normalize e1)))
  /\
  map (fun s => StringValue (SecurityGroup_ID s))
      (ClassicLoadBalancer.elems
         (ClassicLoadBalancer.SecurityGroups (ClassicLoadBalancer.Normalize e2)))
  = map (fun s => StringValue (SecurityGroup_ID s))
      (ClassicLoadBalancer.elems
         (ClassicLoadBalancer.SecurityGroups (ClassicLoadBalancer.Normalize e1)))
  /\
  (NoDup (map (fun s => StringValue (Subnet_ID s)) subnets) ->
   NoDup (map (fun s => StringValue (SecurityGroup_ID s)) sgs) ->
   ClassicLoadBalancer.Normalize e2 = ClassicLoadBalancer.Normalize e1) /\
  (exists sortedMetrics,
     AutoscalingGroup.normalize (AutoscalingGroup.set_Metrics g (Some metrics)) =
       (AutoscalingGroup.set_Metrics g (Some sortedMetrics), None) /\
     sortedMetrics ≡ₚ metrics /\
     StronglySorted (sort.ascending id) sortedMetrics) /\
  AutoscalingGroup.normalize (AutoscalingGroup.set_Metrics g None) =
    (AutoscalingGroup.set_Metrics g None, None) /\
  (AutoscalingGroup.normalize (AutoscalingGroup.set_Metrics g (Some m))).1
  = (AutoscalingGroup.normalize (AutoscalingGroup.set_Metrics g (Some metrics))).1.
Proof.
  intros Hp Hq Hm. simpl. unfold OrderSubnetsById, OrderSecurityGroupsById.
  split; [|split; [|split; [|split; [|split; [|split; [|split]]]]]].
  - eexists _, _. split; [reflexivity|].
    split; [apply (Stable_Permutation (fun s => StringValue (Subnet_ID s)))|].
    split; [apply (Stable_StronglySorted (fun s => StringValue (Subnet_ID s)))|].
    split; [intros k; apply (Stable_stable (fun s => StringValue (Subnet_ID s)))|].
    split; [apply (Stable_Permutation (fun s => StringValue (SecurityGroup_ID s)))|].
    split; [apply (Stable_StronglySorted (fun s => StringValue (SecurityGroup_ID s)))|].
    intros k. apply (Stable_stable (fun s => StringValue (SecurityGroup_ID s))).
  - reflexivity.
  - by apply (Stable_keys (fun s => StringValue (Subnet_ID s))).
  - by apply (Stable_keys (fun s => StringValue (SecurityGroup_ID s))).
  - intros Hs Hg. unfold ClassicLoadBalancer.Normalize. simpl.
    unfold OrderSubnetsById, OrderSecurityGroupsById.
    rewrite (Stable_unique (fun s => StringValue (Subnet_ID s)) subnets p Hs); [|done].
    by rewrite (Stable_unique (fun s => StringValue (SecurityGroup_ID s)) sgs q Hg).
  - eexists. split; [reflexivity|].
    split; [apply (Stable_Permutation id)|apply (Stable_StronglySorted id)].
  - reflexivity.
  - unfold AutoscalingGroup.set_Metrics. simpl. by rewrite (Strings_Permutation m metrics Hm).
Qed.

End Normalize_order.

(** The amended C5 at two subnets with the IDs "subnet-2" and "subnet-1",
    given in both orders: both normalize to the task that lists "subnet-1"
    first. *)
Lemma Normalize_permutation_witness :
  let s1 := {| awstasks.Subnet_Name := Some "a"; awstasks.Subnet_ID := Some "subnet-1" |} in
  let s2 := {| awstasks.Subnet_Name := Some "b"; awstasks.Subnet_ID := Some "subnet-2" |} in
  ClassicLoadBalancer.Normalize
    (ClassicLoadBalancer.set_SecurityGroups
       (ClassicLoadBalancer.set_Subnets ClassicLoadBalancer.empty (Some [s1; s2])) (Some []))
  = ClassicLoadBalancer.Normalize
      (ClassicLoadBalancer.set_SecurityGroups
         (ClassicLoadBalancer.set_Subnets ClassicLoadBalancer.empty (Some [s2; s1])) (Some []))
  /\
  ClassicLoadBalancer.Subnets
    (ClassicLoadBalancer.Normalize
       (ClassicLoadBalancer.set_SecurityGroups
          (ClassicLoadBalancer.set_Subnets ClassicLoadBalancer.empty (Some [s2; s1])) (Some [])))
  = Some [s1; s2].
Proof.
  intros s1 s2. split; [|reflexivity].
  apply (proj1 (proj2 (proj2 (proj2 (proj2
           (Normalize_permutation ClassicLoadBalancer.empty [s2; s1] [s1; s2] [] []
              AutoscalingGroup.empty ["b"; "a"] ["a"; "b"]
              (Permutation_swap _ _ _) (Permutation_refl _) (Permutation_swap _ _ _))))))).
  - apply NoDup_cons. split; [|apply NoDup_singleton].
    intros Hin%list_elem_of_singleton. discriminate Hin.
  - apply NoDup_nil_2.
Defined.

(** ** Idempotence of the diff *)

Section Diff_idempotence.
Import diff engine.

Lemma value_eqb_refl : forall v, value_eqb v v = true.
Proof.
  fix IH 1. intros [|s|n|b|n|items|members]; simpl.
  - done.
  - apply String.eqb_refl.
  - apply Z.eqb_refl.
  - by destruct b.
  - apply String.eqb_refl.
  - revert items. fix IHitems 1. intros [|x r]; [done|].
    rewrite IH. simpl. apply IHitems.
  - revert members. fix IHmembers 1. intros [|[k x] r]; [done|].
    rewrite String.eqb_refl, IH. simpl. apply IHmembers.
Qed.

Lemma BuildChanges_self_lookup t field v :
  BuildChanges t t !! field = Some v -> v = None.
Proof.
  unfold BuildChanges, Changes. rewrite map_lookup_imap.
  destruct (attributes t !! field) as [ve|] eqn:Hf; simpl; [|done].
  rewrite value_eqb_refl. by intros [= <-].
Qed.

Lemma BuildChanges_self_unchanged t : unchanged (BuildChanges t t) = true.
Proof.
  unfold unchanged. apply forallb_forall. intros [field v] Hin.
  apply list_elem_of_In, elem_of_map_to_list in Hin.
  by rewrite (BuildChanges_self_lookup _ _ _ Hin).
Qed.

(** The two equal tasks of the test of the dry-run target give an
    all-unchanged Changes. *)
Example BuildChanges_testTask :
  unchanged (BuildChanges (testTask (Some "TestName") fi.LifecycleSync [("key", "value")])
                          (testTask (Some "TestName") fi.LifecycleSync [("key", "value")]))
  = true.
Proof. apply BuildChanges_self_unchanged. Qed.

End Diff_idempotence.

(** ** Render with an all-unchanged Changes

    The Changes of a task kind is a value of the task's own type; it is
    all-unchanged when it is the zero value, [empty]. *)

(** C1, as the claim states it, fails for the render functions under src/:
    on the fake AWS, RenderAWS of the group "nodes.c", observed equal to the
    desired task and with an all-unchanged Changes, sends a call. *)
Lemma Render_unchanged_counterexample :
  ~ (forall S (cloud : awsup.AWSCloud S) (t : AutoscalingGroup.t) (w : World S awsup.Call),
       AutoscalingGroup.RenderAWS t (Some t) t AutoscalingGroup.empty w = (Return tt, w)).
Proof.
  intros H.
  specialize (H _ fake.awsCloud fake.autoscalingGroup
                (fake.emptyWorld (fake.Build_AWS [] [] None))).
  apply (f_equal (fun r => length (calls r.2))) in H. vm_compute in H. discriminate.
Qed.

Section Render_unchanged.
Import fi.

(** C1 (amended).  Diffing a Task against an identical copy of itself yields
    an all-unchanged Changes.  Render called with the task as observed and
    desired value and an all-unchanged Changes is a no-op for the OpenStack
    ServerGroup, and for a shared ClassicLoadBalancer on all three targets.
    It is not for the other render functions: AutoscalingGroup.RenderAWS
    sends exactly one call, UpdateAutoScalingGroup with the name of the
    group and no other field, and returns the outcome of that call; the
    Hetzner LoadBalancer.RenderHetzner reads the load balancer by ID and,
    when that succeeds and the task has no Target, adds a label selector
    target; ClassicLoadBalancer.RenderCloudformation, for a load balancer
    that is not shared and has a Name and a LoadBalancerName, adds its
    resource to the document. *)
Theorem diff_self_unchanged_render_effects :
  (forall t : diff.Task, diff.unchanged (diff.BuildChanges t t) = true) /\
  (forall S (target : openstack.OpenstackAPITarget S) (external : ServerGroupRender.External)
          (t : ServerGroup.t) (w : World S openstack.Call),
     ServerGroupRender.RenderOpenstack (Some t) t ServerGroup.empty w = (Return t, w)) /\
  (forall S (cloud : awsup.AWSCloud S) (external : ClassicLoadBalancer.External S)
          (t : ClassicLoadBalancer.t) (w : World S awsup.Call)
          (tf : target.Document ClassicLoadBalancer.terraformLoadBalancer)
          (cf : target.Document ClassicLoadBalancer.cloudformationClassicLoadBalancer),
     BoolValue (ClassicLoadBalancer.Shared t) = true ->
     ClassicLoadBalancer.RenderAWS (Some t) t ClassicLoadBalancer.empty w = (Return t, w) /\
     ClassicLoadBalancer.RenderTerraform (Some t) t ClassicLoadBalancer.empty tf
       = (Return tt, tf) /\
     ClassicLoadBalancer.RenderCloudformation (Some t) t ClassicLoadBalancer.empty cf
       = (Return tt, cf)) /\
  (forall S (cloud : awsup.AWSCloud S) (v t : AutoscalingGroup.t) (w : World S awsup.Call),
     let request :=
       {| awsup.up_AutoScalingGroupName := AutoscalingGroup.Name t;
          awsup.up_LaunchTemplate := None;
          awsup.up_MixedInstancesPolicy := None;
          awsup.up_MinSize := None;
          awsup.up_MaxSize := None;
          awsup.up_VPCZoneIdentifier := None;
          awsup.up_NewInstancesProtectedFromScaleIn := None |} in
     AutoscalingGroup.RenderAWS v (Some t) t AutoscalingGroup.empty w =
       (match (awsup.perform (awsup.UpdateAutoScalingGroup request) (backend w)).1 with
        | inl err =>
            Raise (Errorf "error updating AutoscalingGroup: %v" [ArgError (CloudError err)])
        | inr _ => Return tt
        end,
        mkWorld (awsup.perform (awsup.UpdateAutoScalingGroup request) (backend w)).2
          (calls w ++ [awsup.UpdateAutoScalingGroup request]))) /\
  (forall S (client : LoadBalancerRender.LoadBalancerClient S) (t : LoadBalancer.t)
          (w : World S LoadBalancerRender.Call),
     let id := strconv.Itoa (IntValue (LoadBalancer.ID t)) in
     calls (LoadBalancerRender.RenderHetzner (Some t) t LoadBalancer.empty w).2 =
     calls w ++
       LoadBalancerRender.Get id ::
       match (LoadBalancerRender.client_Get id (backend w)).1 with
       | inl _ => []
       | inr loadbalancer =>
           if String.eqb (LoadBalancer.Target t) EmptyString then
             [LoadBalancerRender.AddLabelSelectorTarget loadbalancer
                {| LoadBalancerRender.to_Selector := LoadBalancer.Target t;
                   LoadBalancerRender.to_UsePrivateIP := Some true |}]
           else []
       end) /\
  (forall S (external : ClassicLoadBalancer.External S) (t : ClassicLoadBalancer.t) name
          (cf : target.Document ClassicLoadBalancer.cloudformationClassicLoadBalancer),
     BoolValue (ClassicLoadBalancer.Shared t) = false ->
     is_Some (ClassicLoadBalancer.LoadBalancerName t) ->
     ClassicLoadBalancer.Name t = Some name ->
     exists item,
       ClassicLoadBalancer.RenderCloudformation (Some t) t ClassicLoadBalancer.empty cf =
         (Return tt,
          {| target.resources :=
               target.resources cf
               ++ [("AWS::ElasticLoadBalancing::LoadBalancer", name, item)] |})).
Proof.
  split; [apply BuildChanges_self_unchanged|].
  split; [done|].
  split.
  { intros S cloud external t w tf cf Hshared.
    unfold ClassicLoadBalancer.RenderAWS, ClassicLoadBalancer.RenderTerraform,
      ClassicLoadBalancer.RenderCloudformation.
    by rewrite Hshared. }
  split.
  { intros S cloud v t w request. simpl.
    unfold AutoscalingGroup.RenderAWS_update, AutoscalingGroup.updateRequest. simpl.
    rewrite andb_negb_r. simpl.
    unfold AutoscalingGroup.perform_, mbind, M_bind, bind, lift. simpl. rewrite call_run.
    fold request.
    by destruct (awsup.perform (awsup.UpdateAutoScalingGroup request) (backend w))
      as [[err|[]] b']. }
  split.
  { intros S client t w id.
    unfold LoadBalancerRender.RenderHetzner. simpl. rewrite map_size_empty. simpl.
    unfold mbind, M_bind, bind. rewrite call_run. fold id.
    destruct (LoadBalancerRender.client_Get id (backend w)) as [[err|loadbalancer] b'];
      simpl; [done|].
    destruct (String.eqb (LoadBalancer.Target t) EmptyString); simpl; [|done].
    rewrite call_run. simpl.
    destruct (LoadBalancerRender.client_AddLabelSelectorTarget _ _ _) as [[err|[]] b''];
      simpl; by rewrite <- app_assoc. }
  intros S external t name cf Hshared [n Hn] Hname.
  unfold ClassicLoadBalancer.RenderCloudformation.
  rewrite Hshared, Hn, Hname. by eexists.
Qed.

End Render_unchanged.

(** The amended C1 on the fake AWS: the one call for the group "nodes.c",
    and the resource of the load balancer "api" in an empty CloudFormation
    document. *)
Lemma diff_self_unchanged_render_effects_witness :
  calls (@AutoscalingGroup.RenderAWS _ fake.awsCloud fake.autoscalingGroup
           (Some fake.autoscalingGroup) fake.autoscalingGroup AutoscalingGroup.empty
           (fake.emptyWorld (fake.Build_AWS [] [] None))).2
  = [awsup.UpdateAutoScalingGroup
       {| awsup.up_AutoScalingGroupName := Some "nodes.c";
          awsup.up_LaunchTemplate := None;
          awsup.up_MixedInstancesPolicy := None;
          awsup.up_MinSize := None;
          awsup.up_MaxSize := None;
          awsup.up_VPCZoneIdentifier := None;
          awsup.up_NewInstancesProtectedFromScaleIn := None |}] /\
  (exists item,
     @ClassicLoadBalancer.RenderCloudformation _ fake.external
       (Some (fixtures.classicLoadBalancer [])) (fixtures.classicLoadBalancer [])
       ClassicLoadBalancer.empty {| target.resources := [] |}
     = (Return tt,
        {| target.resources := [("AWS::ElasticLoadBalancing::LoadBalancer", "api", item)] |})).
Proof.
  split.
  - exact (f_equal (fun r => calls r.2)
             (proj1 (proj2 (proj2 (proj2 diff_self_unchanged_render_effects)))
                _ fake.awsCloud fake.autoscalingGroup fake.autoscalingGroup
                (fake.emptyWorld (fake.Build_AWS [] [] None)))).
  - exact (proj2 (proj2 (proj2 (proj2 (proj2 diff_self_unchanged_render_effects))))
             _ fake.external (fixtures.classicLoadBalancer []) "api" {| target.resources := [] |}
             eq_refl (mk_is_Some _ _ eq_refl) eq_refl).
Defined.


(** * Further properties of the task code *)

(** ** AutoscalingGroup: what the update path detaches, deletes and suspends *)

Section AutoscalingGroup_differences.
Import fi awsup awstasks AutoscalingGroup.

Lemma elem_of_List_filter {A} (f : A -> bool) (l : list A) x :
  x ∈ List.filter f l <-> x ∈ l /\ f x = true.
Proof. rewrite !list_elem_of_In. apply filter_In. Qed.

Lemma existsb_eqb_true (p : string) (l : list string) :
  existsb (String.eqb p) l = true <-> p ∈ l.
Proof.
  rewrite existsb_exists. split.
  - intros (q & Hin & Heq). apply String.eqb_eq in Heq as ->. by apply list_elem_of_In.
  - intros Hin. exists p. split; [by apply list_elem_of_In|apply String.eqb_refl].
Qed.

Lemma negb_existsb_eqb (p : string) (l : list string) :
  negb (existsb (String.eqb p) l) = true <-> p ∉ l.
Proof.
  rewrite negb_true_iff, <- not_true_iff_false. by rewrite existsb_eqb_true.
Qed.

Lemma processCompare_Some (a b : list string) :
  processCompare (Some a) (Some b) =
  Return (List.filter (fun ap => negb (existsb (String.eqb ap) b)) a).
Proof. by destruct a. Qed.

(** X1.  processCompare(a, b) with both pointers set returns, in the order
    of [a], exactly the processes of [a] that are not in [b].  So the
    processes the update path suspends ([processCompare(e, a)]) and those it
    resumes ([processCompare(a, e)]) never overlap, and comparing a list with
    itself gives nothing to do.  A nil [a] panics whatever [b] is; a nil [b]
    panics only when [a] has an element: with an empty [a] the result is the
    empty list. *)
Theorem processCompare_difference (a b : list string) :
  exists l,
    processCompare (Some a) (Some b) = Return l /\
    (forall p, p ∈ l <-> p ∈ a /\ p ∉ b) /\
    sublist l a /\
    (forall r, processCompare (Some b) (Some a) = Return r ->
               forall p, p ∈ l -> p ∉ r) /\
    processCompare (Some a) (Some a) = Return [] /\
    (forall x : option (list string), exists msg, processCompare None x = Panic msg) /\
    processCompare (Some []) None = Return [] /\
    (forall p rest, exists msg, processCompare (Some (p :: rest)) None = Panic msg).
Proof.
  eexists. split; [apply processCompare_Some|].
  split; [|split; [|split; [|split; [|split; [|split]]]]].
  - intros p. rewrite elem_of_List_filter. by rewrite negb_existsb_eqb.
  - induction a as [|x a IH]; simpl; [done|].
    destruct (negb _); by constructor.
  - intros r. rewrite processCompare_Some. intros [= <-] p.
    rewrite !elem_of_List_filter, !negb_existsb_eqb. tauto.
  - rewrite processCompare_Some. f_equal. induction a as [|x a IH]; [done|].
    assert (forall l, (forall p, p ∈ l -> p ∈ x :: a) ->
                      List.filter (fun ap => negb (existsb (String.eqb ap) (x :: a))) l = [])
      as Hall.
    { intros l. induction l as [|y l IHl]; intros Hsub; [done|].
      cbn [List.filter].
      assert (negb (existsb (String.eqb y) (x :: a)) = false) as ->.
      { apply not_true_iff_false. rewrite negb_existsb_eqb. intros Hn. apply Hn, Hsub. by left. }
      apply IHl. intros p Hp. apply Hsub. by right. }
    by apply Hall.
  - intros x. by eexists.
  - done.
  - intros p rest. by eexists.
Qed.

(** X2.  getASGTagsToDelete(currentTags) returns one tag per current key that the
    desired task does not carry, with the current value and the name of the
    group as resource, and nothing else; when every current key is still
    desired it returns the empty list. *)
Theorem getASGTagsToDelete_keys (e : t) (currentTags : option (gmap string string)) :
  (forall tag, tag ∈ getASGTagsToDelete e currentTags <->
     exists k v, default ∅ currentTags !! k = Some v /\
                 default ∅ (Tags e) !! k = None /\
                 tag = {| tag_Key := Some k; tag_Value := Some v;
                          tag_ResourceId := Name e;
                          tag_ResourceType := Some "auto-scaling-group";
                          tag_PropagateAtLaunch := None |}) /\
  (dom (default ∅ currentTags) ⊆ dom (default ∅ (Tags e)) ->
   getASGTagsToDelete e currentTags = []).
Proof.
  assert (forall tag, tag ∈ getASGTagsToDelete e currentTags <->
     exists k v, default ∅ currentTags !! k = Some v /\
                 default ∅ (Tags e) !! k = None /\
                 tag = {| tag_Key := Some k; tag_Value := Some v;
                          tag_ResourceId := Name e;
                          tag_ResourceType := Some "auto-scaling-group";
                          tag_PropagateAtLaunch := None |}) as Hspec.
  { intros tag. unfold getASGTagsToDelete. rewrite list_elem_of_omap. split.
    - intros ([k v] & Hin & Hsome).
      assert (default ∅ currentTags !! k = Some v) as Hk.
      { unfold entries in Hin. destruct currentTags as [m|]; simpl in *.
        - by apply elem_of_map_to_list in Hin.
        - by apply elem_of_nil in Hin. }
      exists k, v. destruct (default ∅ (Tags e) !! k) eqn:Hd; [done|].
      by injection Hsome as <-.
    - intros (k & v & Hk & Hd & ->). exists (k, v). split.
      + unfold entries. destruct currentTags as [m|]; simpl in *.
        * by apply elem_of_map_to_list.
        * by rewrite lookup_empty in Hk.
      + by rewrite Hd. }
  split; [exact Hspec|].
  intros Hsub. destruct (getASGTagsToDelete e currentTags) as [|tag l] eqn:Hl; [done|].
  exfalso.
  assert (tag ∈ tag :: l) as Hin by (by left).
  apply Hspec in Hin as (k & v & Hk & Hd & _).
  assert (k ∈ dom (default ∅ (Tags e))) as Hdom.
  { apply Hsub. apply elem_of_dom. by eexists. }
  apply elem_of_dom in Hdom as [x Hx]. congruence.
Qed.

Lemma derefAll_Return {A} (key : A -> option string) (l : list A) ks :
  derefAll key l = Return ks <-> map key l = map Some ks.
Proof.
  revert ks. induction l as [|x l IH]; intros ks; simpl.
  - split; [by intros [= <-]|]. by destruct ks.
  - destruct (key x) as [k|] eqn:Hk.
    + destruct (derefAll key l) as [ks'|err|msg] eqn:Hl.
      * split.
        -- intros [= <-]. simpl. f_equal. by apply IH.
        -- destruct ks as [|k' ks]; [done|]. simpl. intros [= -> Hks].
           f_equal. f_equal. apply IH in Hks. congruence.
      * split; [done|]. destruct ks as [|k' ks]; [done|]. simpl. intros [= _ Hks].
        by apply IH in Hks.
      * split; [done|]. destruct ks as [|k' ks]; [done|]. simpl. intros [= _ Hks].
        by apply IH in Hks.
    + split; [done|]. by destruct ks.
Qed.

Lemma derefAll_not_Raise {A} (key : A -> option string) (l : list A) err :
  derefAll key l <> Raise err.
Proof.
  induction l as [|x l IH]; simpl; [done|].
  destruct (key x); [|done]. by destruct (derefAll key l).
Qed.

Lemma derefAll_Panic {A} (key : A -> option string) (l : list A) :
  (exists msg, derefAll key l = Panic msg) <-> exists x, x ∈ l /\ key x = None.
Proof.
  induction l as [|x l IH]; simpl.
  - split; [by intros [? ?]|]. intros (x & Hx & _). by apply elem_of_nil in Hx.
  - destruct (key x) as [k|] eqn:Hk.
    + destruct (derefAll key l) as [ks'|err|msg] eqn:Hl.
      * split; [by intros [? ?]|]. intros (y & Hy & Hn).
        apply elem_of_cons in Hy as [->|Hy]; [congruence|].
        destruct (proj2 IH) as [? ?]; [by exists y|done].
      * by apply derefAll_not_Raise in Hl.
      * split; [|by eexists]. intros _. destruct (proj1 IH) as (y & Hy & Hn); [by eexists|].
        exists y. split; [by right|done].
    + split; [|by eexists]. intros _. exists x. split; [by left|done].
Qed.

(** X3.  getLBsToDetach(currentLBs) dereferences the Name of every desired and of
    every current load balancer: it panics exactly when one of them has no
    Name; otherwise it returns the names of the current load balancers that
    no desired load balancer has, and none of a desired one. *)
Theorem getLBsToDetach_names (e : t) (currentLBs : list ClassicLoadBalancer.t) :
  ((exists msg, getLBsToDetach e currentLBs = Panic msg) <->
   exists lb, (lb ∈ elems (LoadBalancers e) \/ lb ∈ currentLBs) /\
              ClassicLoadBalancer.Name lb = None) /\
  (forall names, getLBsToDetach e currentLBs = Return names ->
     forall n, Some n ∈ names <->
       (exists lb, lb ∈ currentLBs /\ ClassicLoadBalancer.Name lb = Some n) /\
       ~ (exists lb, lb ∈ elems (LoadBalancers e) /\ ClassicLoadBalancer.Name lb = Some n)).
Proof.
  unfold getLBsToDetach. split.
  - destruct (derefAll ClassicLoadBalancer.Name (elems (LoadBalancers e)))
      as [desired|err|msg] eqn:Hd.
    + destruct (derefAll ClassicLoadBalancer.Name currentLBs) as [current|err|msg] eqn:Hc.
      * split; [by intros [? ?]|]. intros (lb & [Hin|Hin] & Hn).
        -- destruct (proj2 (derefAll_Panic ClassicLoadBalancer.Name (elems (LoadBalancers e))))
             as [? ?]; [by exists lb|congruence].
        -- destruct (proj2 (derefAll_Panic ClassicLoadBalancer.Name currentLBs))
             as [? ?]; [by exists lb|congruence].
      * by apply derefAll_not_Raise in Hc.
      * split; [|by eexists]. intros _.
        destruct (proj1 (derefAll_Panic ClassicLoadBalancer.Name currentLBs))
          as (lb & Hin & Hn); [by eexists|]. exists lb. by split; [right|].
    + by apply derefAll_not_Raise in Hd.
    + split; [|by eexists]. intros _.
      destruct (proj1 (derefAll_Panic ClassicLoadBalancer.Name (elems (LoadBalancers e))))
        as (lb & Hin & Hn); [by eexists|]. exists lb. by split; [left|].
  - intros names Hret n.
    destruct (derefAll ClassicLoadBalancer.Name (elems (LoadBalancers e)))
      as [desired|err|msg] eqn:Hd; [|done..].
    destruct (derefAll ClassicLoadBalancer.Name currentLBs) as [current|err|msg] eqn:Hc;
      [|done..].
    injection Hret as <-.
    apply derefAll_Return in Hd, Hc.
    assert (forall (l : list ClassicLoadBalancer.t) ks, map ClassicLoadBalancer.Name l = map Some ks ->
              forall n, n ∈ ks <-> exists lb, lb ∈ l /\ ClassicLoadBalancer.Name lb = Some n)
      as Hnames.
    { intros l ks Hmap m. split.
      - intros Hin. assert (Some m ∈ map ClassicLoadBalancer.Name l) as Hm.
        { rewrite Hmap. by apply list_elem_of_fmap_2. }
        apply list_elem_of_fmap in Hm as (lb & Heq & Hlb). by exists lb.
      - intros (lb & Hlb & Heq).
        assert (Some m ∈ map Some ks) as Hm.
        { rewrite <- Hmap, <- Heq. by apply list_elem_of_fmap_2. }
        apply list_elem_of_fmap in Hm as (m' & [= ->] & Hin). done. }
    rewrite list_elem_of_fmap. split.
    + intros (m & [= ->] & Hin). apply elem_of_List_filter in Hin as [Hin Hnot].
      apply negb_existsb_eqb in Hnot. split.
      * by apply (Hnames _ _ Hc).
      * intros Hex. apply Hnot. by apply (Hnames _ _ Hd).
    + intros [Hcur Hnot]. exists n. split; [done|].
      apply elem_of_List_filter. split.
      * by apply (Hnames _ _ Hc).
      * apply negb_existsb_eqb. intros Hin. apply Hnot. by apply (Hnames _ _ Hd).
Qed.

End AutoscalingGroup_differences.

(** ** Find when a resource matches *)

Section Find_found.
Import fi.

Lemma ServerGroup_Find_loop_rest s serverGroups actual :
  Forall (fun g => openstack.sg_Name g <> StringValue (ServerGroup.Name s)) serverGroups ->
  ServerGroup.Find_loop s serverGroups actual = Return actual.
Proof.
  induction 1 as [|g rest Hg _ IH]; simpl; [done|].
  by rewrite (proj2 (String.eqb_neq _ _) Hg).
Qed.

Lemma ServerGroup_Find_loop_one s pre g post :
  openstack.sg_Name g = StringValue (ServerGroup.Name s) ->
  Forall (fun x => openstack.sg_Name x <> StringValue (ServerGroup.Name s)) (pre ++ post) ->
  ServerGroup.Find_loop s (pre ++ g :: post) None =
  Return (Some
    {| ServerGroup.Name := String (openstack.sg_Name g);
       ServerGroup.ClusterName := ServerGroup.ClusterName s;
       ServerGroup.IGName := ServerGroup.IGName s;
       ServerGroup.ID := String (openstack.sg_ID g);
       ServerGroup.Lifecycle := ServerGroup.Lifecycle s;
       ServerGroup.Policies := openstack.sg_Policies g;
       ServerGroup.MaxSize :=
         Int32 (int32 (Z.of_nat (length (openstack.sg_Members g))));
       ServerGroup.members := openstack.sg_Members g;
       ServerGroup.gotMemberList := false |}).
Proof.
  intros Hg Hrest. apply Forall_app in Hrest as [Hpre Hpost].
  induction Hpre as [|x pre Hx _ IH]; simpl.
  - rewrite (proj2 (String.eqb_eq _ _) Hg). by apply ServerGroup_Find_loop_rest.
  - by rewrite (proj2 (String.eqb_neq _ _) Hx).
Qed.

(** X4.  ServerGroup.Find, when exactly one listed server group has the name of
    the task: the observed task carries the ID, name, policies and members
    of that group and the number of its members as MaxSize; the desired task
    gets the observed ID, its cached member list is replaced by the members
    of the cloud whether or not the list was handed out before, and its
    MaxSize becomes the smaller of the desired and the observed one. *)
Theorem ServerGroup_Find_found {S} `{!openstack.OpenstackCloud S}
    (s : ServerGroup.t) name (w : World S openstack.Call) page b' pre g post :
  ServerGroup.Name s = Some name ->
  openstack.listServerGroups (backend w) = (inr page, b') ->
  openstack.ExtractServerGroups page = inr (pre ++ g :: post) ->
  openstack.sg_Name g = name ->
  Forall (fun x => openstack.sg_Name x <> name) (pre ++ post) ->
  exists actual s',
    ServerGroup.Find (Some s) w =
      (Return (Some actual, Some s'), mkWorld b' (calls w ++ [openstack.ListServerGroups])) /\
    ServerGroup.ID actual = Some (openstack.sg_ID g) /\
    ServerGroup.Name actual = Some name /\
    ServerGroup.Policies actual = openstack.sg_Policies g /\
    ServerGroup.MaxSize actual = Some (int32 (Z.of_nat (length (openstack.sg_Members g)))) /\
    ServerGroup.members actual = openstack.sg_Members g /\
    ServerGroup.ID s' = Some (openstack.sg_ID g) /\
    ServerGroup.Name s' = ServerGroup.Name s /\
    ServerGroup.members s' = openstack.sg_Members g /\
    ServerGroup.gotMemberList s' = ServerGroup.gotMemberList s /\
    Int32Value (ServerGroup.MaxSize s') =
      Z.min (Int32Value (ServerGroup.MaxSize s)) (Int32Value (ServerGroup.MaxSize actual)).
Proof.
  intros Hname Hlist Hextract Hg Hrest.
  unfold ServerGroup.Find. rewrite Hname.
  erewrite bind_Return; [|apply call_run].
  rewrite Hlist. simpl. rewrite Hextract.
  rewrite ServerGroup_Find_loop_one; [|by rewrite Hname..].
  eexists _, _. split; [reflexivity|]. simpl. rewrite Hg.
  destruct (Z.ltb_spec (int32 (Z.of_nat (length (openstack.sg_Members g))))
                       (Int32Value (ServerGroup.MaxSize s)));
    simpl; repeat (split; [done|]); lia.
Qed.

(** X5.  The Hetzner LoadBalancer.Find takes the first listed load balancer that
    has the name of the task, whatever is listed after it (a second load
    balancer of the same name included): the observed task has the name, ID,
    labels, location and type of that one, one service per service of the
    cloud, and the Lifecycle and Network of the desired task; the desired
    task gets the observed ID and is otherwise unchanged. *)
Theorem LoadBalancer_Find_first_match {S} `{!hetzner.HetznerCloud S}
    (v : LoadBalancer.t) (w : World S hetzner.Call) pre lb post b' :
  hetzner.loadBalancerAll (backend w) = (inr (pre ++ lb :: post), b') ->
  hetzner.lb_Name lb = StringValue (LoadBalancer.Name v) ->
  Forall (fun x => hetzner.lb_Name x <> StringValue (LoadBalancer.Name v)) pre ->
  exists actual v',
    LoadBalancer.Find v w =
      (Return (Some actual, v'), mkWorld b' (calls w ++ [hetzner.LoadBalancerAll])) /\
    LoadBalancer.Name actual = Some (hetzner.lb_Name lb) /\
    LoadBalancer.ID actual = Some (hetzner.lb_ID lb) /\
    LoadBalancer.Labels actual = hetzner.lb_Labels lb /\
    LoadBalancer.Location actual = default "" (hetzner.lb_Location lb) /\
    LoadBalancer.Type_ actual = default "" (hetzner.lb_LoadBalancerType lb) /\
    length (LoadBalancer.Services actual) = length (hetzner.lb_Services lb) /\
    LoadBalancer.Lifecycle actual = LoadBalancer.Lifecycle v /\
    LoadBalancer.Network_ actual = LoadBalancer.Network_ v /\
    v' = LoadBalancer.mk (LoadBalancer.Name v) (LoadBalancer.Lifecycle v)
           (LoadBalancer.Network_ v) (Some (hetzner.lb_ID lb)) (LoadBalancer.Location v)
           (LoadBalancer.Type_ v) (LoadBalancer.Services v) (LoadBalancer.Target v)
           (LoadBalancer.Labels v).
Proof.
  intros Hlist Hlb Hpre. unfold LoadBalancer.Find.
  erewrite bind_Return; [|apply call_run].
  rewrite Hlist. simpl. rewrite (LoadBalancer_Find_loop_first _ _ _ _ Hlb Hpre).
  eexists _, _. split; [reflexivity|]. simpl.
  repeat (split; [done|]). split; [by rewrite length_map|done].
Qed.

End Find_found.

(** ServerGroup.Find on the fake OpenStack with one group "nodes" of two
    members, for a task that wants five and has handed out its list. *)
Lemma ServerGroup_Find_found_witness :
  exists actual s',
    @ServerGroup.Find _ fake.openstackCloud (Some fixtures.serverGroupFive)
      (fake.emptyWorld [fake.osGroup "0" "masters"; fixtures.osGroupWithMembers "1" "nodes"])
    = (Return (Some actual, Some s'),
       mkWorld [fake.osGroup "0" "masters"; fixtures.osGroupWithMembers "1" "nodes"]
         [openstack.ListServerGroups]) /\
    ServerGroup.members s' = ["m-1"; "m-2"] /\
    ServerGroup.gotMemberList s' = true /\
    ServerGroup.MaxSize s' = Some 2%Z.
Proof.
  destruct (@ServerGroup_Find_found _ fake.openstackCloud fixtures.serverGroupFive "nodes"
              (fake.emptyWorld [fake.osGroup "0" "masters";
                                fixtures.osGroupWithMembers "1" "nodes"])
              _ _ [fake.osGroup "0" "masters"] (fixtures.osGroupWithMembers "1" "nodes") []
              eq_refl eq_refl eq_refl eq_refl
              ltac:(constructor; [discriminate|constructor]))
    as (actual & s' & Hfind & _).
  exists actual, s'. vm_compute in Hfind. injection Hfind as <- <-.
  vm_compute. done.
Defined.

(** The Hetzner Find on a cloud that lists two load balancers named "api":
    the first one, with ID 11, is the one observed. *)
Lemma LoadBalancer_Find_first_match_witness :
  exists actual v',
    @LoadBalancer.Find _ fake.hetznerCloud fake.loadBalancer
      (fake.emptyWorld [fixtures.hcloudLB 10 "other"; fixtures.hcloudLB 11 "api";
                        fixtures.hcloudLB 12 "api"])
    = (Return (Some actual, v'),
       mkWorld [fixtures.hcloudLB 10 "other"; fixtures.hcloudLB 11 "api";
                fixtures.hcloudLB 12 "api"] [hetzner.LoadBalancerAll]) /\
    LoadBalancer.ID actual = Some 11%Z.
Proof.
  destruct (@LoadBalancer_Find_first_match _ fake.hetznerCloud fake.loadBalancer
              (fake.emptyWorld [fixtures.hcloudLB 10 "other"; fixtures.hcloudLB 11 "api";
                                fixtures.hcloudLB 12 "api"])
              [fixtures.hcloudLB 10 "other"] (fixtures.hcloudLB 11 "api")
              [fixtures.hcloudLB 12 "api"] _ eq_refl eq_refl
              ltac:(constructor; [discriminate|constructor]))
    as (actual & v' & Hfind & _ & Hid & _).
  exists actual, v'. by split.
Defined.

(** ** More on the cloud monad *)

Lemma bind_inv_Return {W A B} (m : M W A) (k : A -> M W B) w b w' :
  (m ≫= k) w = (Return b, w') ->
  exists a w1, m w = (Return a, w1) /\ k a w1 = (Return b, w').
Proof.
  unfold mbind, M_bind, bind. destruct (m w) as [[a|e|msg] w1]; [eauto|done..].
Qed.

Lemma bind_bind {W A B D} (m : M W A) (f : A -> M W B) (g : B -> M W D) w :
  ((m ≫= f) ≫= g) w = (m ≫= fun x => f x ≫= g) w.
Proof. unfold mbind, M_bind, bind. by destruct (m w) as [[a|e|msg] w1]. Qed.

Lemma bind_ext {W A B} (m : M W A) (f g : A -> M W B) w :
  (forall a w', f a w' = g a w') -> (m ≫= f) w = (m ≫= g) w.
Proof. intros Hfg. unfold mbind, M_bind, bind. by destruct (m w) as [[a|e|msg] w1]. Qed.

Lemma lift_inv_Return {W A} (o : outcome A) (w w' : W) a :
  lift o w = (Return a, w') -> o = Return a /\ w' = w.
Proof. unfold lift. by intros [= -> ->]. Qed.

(** ** The lookups by name *)

Section Lookups.
Import fi awsup.

Lemma filter_singleton {A} (f : A -> bool) (l : list A) x :
  List.filter f l = [x] -> f x = true /\ x ∈ l.
Proof.
  intros Hf. assert (x ∈ List.filter f l) as Hx by (rewrite Hf; left).
  by apply elem_of_List_filter in Hx as [? ?].
Qed.

(** X6.  findLoadBalancerByLoadBalancerName treats no failure of the listing as
    "no such load balancer": describeLoadBalancers has wrapped the error of
    the cloud with fmt.Errorf before the lookup tests it for an AWS error
    code, so every failure, the code LoadBalancerNotFound included, comes
    back as an error that is wrapped twice. *)
Theorem findLoadBalancerByLoadBalancerName_listing_error {S} `{!AWSCloud S}
    (loadBalancerName : string) (err : clouderror) (w : World S Call) b' :
  describeLoadBalancersPages [loadBalancerName] (backend w) = (inl err, b') ->
  ClassicLoadBalancer.findLoadBalancerByLoadBalancerName loadBalancerName w =
    (Raise (Errorf "error listing ELBs: %v"
              [ArgError (Errorf "error listing ELBs: %v" [ArgError (CloudError err)])]),
     mkWorld b' (calls w ++ [DescribeLoadBalancersPages [loadBalancerName]])).
Proof.
  intros Hlist.
  unfold ClassicLoadBalancer.findLoadBalancerByLoadBalancerName,
    ClassicLoadBalancer.describeLoadBalancers.
  erewrite bind_Return; [|erewrite bind_Return; [|apply call_run]; rewrite Hlist; reflexivity].
  reflexivity.
Qed.

Lemma findLoadBalancerByLoadBalancerName_inv {S} `{!AWSCloud S} (name : string)
    (w w' : World S Call) lb :
  ClassicLoadBalancer.findLoadBalancerByLoadBalancerName name w = (Return (Some lb), w') ->
  StringValue (LoadBalancerName lb) = name /\
  (exists pages,
     describeLoadBalancersPages [name] (backend w) = (inr pages, backend w') /\
     lb ∈ concat pages) /\
  calls w' = calls w ++ [DescribeLoadBalancersPages [name]].
Proof.
  unfold ClassicLoadBalancer.findLoadBalancerByLoadBalancerName,
    ClassicLoadBalancer.describeLoadBalancers.
  destruct (describeLoadBalancersPages [name] (backend w)) as [[err|pages] b'] eqn:Hlist.
  - erewrite bind_Return;
      [|erewrite bind_Return; [|apply call_run]; rewrite Hlist; reflexivity].
    by destruct err as [[|? [|]]|].
  - erewrite bind_Return;
      [|erewrite bind_Return; [|apply call_run]; rewrite Hlist; reflexivity].
    simpl.
    destruct (List.filter _ (concat pages)) as [|x [|y rest]] eqn:Hfound; [done| |done].
    intros [= -> <-]. apply filter_singleton in Hfound as [Hname Hin].
    apply String.eqb_eq in Hname. split; [done|]. split; [|done]. by exists pages.
Qed.

Lemma findAutoscalingGroup_inv {S} `{!AWSCloud S} (name : string) (w w' : World S Call) g :
  AutoscalingGroup.findAutoscalingGroup name w = (Return (Some g), w') ->
  StringValue (AutoScalingGroupName g) = name /\
  Status g = None /\
  (exists pages,
     describeAutoScalingGroupsPages [name] (backend w) = (inr pages, backend w') /\
     g ∈ concat pages) /\
  calls w' = calls w ++ [DescribeAutoScalingGroupsPages [name]].
Proof.
  unfold AutoscalingGroup.findAutoscalingGroup.
  erewrite bind_Return; [|apply call_run].
  destruct (describeAutoScalingGroupsPages [name] (backend w)) as [[err|pages] b'] eqn:Hlist;
    simpl; [done|].
  destruct (List.filter _ (concat pages)) as [|x [|y rest]] eqn:Hfound; [done| |done].
  intros [= -> <-]. apply filter_singleton in Hfound as [Hname Hin].
  destruct (Status g); [done|]. apply String.eqb_eq in Hname.
  split; [done|]. split; [done|]. split; [|done]. by exists pages.
Qed.

(** X7.  What the two AWS lookups return, when they return a resource: it is one
    of the listed resources, it has the name that was asked for, the listing
    was the only call, and, for an autoscaling group, it has no Status (it is
    not being deleted). *)
Theorem lookup_returns_named_resource {S} `{!AWSCloud S} (name : string)
    (w w' : World S Call) :
  (forall lb,
     ClassicLoadBalancer.findLoadBalancerByLoadBalancerName name w = (Return (Some lb), w') ->
     StringValue (LoadBalancerName lb) = name /\
     (exists pages,
        describeLoadBalancersPages [name] (backend w) = (inr pages, backend w') /\
        lb ∈ concat pages) /\
     calls w' = calls w ++ [DescribeLoadBalancersPages [name]]) /\
  (forall g,
     AutoscalingGroup.findAutoscalingGroup name w = (Return (Some g), w') ->
     StringValue (AutoScalingGroupName g) = name /\
     Status g = None /\
     (exists pages,
        describeAutoScalingGroupsPages [name] (backend w) = (inr pages, backend w') /\
        g ∈ concat pages) /\
     calls w' = calls w ++ [DescribeAutoScalingGroupsPages [name]]).
Proof.
  split.
  - intros lb. apply findLoadBalancerByLoadBalancerName_inv.
  - intros g. apply findAutoscalingGroup_inv.
Qed.

End Lookups.

(** On an AWS that answers the listing with the code LoadBalancerNotFound
    the lookup fails. *)
Lemma findLoadBalancerByLoadBalancerName_listing_error_witness :
  (@ClassicLoadBalancer.findLoadBalancerByLoadBalancerName _ fixtures.awsNotFound "api"
     (fake.emptyWorld tt)).1 =
  Raise (fi.Errorf "error listing ELBs: %v"
    [fi.ArgError (fi.Errorf "error listing ELBs: %v"
      [fi.ArgError (fi.CloudError
        (fi.AwsError "LoadBalancerNotFound" "There is no ACTIVE Load Balancer named api"))])]).
Proof.
  rewrite (@findLoadBalancerByLoadBalancerName_listing_error _ fixtures.awsNotFound "api"
             (fi.AwsError "LoadBalancerNotFound" "There is no ACTIVE Load Balancer named api")
             (fake.emptyWorld tt) tt eq_refl).
  reflexivity.
Defined.

(** On the fake AWS with a group that is being deleted and a live group of
    the same name, the live one is returned. *)
Lemma lookup_returns_named_resource_witness :
  awsup.Status (fake.asGroup "nodes.c" None) = None /\
  fi.StringValue (awsup.LoadBalancerName (fake.elb "api")) = "api".
Proof.
  pose (b := {| fake.elbs := [fake.elb "other"; fake.elb "api"];
                fake.groups := [fake.asGroup "nodes.c" (Some "Delete in progress");
                                fake.asGroup "nodes.c" None];
                fake.createGroupError := None |}).
  split.
  - apply (proj2 (@lookup_returns_named_resource _ fake.awsCloud "nodes.c"
                    (fake.emptyWorld b)
                    (mkWorld b [awsup.DescribeAutoScalingGroupsPages ["nodes.c"]]))
             (fake.asGroup "nodes.c" None) eq_refl).
  - apply (proj1 (@lookup_returns_named_resource _ fake.awsCloud "api"
                    (fake.emptyWorld b)
                    (mkWorld b [awsup.DescribeLoadBalancersPages ["api"]]))
             (fake.elb "api") eq_refl).
Defined.

(** ** ClassicLoadBalancer.Find when the load balancer exists *)

Section ClassicLoadBalancer_Find.
Import fi awsup ClassicLoadBalancer.
Context {S : Type} `{!AWSCloud S} `{!External S}.

(** X8.  ClassicLoadBalancer.Find dereferences the LoadBalancerName of the
    desired task to pick the tags: when the load balancer exists and its tags
    were read, a desired task without LoadBalancerName makes Find panic
    (after the two read calls), before the statement that would have filled
    the name in from the cloud. *)
Theorem ClassicLoadBalancer_Find_nil_LoadBalancerName (e : t) (w : World S Call)
    lb lbName b1 tagMap b2 :
  findELBByNameTag (StringValue (Name e)) (backend w) = (inr (Some lb), b1) ->
  awsup.LoadBalancerName lb = Some lbName ->
  describeELBTags [lbName] b1 = (inr tagMap, b2) ->
  LoadBalancerName e = None ->
  Find e w =
    (Panic "invalid memory address or nil pointer dereference",
     mkWorld b2 (calls w ++ [FindELBByNameTag (StringValue (Name e));
                             DescribeELBTags [lbName]])).
Proof.
  intros Hfind Hname Htags He. unfold Find.
  erewrite bind_Return; [|apply call_run]. rewrite Hfind. simpl. rewrite Hname.
  erewrite bind_Return; [|apply call_run]. simpl. rewrite Htags. simpl. rewrite He.
  by rewrite <- app_assoc.
Qed.

(** X9.  ClassicLoadBalancer.Find, when it returns an observed task: the desired
    task had a LoadBalancerName, and after the call it has the observed one,
    whatever it was before; DNSName and HostedZoneId of the desired task are
    filled from the cloud only where they were nil.  When the subnets of the
    load balancer are those of the desired task in another order, the observed
    task shares the Subnets of the desired one and Normalize sorts them in
    place: both tasks end with the desired subnets sorted stably by ID;
    otherwise the observed task has the subnets of the load balancer, sorted,
    and those of the desired task stay as they were.  No other field of the
    desired task changes.  The observed task takes Name, Lifecycle and
    ForAPIServer from the desired one, has a listener map, no
    SSLCertificateID and no Shared flag. *)
Theorem ClassicLoadBalancer_Find_found (e : t) (w : World S Call) actual e' w' :
  Find e w = (Return (Some actual, e'), w') ->
  LoadBalancerName e <> None /\
  LoadBalancerName actual <> None /\
  LoadBalancerName e' = LoadBalancerName actual /\
  DNSName e' = (if DNSName e is None then DNSName actual else DNSName e) /\
  HostedZoneId e' = (if HostedZoneId e is None then HostedZoneId actual else HostedZoneId e) /\
  (exists lb b1,
     findELBByNameTag (StringValue (Name e)) (backend w) = (inr (Some lb), b1) /\
     let subnets :=
       appended (map (fun subnet => {| awstasks.Subnet_Name := None; awstasks.Subnet_ID := subnet |})
                     (lbd_Subnets lb)) in
     if subnetSlicesEqualIgnoreOrder (elems subnets) (elems (Subnets e))
     then Subnets actual = sort.Stable awstasks.OrderSubnetsById <$> Subnets e /\
          Subnets e' = Subnets actual
     else Subnets actual = sort.Stable awstasks.OrderSubnetsById <$> subnets /\
          Subnets e' = Subnets e) /\
  set_Subnets
    (set_LoadBalancerName (set_HostedZoneId (set_DNSName e' (DNSName e)) (HostedZoneId e))
       (LoadBalancerName e))
    (Subnets e) = e /\
  Name actual = Name e /\ Lifecycle actual = Lifecycle e /\
  ForAPIServer actual = ForAPIServer e /\
  Listeners actual <> None /\ SSLCertificateID_ actual = "" /\ Shared actual = None.
Proof.
  unfold Find.
  erewrite bind_Return; [|apply call_run].
  destruct (findELBByNameTag _ _) as [[err|[lb|]] b1] eqn:Hfind; simpl; [done| |done].
  destruct (awsup.LoadBalancerName lb) as [lbName|] eqn:Hlb; [|done].
  erewrite bind_Return; [|apply call_run].
  destruct (describeELBTags _ _) as [[err|tagMap] b2]; simpl; [done|].
  destruct (LoadBalancerName e) as [eName|] eqn:He; [|done].
  intros Hrun.
  apply bind_inv_Return in Hrun as (healthcheck & w1 & _ & Hrun).
  apply bind_inv_Return in Hrun as (lbAttributes & w2 & _ & Hrun).
  apply bind_inv_Return in Hrun as ([[[accessLog connectionDraining] connectionSettings]
                                     crossZone] & w3 & _ & Hrun).
  injection Hrun as <- <- <-.
  destruct e as [n lc lbn dns hz sn sg ls sch hc al cd cs cz ssl tg api sh].
  simpl in He. subst lbn. simpl.
  destruct dns, hz; simpl; destruct (String.eqb_spec eName lbName) as [->|Hne]; simpl;
    destruct (subnetSlicesEqualIgnoreOrder _ _) eqn:Heq; simpl;
    (do 5 (split; [done|]));
    (split; [exists lb, b1; split; [done|]; simpl; by rewrite Heq|]);
    repeat (split; [done|]); done.
Qed.

End ClassicLoadBalancer_Find.

(** On the fake AWS with the load balancer "api", Find panics for a task
    named "api" that has no LoadBalancerName. *)
Lemma ClassicLoadBalancer_Find_nil_LoadBalancerName_witness :
  let b := {| fake.elbs := [fake.elb "api"]; fake.groups := [];
              fake.createGroupError := None |} in
  let e := ClassicLoadBalancer.set_LoadBalancerName
             (ClassicLoadBalancer.mk (Some "api") fi.LifecycleSync None None None None None
                None None None None None None None "" ∅ false None) None in
  (@ClassicLoadBalancer.Find _ fake.awsCloud fake.external e (fake.emptyWorld b)).1 =
  Panic "invalid memory address or nil pointer dereference".
Proof.
  intros b e.
  rewrite (@ClassicLoadBalancer_Find_nil_LoadBalancerName _ fake.awsCloud fake.external e
             (fake.emptyWorld b) (fake.elb "api") "api" b ∅ b eq_refl eq_refl eq_refl eq_refl).
  reflexivity.
Defined.

(** On an AWS whose load balancer "api" is in the subnets "subnet-a" and
    "subnet-b", Find for a task that asks for the name "api" and lists
    "subnet-b" before "subnet-a" returns an observed task of that name, and
    leaves the desired task with its subnets in the sorted order. *)
Lemma ClassicLoadBalancer_Find_found_witness :
  let lb := {| awsup.LoadBalancerName := Some "api"; awsup.DNSName := None;
               awsup.CanonicalHostedZoneNameID := None; awsup.Scheme := None;
               awsup.lbd_Subnets := [Some "subnet-a"; Some "subnet-b"];
               awsup.lbd_SecurityGroups := [];
               awsup.ListenerDescriptions := [] |} in
  let b := {| fake.elbs := [lb]; fake.groups := []; fake.createGroupError := None |} in
  let subnet id := {| awstasks.Subnet_Name := None; awstasks.Subnet_ID := Some id |} in
  let e := ClassicLoadBalancer.mk (Some "api") fi.LifecycleSync (Some "api") None None
             (Some [subnet "subnet-b"; subnet "subnet-a"])
             None None None None None None None None "" ∅ false None in
  exists actual e' w',
    @ClassicLoadBalancer.Find _ fake.awsCloud fake.external e (fake.emptyWorld b) =
      (Return (Some actual, e'), w') /\
    ClassicLoadBalancer.LoadBalancerName e' = ClassicLoadBalancer.LoadBalancerName actual /\
    ClassicLoadBalancer.Subnets e' = Some [subnet "subnet-a"; subnet "subnet-b"] /\
    ClassicLoadBalancer.Subnets actual = ClassicLoadBalancer.Subnets e'.
Proof.
  intros lb b subnet e. eexists _, _, _. split; [vm_compute; reflexivity|].
  pose proof (@ClassicLoadBalancer_Find_found _ fake.awsCloud fake.external e
                (fake.emptyWorld b) _ _ _ ltac:(vm_compute; reflexivity)) as H.
  split; [exact (proj1 (proj2 (proj2 H)))|]. by vm_compute.
Defined.

(** ** Listener ports: from the number to the map key and back *)

Section Listener_ports.
Import strconv.

Lemma digits_of_uint_acc d : forall acc,
  digits (NilEmpty.string_of_uint d) (Z.pos acc) = Some (Z.pos (Pos.of_uint_acc d acc)).
Proof.
  induction d as [|d IH|d IH|d IH|d IH|d IH|d IH|d IH|d IH|d IH|d IH]; intros acc;
    cbn [NilEmpty.string_of_uint digits Pos.of_uint_acc]; [done|..];
    match goal with
    | |- context [digit ?c] =>
        let v := eval vm_compute in (digit c) in change (digit c) with v
    end; cbv iota beta; rewrite <- IH; f_equal; lia.
Qed.

Lemma digits_of_uint d :
  digits (NilEmpty.string_of_uint d) 0 = Some (Z.of_N (Pos.of_uint d)).
Proof.
  induction d as [|d IH|d IH|d IH|d IH|d IH|d IH|d IH|d IH|d IH|d IH];
    cbn [NilEmpty.string_of_uint digits Pos.of_uint]; [done|..];
    match goal with
    | |- context [digit ?c] =>
        let v := eval vm_compute in (digit c) in change (digit c) with v
    end; cbv iota beta; [exact IH|..]; apply (digits_of_uint_acc d).
Qed.

Lemma digits_to_uint p :
  digits (NilZero.string_of_uint (Pos.to_uint p)) 0 = Some (Z.pos p) /\
  NilZero.string_of_uint (Pos.to_uint p) <> "" /\
  (forall s, NilZero.string_of_uint (Pos.to_uint p) <> String "-" s) /\
  (forall s, NilZero.string_of_uint (Pos.to_uint p) <> String "+" s).
Proof.
  pose proof (DecimalPos.Unsigned.of_to p) as Hp.
  pose proof (digits_of_uint (Pos.to_uint p)) as Hd. rewrite Hp in Hd.
  pose proof (DecimalPos.Unsigned.to_uint_nonnil p) as Hnil.
  destruct (Pos.to_uint p); [done|..]; split; try exact Hd; by repeat split.
Qed.

Lemma ParseInt_body c s' :
  c <> "-"%char -> c <> "+"%char ->
  ParseInt (String c s') =
  match digits (String c s') 0 with
  | Some n => if (- 2 ^ 63 <=? n)%Z && (n <? 2 ^ 63)%Z then Some n else None
  | None => None
  end.
Proof.
  intros Hminus Hplus. unfold ParseInt.
  destruct c as [[|] [|] [|] [|] [|] [|] [|] [|]]; first [reflexivity|congruence].
Qed.

Lemma ParseInt_unsigned s n :
  s <> "" -> (forall s', s <> String "-" s') -> (forall s', s <> String "+" s') ->
  digits s 0 = Some n -> (n <? 2 ^ 63)%Z = true -> (0 <= n)%Z ->
  ParseInt s = Some n.
Proof.
  intros Hnil Hminus Hplus Hd Hr Hn.
  destruct s as [|c s']; [done|].
  rewrite ParseInt_body; [|intros ->; by destruct (Hminus s')|intros ->; by destruct (Hplus s')].
  rewrite Hd, Hr. by destruct (Z.leb_spec (- 2 ^ 63) n); [|lia].
Qed.

(** strconv.ParseInt reads back what strconv.FormatInt wrote: for every
    64-bit integer n, ParseInt(FormatInt(n, 10), 10, 64) is n, without
    error. *)
Theorem ParseInt_FormatInt (n : Z) :
  (- 2 ^ 63 <= n < 2 ^ 63)%Z -> ParseInt (FormatInt n) = Some n.
Proof.
  intros Hn. unfold FormatInt. destruct n as [|p|p]; [done|..]; simpl.
  - destruct (digits_to_uint p) as (Hd & Hnil & Hminus & Hplus).
    apply ParseInt_unsigned; try done; lia.
  - destruct (digits_to_uint p) as (Hd & Hnil & _ & _).
    unfold ParseInt. destruct (NilZero.string_of_uint (Pos.to_uint p)) as [|c s']; [done|].
    rewrite Hd. cbv zeta.
    change (- Z.pos p)%Z with (Z.neg p).
    destruct (Z.leb_spec (- 2 ^ 63) (Z.neg p)); [|lia].
    by destruct (Z.ltb_spec (Z.neg p) (2 ^ 63)); [|lia].
Qed.

End Listener_ports.

(** ** ClassicLoadBalancer: the listeners of a request *)

Section ClassicLoadBalancer_listeners.
Import fi awsup ClassicLoadBalancer.

Lemma awsListeners_Return {W} (l : list (string * ClassicLoadBalancerListener)) (w : W) :
  Forall (fun p => is_Some (strconv.ParseInt p.1)) l ->
  awsListeners l w =
    (Return (map (fun p => mapToAWS p.2 (default 0%Z (strconv.ParseInt p.1))) l), w).
Proof.
  induction 1 as [|[k v] l [n Hn] _ IH]; [done|].
  simpl in *. rewrite Hn. erewrite bind_Return; [|exact IH]. done.
Qed.

Lemma awsListeners_Raise {W} (l : list (string * ClassicLoadBalancerListener)) (w : W) :
  Exists (fun p => strconv.ParseInt p.1 = None) l ->
  exists port, port ∈ l.*1 /\ strconv.ParseInt port = None /\
    awsListeners l w =
      (Raise (Errorf "error parsing load balancer listener port: %q" [ArgString port]), w).
Proof.
  induction l as [|[k v] l IH]; intros Hex; [by apply Exists_nil in Hex|].
  simpl. destruct (strconv.ParseInt k) as [n|] eqn:Hk.
  - apply Exists_cons in Hex as [Hex|Hex]; [simpl in Hex; congruence|].
    destruct (IH Hex) as (port & Hin & Hport & Hrun).
    exists port. split; [by right|]. split; [done|]. by erewrite bind_Raise.
  - exists k. split; [by left|]. done.
Qed.

Lemma Find_listeners_lookup lds k v :
  Find_listeners lds !! k = Some v ->
  exists l, l ∈ lds /\
    k = strconv.FormatInt (Int64Value (awsup.LoadBalancerPort l)) /\
    v = {| InstancePort := Int64Value (awsup.InstancePort l);
           SSLCertificateID := StringValue (SSLCertificateId l) |}.
Proof.
  unfold Find_listeners.
  assert (forall m : gmap string ClassicLoadBalancerListener,
    fold_left
      (fun m l =>
         <[strconv.FormatInt (Int64Value (awsup.LoadBalancerPort l)) :=
             {| InstancePort := Int64Value (awsup.InstancePort l);
                SSLCertificateID := StringValue (SSLCertificateId l) |}]> m) lds m !! k = Some v ->
    m !! k = Some v \/
    exists l, l ∈ lds /\
      k = strconv.FormatInt (Int64Value (awsup.LoadBalancerPort l)) /\
      v = {| InstancePort := Int64Value (awsup.InstancePort l);
             SSLCertificateID := StringValue (SSLCertificateId l) |}) as Hgen.
  { induction lds as [|l lds IH]; intros m; simpl; [by left|].
    intros Hk. apply IH in Hk as [Hk|(l' & Hin & Hl')].
    - destruct (decide (strconv.FormatInt (Int64Value (awsup.LoadBalancerPort l)) = k))
        as [<-|Hne].
      + rewrite lookup_insert_eq in Hk. injection Hk as <-.
        right. exists l. split; [by left|done].
      + rewrite lookup_insert_ne in Hk by done. by left.
    - right. exists l'. split; [by right|done]. }
  intros Hk. apply Hgen in Hk as [Hk|Hk]; [by rewrite lookup_empty in Hk|done].
Qed.

(** X10.  The listeners that ClassicLoadBalancer.Find observed can always be sent
    back: every key of the observed listener map was written by
    strconv.FormatInt from a 64-bit port, so RenderAWS's parsing of the keys
    cannot fail on them, and each listener of the request carries the port,
    the instance port and the certificate of a listener of the cloud. *)
Theorem Find_listeners_round_trip {W} (lds : list elb_Listener) (w : W) :
  Forall (fun l => (- 2 ^ 63 <= Int64Value (awsup.LoadBalancerPort l) < 2 ^ 63)%Z) lds ->
  exists listeners,
    awsListeners (entries (Some (Find_listeners lds))) w = (Return listeners, w) /\
    length listeners = size (Find_listeners lds) /\
    forall l', l' ∈ listeners -> exists l, l ∈ lds /\
      awsup.LoadBalancerPort l' = Some (Int64Value (awsup.LoadBalancerPort l)) /\
      awsup.InstancePort l' = Some (Int64Value (awsup.InstancePort l)) /\
      SSLCertificateId l' =
        (if String.eqb (StringValue (SSLCertificateId l)) "" then None
         else Some (StringValue (SSLCertificateId l))).
Proof.
  intros Hports. eexists. split; [apply awsListeners_Return|split].
  - apply Forall_forall. intros [k v] Hin. apply elem_of_map_to_list in Hin.
    apply Find_listeners_lookup in Hin as (l & Hl & -> & _).
    rewrite Forall_forall in Hports. simpl.
    rewrite ParseInt_FormatInt by by apply Hports. done.
  - rewrite length_map. simpl. by rewrite length_map_to_list.
  - intros l' Hin. apply list_elem_of_fmap in Hin as ([k v] & -> & Hin).
    apply elem_of_map_to_list in Hin.
    apply Find_listeners_lookup in Hin as (l & Hl & -> & ->).
    rewrite Forall_forall in Hports.
    exists l. split; [done|]. simpl. rewrite ParseInt_FormatInt by by apply Hports.
    unfold mapToAWS. simpl. by destruct (String.eqb _ "").
Qed.

End ClassicLoadBalancer_listeners.

(** A load balancer of the cloud with the listeners 443 and 8443. *)
Lemma Find_listeners_round_trip_witness :
  exists listeners,
    @ClassicLoadBalancer.awsListeners unit
      (ClassicLoadBalancer.entries
         (Some (ClassicLoadBalancer.Find_listeners
                  [awsup.Build_elb_Listener (Some 443%Z) (Some 443%Z) (Some "TCP") (Some "TCP")
                     None;
                   awsup.Build_elb_Listener (Some 8443%Z) (Some 443%Z) (Some "SSL")
                     (Some "SSL") (Some "arn:cert")]))) tt
    = (Return listeners, tt) /\ length listeners = 2.
Proof.
  destruct (@Find_listeners_round_trip unit
              [awsup.Build_elb_Listener (Some 443%Z) (Some 443%Z) (Some "TCP") (Some "TCP") None;
               awsup.Build_elb_Listener (Some 8443%Z) (Some 443%Z) (Some "SSL") (Some "SSL")
                 (Some "arn:cert")] tt)
    as (listeners & Hrun & Hlen & _).
  - repeat constructor; simpl; lia.
  - exists listeners. split; [exact Hrun|]. rewrite Hlen. reflexivity.
Defined.

(** ** ClassicLoadBalancer.RenderAWS and a listener port that is no number *)

Section ClassicLoadBalancer_RenderAWS_ports.
Import fi awsup ClassicLoadBalancer.
Context {S : Type} `{!AWSCloud S} `{!External S}.

(** X11.  RenderAWS on the create path parses the listener ports before it calls
    the cloud: with a listener key that strconv.ParseInt rejects, the parse
    error is returned and no call has been made. *)
Theorem ClassicLoadBalancer_RenderAWS_create_bad_port (e changes : t)
    (w : World S Call) loadBalancerName :
  BoolValue (Shared e) = false ->
  LoadBalancerName e = Some loadBalancerName ->
  Exists (fun p => strconv.ParseInt p.1 = None) (entries (Listeners e)) ->
  exists port, port ∈ (entries (Listeners e)).*1 /\ strconv.ParseInt port = None /\
    RenderAWS None e changes w =
      (Raise (Errorf "error parsing load balancer listener port: %q" [ArgString port]), w).
Proof.
  intros Hshared Hname Hbad.
  destruct (awsListeners_Raise _ w Hbad) as (port & Hin & Hport & Hrun).
  exists port. split; [done|]. split; [done|].
  unfold RenderAWS. rewrite Hshared, Hname.
  erewrite bind_Raise; [done|]. by erewrite bind_Raise.
Qed.

(** X12.  RenderAWS on the update path parses the new listener ports only after it
    has deleted the listener on port 443: with changed listeners of which one
    key is no number, and the load balancer found by its name, the calls made
    are the listing and DeleteLoadBalancerListeners for port 443, then the
    parse error is returned; no listener is created. *)
Theorem ClassicLoadBalancer_RenderAWS_update_bad_port (a e changes : t)
    (w : World S Call) listeners pages b1 lb r b2 :
  BoolValue (Shared e) = false ->
  Subnets changes = None -> SecurityGroups changes = None ->
  Listeners changes = Some listeners ->
  Exists (fun p => strconv.ParseInt p.1 = None) (map_to_list listeners) ->
  describeLoadBalancersPages [StringValue (LoadBalancerName a)] (backend w) = (inr pages, b1) ->
  List.filter
    (fun lb => String.eqb (StringValue (awsup.LoadBalancerName lb))
                          (StringValue (LoadBalancerName a)))
    (concat pages) = [lb] ->
  perform (DeleteLoadBalancerListeners (StringValue (LoadBalancerName a)) [443%Z]) b1 = (r, b2) ->
  exists port, port ∈ (map_to_list listeners).*1 /\ strconv.ParseInt port = None /\
    RenderAWS (Some a) e changes w =
      (Raise (Errorf "error parsing load balancer listener port: %q" [ArgString port]),
       mkWorld b2
         (calls w ++
          [DescribeLoadBalancersPages [StringValue (LoadBalancerName a)];
           DeleteLoadBalancerListeners (StringValue (LoadBalancerName a)) [443%Z]])).
Proof.
  intros Hshared Hsubnets Hgroups Hlisteners Hbad Hlist Hfound Hdelete.
  set (w2 := mkWorld b2
         (calls w ++
          [DescribeLoadBalancersPages [StringValue (LoadBalancerName a)];
           DeleteLoadBalancerListeners (StringValue (LoadBalancerName a)) [443%Z]])).
  destruct (awsListeners_Raise _ w2 Hbad) as (port & Hin & Hport & Hrun).
  exists port. split; [done|]. split; [done|].
  unfold RenderAWS. rewrite Hshared, Hsubnets, Hgroups, Hlisteners.
  erewrite bind_Raise; [done|].
  erewrite bind_Return; [|reflexivity].
  erewrite bind_Return; [|reflexivity].
  erewrite bind_Raise; [done|].
  erewrite bind_Return.
  2:{ unfold findLoadBalancerByLoadBalancerName, describeLoadBalancers.
      erewrite bind_Return;
        [|erewrite bind_Return; [|apply call_run]; rewrite Hlist; reflexivity].
      simpl. rewrite Hfound. reflexivity. }
  erewrite bind_Return.
  2:{ erewrite bind_Return; [|apply call_run]. simpl. rewrite Hdelete. reflexivity. }
  erewrite bind_Raise; [done|].
  unfold entries. simpl. rewrite <- app_assoc. exact Hrun.
Qed.

(** X13.  RenderAWS drops the answer of DeleteLoadBalancerListeners: whether the
    deletion of the listener on port 443 succeeded or failed, the new
    listeners are sent with CreateLoadBalancerListeners next, and it is the
    failure of that call which is reported. *)
Theorem ClassicLoadBalancer_RenderAWS_delete_answer_dropped (a e changes : t)
    (w : World S Call) listeners pages b1 lb r b2 err b3 :
  BoolValue (Shared e) = false ->
  Subnets changes = None -> SecurityGroups changes = None ->
  Listeners changes = Some listeners ->
  Forall (fun p => is_Some (strconv.ParseInt p.1)) (map_to_list listeners) ->
  describeLoadBalancersPages [StringValue (LoadBalancerName a)] (backend w) = (inr pages, b1) ->
  List.filter
    (fun lb => String.eqb (StringValue (awsup.LoadBalancerName lb))
                          (StringValue (LoadBalancerName a)))
    (concat pages) = [lb] ->
  perform (DeleteLoadBalancerListeners (StringValue (LoadBalancerName a)) [443%Z]) b1 = (r, b2) ->
  perform (CreateLoadBalancerListeners (StringValue (LoadBalancerName a))
             (map (fun p => mapToAWS p.2 (default 0%Z (strconv.ParseInt p.1)))
                  (map_to_list listeners))) b2 = (inl err, b3) ->
  RenderAWS (Some a) e changes w =
    (Raise (Errorf "error creating LoadBalancerListeners: %v" [ArgError (CloudError err)]),
     mkWorld b3
       (calls w ++
        [DescribeLoadBalancersPages [StringValue (LoadBalancerName a)];
         DeleteLoadBalancerListeners (StringValue (LoadBalancerName a)) [443%Z];
         CreateLoadBalancerListeners (StringValue (LoadBalancerName a))
           (map (fun p => mapToAWS p.2 (default 0%Z (strconv.ParseInt p.1)))
                (map_to_list listeners))])).
Proof.
  intros Hshared Hsubnets Hgroups Hlisteners Hgood Hlist Hfound Hdelete Hcreate.
  unfold RenderAWS. rewrite Hshared, Hsubnets, Hgroups, Hlisteners.
  erewrite bind_Raise; [done|].
  erewrite bind_Return; [|reflexivity].
  erewrite bind_Return; [|reflexivity].
  erewrite bind_Raise; [done|].
  erewrite bind_Return.
  2:{ unfold findLoadBalancerByLoadBalancerName, describeLoadBalancers.
      erewrite bind_Return;
        [|erewrite bind_Return; [|apply call_run]; rewrite Hlist; reflexivity].
      simpl. rewrite Hfound. reflexivity. }
  erewrite bind_Return.
  2:{ erewrite bind_Return; [|apply call_run]. simpl. rewrite Hdelete. reflexivity. }
  erewrite bind_Return; [|unfold entries; simpl; by apply awsListeners_Return].
  erewrite bind_Return; [|apply call_run].
  simpl. rewrite Hcreate. simpl. by rewrite <- !app_assoc.
Qed.

End ClassicLoadBalancer_RenderAWS_ports.

(** A new load balancer with a listener keyed "https": nothing is called. *)
Lemma ClassicLoadBalancer_RenderAWS_create_bad_port_witness :
  let e := fixtures.classicLoadBalancer [("https", fixtures.listener 443)] in
  exists port,
    @ClassicLoadBalancer.RenderAWS _ fixtures.awsReadOnly (fixtures.external _) None e e
      (fake.emptyWorld []) =
    (Raise (fi.Errorf "error parsing load balancer listener port: %q" [fi.ArgString port]),
     fake.emptyWorld []).
Proof.
  intros e.
  destruct (@ClassicLoadBalancer_RenderAWS_create_bad_port _ fixtures.awsReadOnly
              (fixtures.external _) e e (fake.emptyWorld []) "api" eq_refl eq_refl)
    as (port & _ & _ & Hrun).
  - apply Exists_exists. exists ("https", fixtures.listener 443).
    split; [|reflexivity]. apply elem_of_map_to_list. reflexivity.
  - by exists port.
Defined.

(** The load balancer "api" exists and its listeners change to one keyed
    "https": the listener on 443 is deleted (here: the deletion is refused)
    before the key is found not to be a number. *)
Lemma ClassicLoadBalancer_RenderAWS_update_bad_port_witness :
  let a := fixtures.classicLoadBalancer [("443", fixtures.listener 443)] in
  let e := fixtures.classicLoadBalancer [("https", fixtures.listener 443)] in
  let changes :=
    ClassicLoadBalancer.mk None "" None None None None None
      (Some (list_to_map [("https", fixtures.listener 443)]))
      None None None None None None "" ∅ false None in
  exists port,
    @ClassicLoadBalancer.RenderAWS _ fixtures.awsReadOnly (fixtures.external _) (Some a) e
      changes (fake.emptyWorld [fake.elb "api"]) =
    (Raise (fi.Errorf "error parsing load balancer listener port: %q" [fi.ArgString port]),
     mkWorld [fake.elb "api"]
       [awsup.DescribeLoadBalancersPages ["api"];
        awsup.DeleteLoadBalancerListeners "api" [443%Z]]).
Proof.
  intros a e changes.
  destruct (@ClassicLoadBalancer_RenderAWS_update_bad_port _ fixtures.awsReadOnly
              (fixtures.external _) a e changes (fake.emptyWorld [fake.elb "api"])
              (list_to_map [("https", fixtures.listener 443)]) [[fake.elb "api"]]
              [fake.elb "api"] (fake.elb "api") (inl (fi.AwsError "AccessDenied" ""))
              [fake.elb "api"] eq_refl eq_refl eq_refl eq_refl)
    as (port & _ & _ & Hrun); [|reflexivity..|].
  - apply Exists_exists. exists ("https", fixtures.listener 443).
    split; [|reflexivity]. apply elem_of_map_to_list. reflexivity.
  - by exists port.
Defined.

(** The same load balancer with new listeners 443 and 8443 on an account that
    may not write: the refused deletion is passed over, the refused creation
    is the error. *)
Lemma ClassicLoadBalancer_RenderAWS_delete_answer_dropped_witness :
  let a := fixtures.classicLoadBalancer [("443", fixtures.listener 443)] in
  let listeners : gmap string ClassicLoadBalancer.ClassicLoadBalancerListener :=
    list_to_map [("443", fixtures.listener 443); ("8443", fixtures.listener 443)] in
  let changes :=
    ClassicLoadBalancer.mk None "" None None None None None (Some listeners)
      None None None None None None "" ∅ false None in
  (@ClassicLoadBalancer.RenderAWS _ fixtures.awsReadOnly (fixtures.external _) (Some a) a
     changes (fake.emptyWorld [fake.elb "api"])).1 =
  Raise (fi.Errorf "error creating LoadBalancerListeners: %v"
           [fi.ArgError (fi.CloudError (fi.AwsError "AccessDenied" ""))]).
Proof.
  intros a listeners changes.
  rewrite (@ClassicLoadBalancer_RenderAWS_delete_answer_dropped _ fixtures.awsReadOnly
             (fixtures.external _) a a changes (fake.emptyWorld [fake.elb "api"])
             listeners [[fake.elb "api"]] [fake.elb "api"] (fake.elb "api")
             (inl (fi.AwsError "AccessDenied" "")) [fake.elb "api"]
             (fi.AwsError "AccessDenied" "") [fake.elb "api"]
             eq_refl eq_refl eq_refl eq_refl).
  - reflexivity.
  - apply Forall_forall. intros [k l] Hin. apply elem_of_map_to_list in Hin.
    unfold listeners, list_to_map in Hin. simpl in Hin.
    apply lookup_insert_Some in Hin as [[<- _]|[_ Hin]]; [by eexists|].
    apply lookup_insert_Some in Hin as [[<- _]|[_ Hin]]; [by eexists|].
    by rewrite lookup_empty in Hin.
  - reflexivity.
  - reflexivity.
  - reflexivity.
  - reflexivity.
Defined.

(** ** Normalize, applied twice *)

Section Stable_sorted.
Context {A : Type} (key : A -> string).

Local Abbreviation less := (fun a b => strings.lt (key a) (key b)) (only parsing).

Lemma insert_head x rp :
  (forall y, y ∈ rp -> sort.ascending key y x) -> sort.insert less x rp = x :: rp.
Proof.
  destruct rp as [|y rp]; [done|]. intros Hrp. simpl.
  unfold strings.lt. rewrite String_ltb_leb.
  assert (sort.ascending key y x) as Hy by (apply Hrp; by left).
  unfold sort.ascending in Hy. by rewrite Hy.
Qed.

Lemma fold_insert_sorted l : forall rp,
  StronglySorted (sort.ascending key) l ->
  (forall x y, x ∈ l -> y ∈ rp -> sort.ascending key y x) ->
  fold_left (fun rp x => sort.insert less x rp) l rp = reverse l ++ rp.
Proof.
  induction l as [|x l IH]; intros rp Hl Hrp; simpl; [done|].
  apply StronglySorted_inv in Hl as [Hl Hx].
  rewrite insert_head by (intros y Hy; apply Hrp; [by left|done]).
  rewrite IH, reverse_cons, <- app_assoc; [done|done|].
  intros x' y Hx' Hy. apply elem_of_cons in Hy as [->|Hy].
  - rewrite Forall_forall in Hx. by apply Hx.
  - apply Hrp; [by right|done].
Qed.

(** A list that is in ascending order of its keys is left as it is. *)
Lemma Stable_sorted l :
  StronglySorted (sort.ascending key) l -> sort.Stable less l = l.
Proof.
  intros Hl. unfold sort.Stable.
  rewrite fold_insert_sorted, app_nil_r, reverse_involutive; [done|done|].
  intros x y _ Hy. by apply elem_of_nil in Hy.
Qed.

Lemma Stable_idempotent l :
  sort.Stable less (sort.Stable less l) = sort.Stable less l.
Proof. apply Stable_sorted, Stable_StronglySorted. Qed.

End Stable_sorted.

Section Normalize_twice.
Import fi awstasks.

(** X14.  ClassicLoadBalancer.Normalize and AutoscalingGroup.normalize put the
    task in a form they do not change any more: normalizing twice gives the
    same task as normalizing once.  After Normalize the subnets and the
    security groups are the same elements as before, in ascending order of
    their IDs; after normalize the metrics are in ascending order. *)
Theorem Normalize_idempotent (e : ClassicLoadBalancer.t) (g : AutoscalingGroup.t) :
  ClassicLoadBalancer.Normalize (ClassicLoadBalancer.Normalize e) =
    ClassicLoadBalancer.Normalize e /\
  (forall subnets, ClassicLoadBalancer.Subnets e = Some subnets ->
     exists sorted,
       ClassicLoadBalancer.Subnets (ClassicLoadBalancer.Normalize e) = Some sorted /\
       sorted ≡ₚ subnets /\
       StronglySorted (sort.ascending (fun s => StringValue (Subnet_ID s))) sorted) /\
  (forall groups, ClassicLoadBalancer.SecurityGroups e = Some groups ->
     exists sorted,
       ClassicLoadBalancer.SecurityGroups (ClassicLoadBalancer.Normalize e) = Some sorted /\
       sorted ≡ₚ groups /\
       StronglySorted (sort.ascending (fun s => StringValue (SecurityGroup_ID s))) sorted) /\
  AutoscalingGroup.normalize (AutoscalingGroup.normalize g).1 = AutoscalingGroup.normalize g /\
  (forall metrics, AutoscalingGroup.Metrics g = Some metrics ->
     exists sorted,
       AutoscalingGroup.Metrics (AutoscalingGroup.normalize g).1 = Some sorted /\
       sorted ≡ₚ metrics /\ StronglySorted (sort.ascending id) sorted).
Proof.
  split; [|split; [|split; [|split]]].
  - destruct e as [n lc lbn dns hz sn sg ls sch hc al cd cs cz ssl tg api sh].
    unfold ClassicLoadBalancer.Normalize, ClassicLoadBalancer.set_SecurityGroups,
      ClassicLoadBalancer.set_Subnets. simpl.
    destruct sn as [sn|], sg as [sg|]; simpl;
      rewrite ?(Stable_idempotent (fun s => StringValue (Subnet_ID s))),
        ?(Stable_idempotent (fun s => StringValue (SecurityGroup_ID s))); done.
  - intros subnets Hs. eexists. simpl. rewrite Hs. simpl. split; [done|].
    split; [apply (Stable_Permutation (fun s => StringValue (Subnet_ID s)))
           |apply (Stable_StronglySorted (fun s => StringValue (Subnet_ID s)))].
  - intros groups Hs. eexists. simpl. rewrite Hs. simpl. split; [done|].
    split; [apply (Stable_Permutation (fun s => StringValue (SecurityGroup_ID s)))
           |apply (Stable_StronglySorted (fun s => StringValue (SecurityGroup_ID s)))].
  - destruct g. unfold AutoscalingGroup.normalize, AutoscalingGroup.set_Metrics. simpl.
    destruct Metrics as [m|]; simpl; [|done].
    unfold sort.Strings. by rewrite (Stable_idempotent id).
  - intros metrics Hm. eexists. simpl. rewrite Hm. simpl. split; [done|].
    split; [apply (Stable_Permutation id)|apply (Stable_StronglySorted id)].
Qed.

End Normalize_twice.

(** ** AutoscalingGroup.RenderAWS: launch template and empty changes *)

Section AutoscalingGroup_RenderAWS_edges.
Import fi awsup awstasks AutoscalingGroup.
Context {S : Type} `{!AWSCloud S}.

Lemma createLoadBalancerNames_calls l : forall (w : World S Call),
  exists cs, calls (createLoadBalancerNames l w).2 = calls w ++ cs /\
             Forall (fun c => readonly c = true) cs.
Proof.
  induction l as [|k rest IH]; intros w; simpl.
  - exists []. by rewrite app_nil_r.
  - unfold mbind, M_bind, bind.
    destruct (ClassicLoadBalancer.LoadBalancerName k) as [n|]; simpl.
    + destruct (IH w) as (cs & Hcs & Hro).
      exists cs. by destruct (createLoadBalancerNames rest w) as [[ns|err|msg] w'].
    + rewrite call_run.
      destruct (findELBByNameTag _ (backend w)) as [[err|[lbDesc|]] b']; simpl;
        try (eexists [_]; split; [done|by repeat constructor]).
      match goal with |- context [createLoadBalancerNames rest ?w0] =>
        destruct (IH w0) as (cs & Hcs & Hro) end.
      exists (FindELBByNameTag (StringValue (ClassicLoadBalancer.Name k)) :: cs).
      split; [|by constructor].
      destruct (createLoadBalancerNames rest _) as [[ns|err|msg] w']; simpl in *;
        by rewrite Hcs, <- app_assoc.
Qed.

Lemma createLoadBalancerNames_no_panic l : forall (w : World S Call) msg,
  (createLoadBalancerNames l w).1 <> Panic msg.
Proof.
  induction l as [|k rest IH]; intros w msg; simpl; [done|].
  unfold mbind, M_bind, bind.
  destruct (ClassicLoadBalancer.LoadBalancerName k) as [n|]; simpl.
  - specialize (IH w msg).
    by destruct (createLoadBalancerNames rest w) as [[ns|err|msg'] w'].
  - rewrite call_run.
    destruct (findELBByNameTag _ (backend w)) as [[err|[lbDesc|]] b']; simpl; try done.
    match goal with |- context [createLoadBalancerNames rest ?w0] =>
      specialize (IH w0 msg) end.
    by destruct (createLoadBalancerNames rest _) as [[ns|err|msg'] w'].
Qed.

(** X15.  A group whose task has no launch template is never created: on the
    create path RenderAWS then returns an error, CreateAutoScalingGroup is not
    sent, and the only calls made are the read-only lookups of load balancers
    by name tag.  When these lookups succeed the error is "could not find one
    of launch template or mixed instances policy". *)
Theorem AutoscalingGroup_create_needs_LaunchTemplate (v e changes : t) (w : World S Call) :
  LaunchTemplate_ e = None ->
  exists err w' cs,
    RenderAWS v None e changes w = (Raise err, w') /\
    calls w' = calls w ++ cs /\
    Forall (fun c => readonly c = true) cs /\
    ((exists names, (createLoadBalancerNames (elems (LoadBalancers e)) w).1 = Return names) ->
     err = Errorf "could not find one of launch template or mixed instances policy" []).
Proof.
  intros Hlt. simpl. unfold RenderAWS_create, createRequest, UseMixedInstancesPolicy.
  rewrite Hlt.
  destruct (createLoadBalancerNames_calls (elems (LoadBalancers e)) w) as (cs & Hcs & Hro).
  pose proof (createLoadBalancerNames_no_panic (elems (LoadBalancers e)) w) as Hnp.
  unfold mbind, M_bind, bind.
  destruct (createLoadBalancerNames (elems (LoadBalancers e)) w) as [[ns|err|msg] w1];
    simpl in *.
  - eexists _, _, cs. by repeat split.
  - eexists _, _, cs. repeat split; [done..|]. by intros [? ?].
  - by destruct (Hnp msg).
Qed.

(** X16.  An update whose changes are all nil is not a no-op: unless the group
    must leave the mixed instances policy, RenderAWS sends exactly one call,
    UpdateAutoScalingGroup with the name of the group and no other field
    set, and returns the outcome of that call. *)
Theorem AutoscalingGroup_update_nothing_changed (v a e : t) (w : World S Call) :
  UseMixedInstancesPolicy a && negb (UseMixedInstancesPolicy e) = false ->
  let request :=
    {| up_AutoScalingGroupName := Name e; up_LaunchTemplate := None;
       up_MixedInstancesPolicy := None; up_MinSize := None; up_MaxSize := None;
       up_VPCZoneIdentifier := None; up_NewInstancesProtectedFromScaleIn := None |} in
  RenderAWS v (Some a) e empty w =
    (match (perform (UpdateAutoScalingGroup request) (backend w)).1 with
     | inl err =>
         Raise (Errorf "error updating AutoscalingGroup: %v" [ArgError (CloudError err)])
     | inr _ => Return tt
     end,
     mkWorld (perform (UpdateAutoScalingGroup request) (backend w)).2
       (calls w ++ [UpdateAutoScalingGroup request])).
Proof.
  intros Hmixed request. simpl.
  unfold RenderAWS_update, updateRequest. simpl. rewrite Hmixed. simpl.
  unfold perform_, mbind, M_bind, bind, lift. simpl. rewrite call_run.
  fold request. by destruct (perform (UpdateAutoScalingGroup request) (backend w)) as [[err|[]] b'].
Qed.

(** X17.  Leaving the mixed instances policy needs a launch template: when the
    observed group uses a mixed instances policy and the desired task has no
    launch template, the update path of RenderAWS dereferences the nil
    launch template and panics, before any call. *)
Theorem AutoscalingGroup_update_nil_LaunchTemplate (v a e changes : t) (w : World S Call) :
  UseMixedInstancesPolicy a = true ->
  LaunchTemplate_ e = None ->
  RenderAWS v (Some a) e changes w =
    (Panic "invalid memory address or nil pointer dereference", w).
Proof.
  intros Ha He. simpl.
  unfold RenderAWS_update, updateRequest, latestSpecification, UseMixedInstancesPolicy at 2.
  rewrite Ha, He. simpl. by rewrite orb_true_r.
Qed.

End AutoscalingGroup_RenderAWS_edges.

(** The empty task has no launch template: nothing is created on the fake
    AWS, and no call is made. *)
Lemma AutoscalingGroup_create_needs_LaunchTemplate_witness :
  @AutoscalingGroup.RenderAWS _ fake.awsCloud AutoscalingGroup.empty None
    AutoscalingGroup.empty AutoscalingGroup.empty
    (fake.emptyWorld (fake.Build_AWS [] [] None)) =
  (Raise (fi.Errorf "could not find one of launch template or mixed instances policy" []),
   fake.emptyWorld (fake.Build_AWS [] [] None)).
Proof.
  destruct (@AutoscalingGroup_create_needs_LaunchTemplate _ fake.awsCloud
              AutoscalingGroup.empty AutoscalingGroup.empty AutoscalingGroup.empty
              (fake.emptyWorld (fake.Build_AWS [] [] None)) eq_refl)
    as (err & w' & cs & Hrun & _ & _ & Herr).
  rewrite Hrun. rewrite Herr by (by eexists). f_equal.
  vm_compute in Hrun. by injection Hrun as _ <-.
Defined.

(** The group "nodes.c" exists as desired: one UpdateAutoScalingGroup. *)
Lemma AutoscalingGroup_update_nothing_changed_witness :
  (@AutoscalingGroup.RenderAWS _ fake.awsCloud fake.autoscalingGroup
     (Some fake.autoscalingGroup) fake.autoscalingGroup AutoscalingGroup.empty
     (fake.emptyWorld (fake.Build_AWS [] [fake.asGroup "nodes.c" None] None))) =
  (Return tt,
   mkWorld (fake.Build_AWS [] [fake.asGroup "nodes.c" None] None)
     [awsup.UpdateAutoScalingGroup
        (awsup.Build_autoscaling_UpdateAutoScalingGroupInput (Some "nodes.c") None None None
           None None None)]).
Proof.
  rewrite (@AutoscalingGroup_update_nothing_changed _ fake.awsCloud fake.autoscalingGroup
             fake.autoscalingGroup fake.autoscalingGroup
             (fake.emptyWorld (fake.Build_AWS [] [fake.asGroup "nodes.c" None] None)) eq_refl).
  reflexivity.
Defined.

(** The observed group uses a mixed instances policy and the desired task is
    the empty one. *)
Lemma AutoscalingGroup_update_nil_LaunchTemplate_witness :
  (@AutoscalingGroup.RenderAWS _ fake.awsCloud AutoscalingGroup.empty
     (Some fixtures.mixedGroup) AutoscalingGroup.empty AutoscalingGroup.empty
     (fake.emptyWorld (fake.Build_AWS [] [] None))).1 =
  Panic "invalid memory address or nil pointer dereference".
Proof.
  rewrite (@AutoscalingGroup_update_nil_LaunchTemplate _ fake.awsCloud AutoscalingGroup.empty
             fixtures.mixedGroup AutoscalingGroup.empty AutoscalingGroup.empty
             (fake.emptyWorld (fake.Build_AWS [] [] None)) eq_refl eq_refl).
  reflexivity.
Defined.

(** ** AutoscalingGroup.Find when the group exists *)

Section AutoscalingGroup_Find.
Import fi awsup awstasks AutoscalingGroup.
Context {S : Type} `{!AWSCloud S} `{!External}.

(** X18.  AutoscalingGroup.Find, when it returns an observed task, has only read
    the cloud, and the task is in the form the comparison expects: it has the
    name that was looked up and the Lifecycle of the desired task; its load
    balancers are sorted by Name and its target groups by Name, both lists
    non-nil; its metrics are sorted, so normalize does not change it; and its
    SuspendProcesses is non-nil, as the update path of RenderAWS dereferences
    it. *)
Theorem AutoscalingGroup_Find_found (clusterName : string) (e : t) (w : World S Call)
    actual w' :
  Find clusterName e w = (Return (Some actual), w') ->
  StringValue (Name actual) = StringValue (Name e) /\
  Lifecycle actual = Lifecycle e /\
  (exists lbs, LoadBalancers actual = Some lbs /\
     StronglySorted
       (sort.ascending (fun lb => StringValue (ClassicLoadBalancer.Name lb))) lbs) /\
  (exists tgs, TargetGroups actual = Some tgs /\
     StronglySorted (sort.ascending (fun tg => StringValue (TargetGroup_Name tg))) tgs) /\
  normalize actual = (actual, None) /\
  is_Some (SuspendProcesses_ actual) /\
  (exists cs, calls w' = calls w ++ cs /\ Forall (fun c => readonly c = true) cs).
Proof.
  unfold Find. intros Hrun.
  apply bind_inv_Return in Hrun as ([g|] & w1 & Hg & Hrun); [|done].
  apply findAutoscalingGroup_inv in Hg as (Hname & _ & _ & Hcalls1).
  apply bind_inv_Return in Hrun as (lbs0 & w2 & [_ ->]%lift_inv_Return & Hrun).
  apply bind_inv_Return in Hrun as (lbs1 & w3 & Hapi & Hrun).
  apply bind_inv_Return in Hrun as (tgs & w4 & [_ ->]%lift_inv_Return & Hrun).
  apply bind_inv_Return in Hrun as (processes & w5 & [_ ->]%lift_inv_Return & Hrun).
  injection Hrun as <- <-. simpl.
  split; [done|]. split; [done|].
  split.
  { eexists. split; [done|].
    apply (Stable_StronglySorted (fun lb => StringValue (ClassicLoadBalancer.Name lb))). }
  split.
  { eexists. split; [done|].
    apply (Stable_StronglySorted (fun tg => StringValue (TargetGroup_Name tg))). }
  split.
  { unfold normalize, set_Metrics. simpl. f_equal.
    destruct (EnabledMetrics g) as [|m ms]; simpl; [done|].
    unfold sort.Strings at 1. by rewrite (Stable_idempotent id). }
  split; [by eexists|].
  assert (exists cs, calls w3 = calls w1 ++ cs /\ Forall (fun c => readonly c = true) cs)
    as (cs & Hcs & Hro).
  { destruct (fold_left _ (elems (LoadBalancers e)) None) as [apiLBTask|].
    - destruct (0 <? length lbs0).
      + apply bind_inv_Return in Hapi as (r & w2 & Hcall & Hapi).
        rewrite call_run in Hcall. injection Hcall as <- <-.
        destruct (findELBByNameTag _ (backend w1)) as [[err|[apiLBDesc|]] b2];
          simpl in Hapi; [done|..]; injection Hapi as _ <-;
          (eexists [_]; split; [done|by repeat constructor]).
      + injection Hapi as _ <-. exists []. by rewrite app_nil_r.
    - injection Hapi as _ <-. exists []. by rewrite app_nil_r. }
  exists (DescribeAutoScalingGroupsPages [StringValue (Name e)] :: cs).
  split; [|by constructor]. by rewrite Hcs, Hcalls1, <- app_assoc.
Qed.

End AutoscalingGroup_Find.

(** On the fake AWS with the group "nodes.c", Find returns it. *)
Lemma AutoscalingGroup_Find_found_witness :
  exists actual w',
    @AutoscalingGroup.Find _ fake.awsCloud fake.externalASG "c" fake.autoscalingGroup
      (fake.emptyWorld (fake.Build_AWS [] [fake.asGroup "nodes.c" None] None)) =
      (Return (Some actual), w') /\
    AutoscalingGroup.normalize actual = (actual, None) /\
    is_Some (AutoscalingGroup.SuspendProcesses_ actual).
Proof.
  eexists _, _. split; [vm_compute; reflexivity|].
  match goal with
  | |- AutoscalingGroup.normalize ?a = _ /\ _ =>
      destruct (@AutoscalingGroup_Find_found _ fake.awsCloud fake.externalASG "c"
                  fake.autoscalingGroup
                  (fake.emptyWorld (fake.Build_AWS [] [fake.asGroup "nodes.c" None] None))
                  a _ ltac:(vm_compute; reflexivity))
        as (_ & _ & _ & _ & Hn & Hs & _)
  end.
  by split.
Defined.

(** ** ServerGroup.RenderOpenstack: scaling down *)

Section ServerGroup_RenderOpenstack.
Import fi openstack ServerGroup ServerGroupRender.
Context {S : Type} `{!OpenstackAPITarget S} `{!External}.

Lemma RenderOpenstack_loop_spec (a changes : t) (n : nat) : forall (w : World S Call),
  exists cs,
    calls (RenderOpenstack_loop n a changes w).2 = calls w ++ cs /\
    Forall (fun c => exists x, c = ListInstances x \/ c = DeleteInstanceWithID x) cs /\
    length (List.filter mutating cs) <= n /\
    length cs <= 2 * n /\
    ((RenderOpenstack_loop n a changes w).1 = Return tt ->
     length (List.filter mutating cs) = n /\ length cs = 2 * n) /\
    (forall id, DeleteInstanceWithID id ∈ cs ->
       exists b servers b' server idx,
         listInstances ("^" +:+ StringValue (IGName a)) b = (inr servers, b') /\
         server ∈ servers /\ srv_ID server = id /\
         srv_Metadata server !! "k8s" = Some (StringValue (ClusterName a)) /\
         (Int32Value (MaxSize changes) < idx <= Int32Value (MaxSize changes) + Z.of_nat n)%Z /\
         (srv_Name server = instanceName a idx \/
          default "" (srv_Metadata server !! TagKopsName) = instanceName a idx)).
Proof.
  induction n as [|n IH]; intros w.
  - exists []. simpl. rewrite app_nil_r. repeat split; try done; try lia.
    intros id Hin. by apply elem_of_nil in Hin.
  - cbn [RenderOpenstack_loop]. unfold mbind, M_bind, bind. rewrite call_run.
    destruct (listInstances _ (backend w)) as [[err|allInstances] b1] eqn:Hlist; simpl.
    { exists [ListInstances ("^" +:+ StringValue (IGName a))].
      repeat split; try done; simpl; try lia.
      - repeat constructor. eexists. by left.
      - intros id Hin. apply list_elem_of_singleton in Hin. discriminate Hin. }
    destruct (instancesNamed a _ allInstances) as [|server [|server' rest]] eqn:Hnamed; simpl.
    { exists [ListInstances ("^" +:+ StringValue (IGName a))].
      repeat split; try done; simpl; try lia.
      - repeat constructor. eexists. by left.
      - intros id Hin. apply list_elem_of_singleton in Hin. discriminate Hin. }
    2:{ exists [ListInstances ("^" +:+ StringValue (IGName a))].
        repeat split; try done; simpl; try lia.
        - repeat constructor. eexists. by left.
        - intros id Hin. apply list_elem_of_singleton in Hin. discriminate Hin. }
    assert (server ∈ allInstances /\
            srv_Metadata server !! "k8s" = Some (StringValue (ClusterName a)) /\
            (srv_Name server =
               instanceName a (Int32Value (MaxSize changes) + Z.of_nat (Datatypes.S n)) \/
             default "" (srv_Metadata server !! TagKopsName) =
               instanceName a (Int32Value (MaxSize changes) + Z.of_nat (Datatypes.S n))))
      as (Hin & Hk8s & Hname).
    { apply filter_singleton in Hnamed as [Hf Hin]. split; [done|].
      destruct (srv_Metadata server !! "k8s") as [val|]; [|done].
      destruct (String.eqb val (StringValue (ClusterName a))) eqn:Heq; [|done].
      apply String.eqb_eq in Heq. subst val. simpl in Hf. split; [done|].
      apply orb_true_iff in Hf as [Hf|Hf]; apply String.eqb_eq in Hf; [by left|by right]. }
    rewrite call_run. simpl.
    destruct (deleteInstanceWithID (srv_ID server) b1) as [[err|[]] b2] eqn:Hdel; simpl.
    { exists [ListInstances ("^" +:+ StringValue (IGName a));
              DeleteInstanceWithID (srv_ID server)].
      rewrite <- app_assoc. repeat split; try done; simpl; try lia.
      - repeat constructor; eexists; first [by left|by right].
      - intros id Hid. apply elem_of_cons in Hid as [Hid|Hid]; [discriminate Hid|].
        apply list_elem_of_singleton in Hid. injection Hid as ->.
        exists (backend w), allInstances, b1, server, (Int32Value (MaxSize changes)
                                                      + Z.of_nat (Datatypes.S n))%Z.
        repeat split; try done; lia. }
    match goal with |- context [RenderOpenstack_loop n a changes ?w0] =>
      destruct (IH w0) as (cs & Hcs & Hshape & Hmut & Hlen & Hret & Hdeleted) end.
    exists (ListInstances ("^" +:+ StringValue (IGName a))
            :: DeleteInstanceWithID (srv_ID server) :: cs).
    split; [rewrite Hcs; simpl; by rewrite <- !app_assoc|].
    split; [repeat constructor; try done; eexists; first [by left|by right]|].
    split; [simpl; lia|]. split; [simpl; lia|].
    split; [intros Hr; destruct (Hret Hr); simpl; lia|].
    intros id Hid. apply elem_of_cons in Hid as [Hid|Hid]; [discriminate Hid|].
    apply elem_of_cons in Hid as [Hid|Hid].
    + injection Hid as ->.
      exists (backend w), allInstances, b1, server, (Int32Value (MaxSize changes)
                                                    + Z.of_nat (Datatypes.S n))%Z.
      repeat split; try done; lia.
    + destruct (Hdeleted id Hid) as (b & servers & b' & server0 & idx & ? & ? & ? & ? & ? & ?).
      exists b, servers, b', server0, idx. repeat split; try done; lia.
Qed.

Lemma scaleDown_spec (a changes : t) :
  Z.of_nat (scaleDown a changes) =
  match MaxSize changes with
  | Some m => Z.max 0 (Int32Value (MaxSize a) - m)
  | None => 0%Z
  end.
Proof.
  unfold scaleDown. destruct (MaxSize changes) as [m|]; simpl; [|done].
  destruct (Z.gtb_spec (Int32Value (MaxSize a)) m); lia.
Qed.

(** X19.  RenderOpenstack on an existing server group only scales down: it makes
    no call unless changes.MaxSize is set and below the observed MaxSize; it
    never creates anything; it lists and deletes in turns, deletes at most
    (observed MaxSize - changed MaxSize) instances, and exactly that many,
    with as many listings, when it returns without error; the desired task is
    not written to. *)
Theorem RenderOpenstack_scale_down_calls (a e changes : t) (w : World S Call) :
  exists cs,
    calls (RenderOpenstack (Some a) e changes w).2 = calls w ++ cs /\
    Forall (fun c => exists x, c = ListInstances x \/ c = DeleteInstanceWithID x) cs /\
    (Z.of_nat (length (List.filter mutating cs)) <=
       match MaxSize changes with
       | Some m => Z.max 0 (Int32Value (MaxSize a) - m)
       | None => 0
       end)%Z /\
    length cs <= 2 * scaleDown a changes /\
    (forall e', (RenderOpenstack (Some a) e changes w).1 = Return e' ->
       e' = e /\
       Z.of_nat (length (List.filter mutating cs)) =
         match MaxSize changes with
         | Some m => Z.max 0 (Int32Value (MaxSize a) - m)
         | None => 0%Z
         end /\
       length cs = 2 * length (List.filter mutating cs)).
Proof.
  destruct (RenderOpenstack_loop_spec a changes (scaleDown a changes) w)
    as (cs & Hcs & Hshape & Hmut & Hlen & Hret & _).
  exists cs. rewrite <- scaleDown_spec. unfold RenderOpenstack, mbind, M_bind, bind.
  destruct (RenderOpenstack_loop (scaleDown a changes) a changes w) as [[[]|err|msg] w1];
    simpl in *; (split; [done|]); (split; [done|]); (split; [lia|]); (split; [lia|]);
    intros e0 He0; [|done..].
  injection He0 as <-. destruct (Hret eq_refl). repeat split; [lia..].
Qed.

(** X20.  RenderOpenstack deletes only instances of its own group and cluster:
    every DeleteInstanceWithID it sends carries the ID of a server that the
    cloud listed for the group's name pattern, whose metadata "k8s" is the
    cluster name of the observed task, and whose name (or KopsName metadata)
    is the instance name of an index above the changed MaxSize and not above
    the observed one. *)
Theorem RenderOpenstack_deletes_own_instances (a e changes : t) (w : World S Call) cs id :
  calls (RenderOpenstack (Some a) e changes w).2 = calls w ++ cs ->
  DeleteInstanceWithID id ∈ cs ->
  exists b servers b' server idx,
    listInstances ("^" +:+ StringValue (IGName a)) b = (inr servers, b') /\
    server ∈ servers /\ srv_ID server = id /\
    srv_Metadata server !! "k8s" = Some (StringValue (ClusterName a)) /\
    (Int32Value (MaxSize changes) < idx <= Int32Value (MaxSize a))%Z /\
    (srv_Name server = instanceName a idx \/
     default "" (srv_Metadata server !! TagKopsName) = instanceName a idx).
Proof.
  intros Hcalls Hid.
  destruct (RenderOpenstack_loop_spec a changes (scaleDown a changes) w)
    as (cs' & Hcs & _ & _ & _ & _ & Hdeleted).
  assert (cs = cs') as ->.
  { apply (app_inv_head (calls w)). rewrite <- Hcalls, <- Hcs.
    unfold RenderOpenstack, mbind, M_bind, bind.
    by destruct (RenderOpenstack_loop (scaleDown a changes) a changes w) as [[[]|err|msg] w1]. }
  destruct (Hdeleted id Hid) as (b & servers & b' & server & idx & ? & ? & ? & ? & Hidx & ?).
  exists b, servers, b', server, idx. repeat split; try done; try lia.
  pose proof (scaleDown_spec a changes) as Hn.
  destruct (MaxSize changes) as [m|]; simpl in *; lia.
Qed.

(** X21.  RenderOpenstack stops at an instance it cannot identify: when the
    listing for the highest index does not hold exactly one instance of that
    name (none, or several), it returns the error "found N instances with
    name" and has deleted nothing. *)
Theorem RenderOpenstack_ambiguous_instance (a e changes : t) (w : World S Call)
    m allInstances b1 :
  MaxSize changes = Some m ->
  (m < Int32Value (MaxSize a))%Z ->
  listInstances ("^" +:+ StringValue (IGName a)) (backend w) = (inr allInstances, b1) ->
  length (instancesNamed a (instanceName a (Int32Value (MaxSize a))) allInstances) <> 1 ->
  RenderOpenstack (Some a) e changes w =
    (Raise (Errorf "found %d instances with name: %s"
              [ArgInt (Z.of_nat (length (instancesNamed a
                                           (instanceName a (Int32Value (MaxSize a)))
                                           allInstances)));
               ArgString (instanceName a (Int32Value (MaxSize a)))]),
     mkWorld b1 (calls w ++ [ListInstances ("^" +:+ StringValue (IGName a))])).
Proof.
  intros Hm Hlt Hlist Hlen. unfold RenderOpenstack, scaleDown. rewrite Hm. simpl.
  destruct (Z.gtb_spec (Int32Value (MaxSize a)) m) as [_|?]; [|lia].
  destruct (Z.to_nat (Int32Value (MaxSize a) - m)) as [|n] eqn:Hn; [lia|].
  assert ((m + Z.of_nat (Datatypes.S n))%Z = Int32Value (MaxSize a)) as Hidx by lia.
  erewrite bind_Raise; [done|].
  cbn [RenderOpenstack_loop]. rewrite Hm. change (Int32Value (Some m)) with m. rewrite !Hidx.
  erewrite bind_Return; [|apply call_run]. rewrite Hlist. simpl.
  by destruct (instancesNamed a _ allInstances) as [|server [|server' rest]].
Qed.

End ServerGroup_RenderOpenstack.

(** The group "nodes" shrinks from three to one on the fake OpenStack: the
    instances of index 3 and 2 are deleted, each a server of the cluster. *)
Lemma RenderOpenstack_deletes_own_instances_witness :
  let b := [fixtures.server "i-1" "nodes-1-c-example-com";
            fixtures.server "i-2" "nodes-2-c-example-com";
            fixtures.server "i-3" "nodes-3-c-example-com"] in
  calls (@ServerGroupRender.RenderOpenstack _ fixtures.openstackTarget
           fixtures.externalOpenstack (Some fixtures.serverGroupThree)
           fixtures.serverGroupThree (fixtures.serverGroupMaxSize 1) (fake.emptyWorld b)).2 =
    [openstack.ListInstances "^nodes"; openstack.DeleteInstanceWithID "i-3";
     openstack.ListInstances "^nodes"; openstack.DeleteInstanceWithID "i-2"] /\
  exists server,
    openstack.srv_ID server = "i-2" /\
    openstack.srv_Metadata server !! "k8s" = Some "c.example.com".
Proof.
  intros b. split; [vm_compute; reflexivity|].
  destruct (@RenderOpenstack_deletes_own_instances _ fixtures.openstackTarget
              fixtures.externalOpenstack fixtures.serverGroupThree fixtures.serverGroupThree
              (fixtures.serverGroupMaxSize 1) (fake.emptyWorld b)
              [openstack.ListInstances "^nodes"; openstack.DeleteInstanceWithID "i-3";
               openstack.ListInstances "^nodes"; openstack.DeleteInstanceWithID "i-2"] "i-2")
    as (b0 & servers & b' & server & idx & _ & _ & Hid & Hk8s & _).
  - vm_compute. reflexivity.
  - do 3 right. left.
  - by exists server.
Defined.

(** Two servers carry the name of index 3: nothing is deleted. *)
Lemma RenderOpenstack_ambiguous_instance_witness :
  let b := [fixtures.server "i-3" "nodes-3-c-example-com";
            fixtures.server "i-4" "nodes-3-c-example-com"] in
  @ServerGroupRender.RenderOpenstack _ fixtures.openstackTarget fixtures.externalOpenstack
    (Some fixtures.serverGroupThree) fixtures.serverGroupThree (fixtures.serverGroupMaxSize 1)
    (fake.emptyWorld b) =
  (Raise (fi.Errorf "found %d instances with name: %s"
            [fi.ArgInt 2; fi.ArgString "nodes-3-c-example-com"]),
   mkWorld b [openstack.ListInstances "^nodes"]).
Proof.
  intros b.
  rewrite (@RenderOpenstack_ambiguous_instance _ fixtures.openstackTarget
             fixtures.externalOpenstack fixtures.serverGroupThree fixtures.serverGroupThree
             (fixtures.serverGroupMaxSize 1) (fake.emptyWorld b) 1 b b eq_refl eq_refl eq_refl).
  - vm_compute. reflexivity.
  - vm_compute. discriminate.
Defined.

(** ** Computations that keep to a plan of calls *)

Section Plans.
Context {S C : Type}.
Implicit Types plan : list C.

Lemma keeps_to_ret {A} (a : A) : keeps_to (mret a : M (World S C) A) [].
Proof. intros w. exists []. by rewrite app_nil_r. Qed.

Lemma keeps_to_raise {A} (e : fi.error) plan : keeps_to (raise e : M (World S C) A) plan.
Proof.
  intros w. exists []. simpl. rewrite app_nil_r. split; [done|].
  split; [apply prefix_nil|done].
Qed.

Lemma keeps_to_call_check (c : C) (h : S -> (fi.clouderror + unit) * S)
    (wrap : fi.clouderror -> fi.error) :
  keeps_to (r ← call c h; check r wrap) [c].
Proof.
  intros w. exists [c]. erewrite bind_Return; [|apply call_run].
  by destruct (h (backend w)) as [[err|[]] b'].
Qed.

Lemma keeps_to_bind {A B} (m : M (World S C) A) (k : A -> M (World S C) B) p q :
  keeps_to m p -> (forall a, keeps_to (k a) q) -> keeps_to (m ≫= k) (p ++ q).
Proof.
  intros Hm Hk w. destruct (Hm w) as (cs & Hcs & Hpre & Hret).
  unfold mbind, M_bind, bind. destruct (m w) as [[a|e|msg] w1]; simpl in *.
  - destruct (Hk a w1) as (cs' & Hcs' & Hpre' & Hret').
    rewrite (Hret a eq_refl) in Hcs.
    exists (p ++ cs'). rewrite Hcs', Hcs, <- app_assoc. split; [done|].
    split; [by apply prefix_app|]. intros b Hb. by rewrite (Hret' b Hb).
  - exists cs. split; [done|]. split; [by apply prefix_app_r|done].
  - exists cs. split; [done|]. split; [by apply prefix_app_r|done].
Qed.

Lemma keeps_to_if {A} (b : bool) (m1 m2 : M (World S C) A) p1 p2 :
  keeps_to m1 p1 -> keeps_to m2 p2 ->
  keeps_to (if b then m1 else m2) (if b then p1 else p2).
Proof. by destruct b. Qed.

Lemma keeps_to_call_then {A} (c : C) (h : S -> (fi.clouderror + unit) * S)
    (wrap : fi.clouderror -> fi.error) (k : M (World S C) A) q :
  keeps_to k q -> keeps_to (r ← call c h; check r wrap;; k) (c :: q).
Proof.
  intros Hk w. erewrite bind_Return; [|apply call_run].
  destruct (h (backend w)) as [[err|[]] b']; simpl.
  - exists [c]. split; [done|]. split; [|done]. apply prefix_cons, prefix_nil.
  - destruct (Hk (mkWorld b' (calls w ++ [c]))) as (cs & Hcs & Hpre & Hret).
    exists (c :: cs). unfold mbind, M_bind, bind, mret, M_ret, ret. simpl in *.
    rewrite Hcs, <- app_assoc. split; [done|]. split; [by apply prefix_cons|].
    intros a Ha. by rewrite (Hret a Ha).
Qed.

End Plans.

(** ** LoadBalancer.RenderHetzner *)

Section LoadBalancer_RenderHetzner.
Import fi hetzner LoadBalancer LoadBalancerRender.
Context {S : Type} `{!LoadBalancerClient S}.

Lemma addServices_keeps_to loadbalancer services :
  keeps_to (addServices loadbalancer services)
    (map (fun service =>
            AddService loadbalancer
              {| so_Protocol := Protocol service;
                 so_ListenPort := ListenerPort service;
                 so_DestinationPort := DestinationPort service |}) services).
Proof.
  induction services as [|service rest IH]; simpl; [apply keeps_to_ret|].
  by apply keeps_to_call_then.
Qed.

(** X22.  CheckChanges of the Hetzner load balancer does not look at the Network
    of the task, RenderHetzner needs it: whatever the Network, CheckChanges
    answers the same; and on the create path a task without Network makes
    RenderHetzner return "failed to find network for loadbalancer" before any
    call. *)
Theorem RenderHetzner_create_needs_Network (a : option t) (e changes : t)
    (w : World S Call) :
  (forall network, CheckChanges a (set_Network e network) changes = CheckChanges a e changes) /\
  (Network_ e = None ->
   RenderHetzner None e changes w =
     (Raise (Errorf "failed to find network for loadbalancer %q"
               [ArgString (StringValue (Name e))]), w)).
Proof.
  split; [by destruct a|].
  intros Hn. unfold RenderHetzner. rewrite Hn. by erewrite bind_Raise.
Qed.

(** X23.  On the create path RenderHetzner uses neither the Services of the task
    nor the changes: the load balancer is created with exactly one service,
    TCP from port 443 to port 443, whatever services the task lists; then the
    label selector target of the task is added with UsePrivateIP.  At most
    these two calls are made, both when RenderHetzner returns. *)
Theorem RenderHetzner_create_ignores_Services (e changes : t) (w : World S Call) network :
  Network_ e = Some network ->
  (forall services changes',
     RenderHetzner None (set_Services e services) changes' w = RenderHetzner None e changes w) /\
  co_Services (createOpts e network) =
    [{| cos_Protocol := LoadBalancerServiceProtocolTCP;
        cos_ListenPort := Some 443%Z; cos_DestinationPort := Some 443%Z |}] /\
  exists loadbalancer cs,
    calls (RenderHetzner None e changes w).2 = calls w ++ cs /\
    cs `prefix_of`
      [Create (createOpts e network);
       AddLabelSelectorTarget loadbalancer
         {| to_Selector := Target e; to_UsePrivateIP := Some true |}] /\
    ((RenderHetzner None e changes w).1 = Return tt ->
     (client_Create (createOpts e network) (backend w)).1 = inr loadbalancer /\
     cs = [Create (createOpts e network);
           AddLabelSelectorTarget loadbalancer
             {| to_Selector := Target e; to_UsePrivateIP := Some true |}]).
Proof.
  intros Hn. split; [|split; [done|]].
  { intros services changes'. unfold RenderHetzner. simpl. by rewrite Hn. }
  unfold RenderHetzner. rewrite Hn.
  destruct (client_Create (createOpts e network) (backend w)) as [[err|loadbalancer] b1]
    eqn:Hcreate.
  - exists None, [Create (createOpts e network)].
    erewrite bind_Raise;
      [|erewrite bind_Return; [|apply call_run]; rewrite Hcreate; reflexivity].
    split; [done|]. split; [|done]. apply prefix_cons, prefix_nil.
  - exists loadbalancer.
    erewrite bind_Return;
      [|erewrite bind_Return; [|apply call_run]; rewrite Hcreate; reflexivity].
    destruct (keeps_to_call_check
                (AddLabelSelectorTarget loadbalancer
                   {| to_Selector := Target e; to_UsePrivateIP := Some true |})
                (client_AddLabelSelectorTarget loadbalancer
                   {| to_Selector := Target e; to_UsePrivateIP := Some true |})
                CloudError
                (mkWorld b1 (calls w ++ [Create (createOpts e network)])))
      as (cs & Hcs & Hpre & Hret).
    exists (Create (createOpts e network) :: cs). unfold Bool. simpl in *.
    rewrite Hcs, <- app_assoc. split; [done|]. split; [by apply prefix_cons|].
    intros Hr. split; [done|]. by rewrite (Hret tt Hr).
Qed.

(** X24.  On the update path RenderHetzner first gets the load balancer by the
    observed ID and then keeps to this plan, in this order: Update with the
    name and labels of the task when the name or a label changed; one
    AddService for every service of the task (not only the changed ones) when
    a service changed; AddLabelSelectorTarget when the observed task has no
    target.  The calls made are the first calls of the plan, all of it when
    RenderHetzner returns; nothing is created.  When CheckChanges accepted
    the change, services are only added to a load balancer that was observed
    without services. *)
Theorem RenderHetzner_update_calls (a e changes : t) (w : World S Call) loadbalancer b1 :
  client_Get (strconv.Itoa (IntValue (ID a))) (backend w) = (inr loadbalancer, b1) ->
  let plan :=
    (if bool_decide (is_Some (Name changes)) || negb (size (Labels changes) =? 0)
     then [Update loadbalancer {| uo_Name := StringValue (Name e); uo_Labels := Labels e |}]
     else []) ++
    (if 0 <? length (Services changes)
     then map (fun service =>
                 AddService loadbalancer
                   {| so_Protocol := Protocol service;
                      so_ListenPort := ListenerPort service;
                      so_DestinationPort := DestinationPort service |}) (Services e)
     else []) ++
    (if String.eqb (Target a) ""
     then [AddLabelSelectorTarget loadbalancer
             {| to_Selector := Target e; to_UsePrivateIP := Some true |}]
     else []) in
  exists cs,
    calls (RenderHetzner (Some a) e changes w).2 =
      calls w ++ Get (strconv.Itoa (IntValue (ID a))) :: cs /\
    cs `prefix_of` plan /\
    ((RenderHetzner (Some a) e changes w).1 = Return tt -> cs = plan) /\
    (CheckChanges (Some a) e changes = None ->
     0 < length (Services changes) -> Services a = []).
Proof.
  intros Hget plan.
  assert (keeps_to
            ((if bool_decide (is_Some (Name changes)) || negb (size (Labels changes) =? 0) then
                let opts := {| uo_Name := StringValue (Name e); uo_Labels := Labels e |} in
                r ← call (Update loadbalancer opts) (client_Update loadbalancer opts);
                check r CloudError
              else mret tt);;
             (if 0 <? length (Services changes) then addServices loadbalancer (Services e)
              else mret tt);;
             if String.eqb (Target a) "" then
               let opts := {| to_Selector := Target e; to_UsePrivateIP := Bool true |} in
               r ← call (AddLabelSelectorTarget loadbalancer opts)
                     (client_AddLabelSelectorTarget loadbalancer opts);
               check r CloudError
             else mret tt)
            plan) as Hplan.
  { apply keeps_to_bind; [apply keeps_to_if; [apply keeps_to_call_check|apply keeps_to_ret]|].
    intros _. apply keeps_to_bind;
      [apply keeps_to_if; [apply addServices_keeps_to|apply keeps_to_ret]|].
    intros _. apply keeps_to_if; [apply keeps_to_call_check|apply keeps_to_ret]. }
  destruct (Hplan (mkWorld b1 (calls w ++ [Get (strconv.Itoa (IntValue (ID a)))])))
    as (cs & Hcs & Hpre & Hret).
  exists cs.
  assert (RenderHetzner (Some a) e changes w =
          ((if bool_decide (is_Some (Name changes)) || negb (size (Labels changes) =? 0) then
                let opts := {| uo_Name := StringValue (Name e); uo_Labels := Labels e |} in
                r ← call (Update loadbalancer opts) (client_Update loadbalancer opts);
                check r CloudError
              else mret tt);;
             (if 0 <? length (Services changes) then addServices loadbalancer (Services e)
              else mret tt);;
             if String.eqb (Target a) "" then
               let opts := {| to_Selector := Target e; to_UsePrivateIP := Bool true |} in
               r ← call (AddLabelSelectorTarget loadbalancer opts)
                     (client_AddLabelSelectorTarget loadbalancer opts);
               check r CloudError
             else mret tt)
            (mkWorld b1 (calls w ++ [Get (strconv.Itoa (IntValue (ID a)))]))) as ->.
  { unfold RenderHetzner. rewrite bind_bind. erewrite bind_Return; [|apply call_run].
    rewrite Hget. simpl. rewrite bind_bind. apply bind_ext. intros _ w2.
    rewrite bind_bind. apply bind_ext. by intros _ w3. }
  rewrite Hcs. simpl. rewrite <- app_assoc. split; [done|]. split; [done|].
  split; [apply Hret|].
  unfold CheckChanges.
  destruct (Name changes); [done|]. destruct (ID changes); [done|].
  destruct (negb (String.eqb (Location changes) "")); [done|].
  destruct (negb (String.eqb (Type_ changes) "")); [done|].
  intros Hcheck Hlen. apply Nat.ltb_lt in Hlen. rewrite Hlen in Hcheck.
  destruct (Services a); [done|]. done.
Qed.

End LoadBalancer_RenderHetzner.

(** The task "api" with a network, on the fake client: its services do not
    matter for the create path. *)
Lemma RenderHetzner_create_ignores_Services_witness :
  let e := LoadBalancerRender.set_Network fake.loadBalancer
             (Some {| LoadBalancer.Network_Name := Some "net";
                      LoadBalancer.Network_ID := Some 7%Z |}) in
  @LoadBalancerRender.RenderHetzner _ fixtures.hetznerClient None
    (LoadBalancerRender.set_Services e []) LoadBalancer.empty (fake.emptyWorld []) =
  @LoadBalancerRender.RenderHetzner _ fixtures.hetznerClient None e e (fake.emptyWorld []).
Proof.
  intros e.
  apply (@RenderHetzner_create_ignores_Services _ fixtures.hetznerClient e e
           (fake.emptyWorld [])
           {| LoadBalancer.Network_Name := Some "net"; LoadBalancer.Network_ID := Some 7%Z |}
           eq_refl).
Defined.

(** The load balancer 11 was observed without service and target; the task
    brings one service and a target: both are added after the Get. *)
Lemma RenderHetzner_update_calls_witness :
  let lb := fixtures.hcloudLB 11 "api" in
  let changes :=
    LoadBalancer.mk None "" None None "" "" (LoadBalancer.Services fake.loadBalancer)
      (LoadBalancer.Target fake.loadBalancer) ∅ in
  calls (@LoadBalancerRender.RenderHetzner _ fixtures.hetznerClient
           (Some fixtures.loadBalancerBare) fake.loadBalancer changes
           (fake.emptyWorld [lb])).2 =
  [LoadBalancerRender.Get "11";
   LoadBalancerRender.AddService (Some lb)
     (LoadBalancerRender.Build_hcloud_LoadBalancerAddServiceOpts "tcp" (Some 443%Z)
        (Some 443%Z));
   LoadBalancerRender.AddLabelSelectorTarget (Some lb)
     (LoadBalancerRender.Build_hcloud_LoadBalancerAddLabelSelectorTargetOpts
        "kops.k8s.io/instance-role=control-plane" (Some true))].
Proof.
  intros lb changes.
  destruct (@RenderHetzner_update_calls _ fixtures.hetznerClient fixtures.loadBalancerBare
              fake.loadBalancer changes (fake.emptyWorld [lb]) (Some lb) [lb] eq_refl)
    as (cs & Hcs & _ & Hret & _).
  rewrite Hcs, Hret by (vm_compute; reflexivity). reflexivity.
Defined.

(** ** ClassicLoadBalancer: what the three renderers ask for and emit *)

Section ClassicLoadBalancer_renderers.
Import fi awsup ClassicLoadBalancer.
Context {S : Type} `{!AWSCloud S} `{!External S}.

(** X25.  CheckChanges of the ClassicLoadBalancer never looks at LoadBalancerName,
    and all three renderers need it: for a load balancer that is not shared
    and has no LoadBalancerName, RenderAWS on the create path, RenderTerraform
    and RenderCloudformation each return RequiredField("LoadBalancerName"),
    with no call made and nothing added to the document. *)
Theorem ClassicLoadBalancer_LoadBalancerName_required (a : option t) (e changes : t)
    (w : World S Call) doc_tf doc_cf :
  (forall loadBalancerName,
     CheckChanges a (set_LoadBalancerName e loadBalancerName) changes = CheckChanges a e changes) /\
  (BoolValue (Shared e) = false -> LoadBalancerName e = None ->
   RenderAWS None e changes w = (Raise (RequiredField "LoadBalancerName"), w) /\
   RenderTerraform a e changes doc_tf = (Raise (RequiredField "LoadBalancerName"), doc_tf) /\
   RenderCloudformation a e changes doc_cf =
     (Raise (RequiredField "LoadBalancerName"), doc_cf)).
Proof.
  split; [by destruct a|].
  intros Hshared Hname.
  unfold RenderAWS, RenderTerraform, RenderCloudformation. rewrite Hshared, Hname.
  split; [|done]. by erewrite bind_Raise.
Qed.

Lemma terraformListeners_Return {W} (l : list (string * ClassicLoadBalancerListener)) (w : W) :
  Forall (fun p => is_Some (strconv.ParseInt p.1)) l ->
  exists listeners,
    terraformListeners l w = (Return listeners, w) /\
    Forall2
      (fun p listener =>
         tf_LBPort listener = default 0%Z (strconv.ParseInt p.1) /\
         tf_InstancePort listener = InstancePort p.2 /\
         tf_LBProtocol listener = (if String.eqb (SSLCertificateID p.2) "" then "TCP" else "SSL") /\
         tf_InstanceProtocol listener = tf_LBProtocol listener /\
         tf_SSLCertificateID listener =
           (if String.eqb (SSLCertificateID p.2) "" then None else Some (SSLCertificateID p.2)))
      l listeners.
Proof.
  induction 1 as [|[k v] l [n Hn] _ (listeners & IH & Hall)].
  - exists []. split; [done|constructor].
  - simpl in *. rewrite Hn. eexists. split; [by erewrite bind_Return|].
    constructor; [|done]. simpl. rewrite Hn. simpl. by destruct (String.eqb _ "").
Qed.

Lemma terraformListeners_Raise {W} (l : list (string * ClassicLoadBalancerListener)) (w : W) :
  Exists (fun p => strconv.ParseInt p.1 = None) l ->
  exists port, port ∈ l.*1 /\ strconv.ParseInt port = None /\
    terraformListeners l w =
      (Raise (Errorf "error parsing load balancer listener port: %q" [ArgString port]), w).
Proof.
  induction l as [|[k v] l IH]; intros Hex; [by apply Exists_nil in Hex|].
  simpl. destruct (strconv.ParseInt k) as [n|] eqn:Hk.
  - apply Exists_cons in Hex as [Hex|Hex]; [simpl in Hex; congruence|].
    destruct (IH Hex) as (port & Hin & Hport & Hrun).
    exists port. split; [by right|]. split; [done|]. by erewrite bind_Raise.
  - exists k. split; [by left|]. done.
Qed.

(** X26.  The listeners in the documents.  RenderCloudformation never parses a
    listener port and never fails on one: it appends one resource whose
    listeners carry the map keys as they are, all with protocol TCP, also for
    a listener that has an SSL certificate.  RenderTerraform parses the
    ports: with a key that is no number it returns the parse error and leaves
    the document as it was; otherwise it appends one resource "aws_elb" with
    one listener per map entry, SSL with the certificate where the listener
    has one, TCP where it has none. *)
Theorem ClassicLoadBalancer_document_listeners (a : option t) (e changes : t)
    name loadBalancerName doc_tf doc_cf :
  BoolValue (Shared e) = false ->
  LoadBalancerName e = Some loadBalancerName ->
  Name e = Some name ->
  (exists item,
     RenderCloudformation a e changes doc_cf =
       (Return tt,
        {| target.resources :=
             target.resources doc_cf ++
             [("AWS::ElasticLoadBalancing::LoadBalancer", name, item)] |}) /\
     map cf_LoadBalancerPort (cf_Listener item) = (entries (Listeners e)).*1 /\
     Forall (fun l => cf_InstanceProtocol l = "TCP" /\ cf_LoadBalancerProtocol l = "TCP")
       (cf_Listener item)) /\
  (Exists (fun p => strconv.ParseInt p.1 = None) (entries (Listeners e)) ->
   exists port, port ∈ (entries (Listeners e)).*1 /\ strconv.ParseInt port = None /\
     RenderTerraform a e changes doc_tf =
       (Raise (Errorf "error parsing load balancer listener port: %q" [ArgString port]),
        doc_tf)) /\
  (Forall (fun p => is_Some (strconv.ParseInt p.1)) (entries (Listeners e)) ->
   exists item,
     RenderTerraform a e changes doc_tf =
       (Return tt,
        {| target.resources := target.resources doc_tf ++ [("aws_elb", name, item)] |}) /\
     Forall2
       (fun p listener =>
          tf_LBPort listener = default 0%Z (strconv.ParseInt p.1) /\
          tf_InstancePort listener = InstancePort p.2 /\
          tf_LBProtocol listener =
            (if String.eqb (SSLCertificateID p.2) "" then "TCP" else "SSL") /\
          tf_InstanceProtocol listener = tf_LBProtocol listener /\
          tf_SSLCertificateID listener =
            (if String.eqb (SSLCertificateID p.2) "" then None
             else Some (SSLCertificateID p.2)))
       (entries (Listeners e)) (tf_Listener item)).
Proof.
  intros Hshared Hlb Hname.
  unfold RenderCloudformation, RenderTerraform. rewrite Hshared, Hlb, Hname.
  split; [|split].
  - eexists. split; [reflexivity|]. simpl. split.
    + rewrite <- list_fmap_compose. apply list_fmap_ext. by intros _ [k v] _.
    + apply Forall_fmap, Forall_forall. by intros [k v] _.
  - intros Hbad.
    destruct (terraformListeners_Raise _ doc_tf Hbad) as (port & Hin & Hport & Hrun).
    exists port. split; [done|]. split; [done|]. by erewrite bind_Raise.
  - intros Hgood.
    destruct (terraformListeners_Return _ doc_tf Hgood) as (listeners & Hrun & Hall).
    eexists. split; [erewrite bind_Return; [|exact Hrun]; reflexivity|]. done.
Qed.

End ClassicLoadBalancer_renderers.

(** The task "api" with a certificate on port 443: TCP in the CloudFormation
    document, SSL in the Terraform document. *)
Lemma ClassicLoadBalancer_document_listeners_witness :
  let e := fixtures.classicLoadBalancer
             [("443", {| ClassicLoadBalancer.InstancePort := 443%Z;
                         ClassicLoadBalancer.SSLCertificateID := "arn:cert" |})] in
  (exists item,
     (@ClassicLoadBalancer.RenderCloudformation unit (fixtures.external _) None e e
        (target.Build_Document _ [])).2 =
       target.Build_Document _ [("AWS::ElasticLoadBalancing::LoadBalancer", "api", item)] /\
     ClassicLoadBalancer.cf_LoadBalancerProtocol <$> ClassicLoadBalancer.cf_Listener item
       = ["TCP"]) /\
  (exists item,
     (@ClassicLoadBalancer.RenderTerraform unit (fixtures.external _) None e e
        (target.Build_Document _ [])).2 =
       target.Build_Document _ [("aws_elb", "api", item)] /\
     ClassicLoadBalancer.tf_LBProtocol <$> ClassicLoadBalancer.tf_Listener item = ["SSL"]).
Proof.
  intros e.
  destruct (@ClassicLoadBalancer_document_listeners unit (fixtures.external _) None e e
              "api" "api" (target.Build_Document _ []) (target.Build_Document _ [])
              eq_refl eq_refl eq_refl) as ((item & Hcf & _) & _ & Htf).
  split.
  - exists item. rewrite Hcf. split; [reflexivity|].
    vm_compute in Hcf. injection Hcf as <-. reflexivity.
  - destruct Htf as (item' & Hrun & _).
    + apply Forall_forall. intros [k l] Hin. apply elem_of_map_to_list in Hin.
      unfold e, fixtures.classicLoadBalancer, list_to_map in Hin. simpl in Hin.
      apply lookup_insert_Some in Hin as [[<- _]|[_ Hin]]; [by eexists|].
      by rewrite lookup_empty in Hin.
    + exists item'. rewrite Hrun. split; [reflexivity|].
      vm_compute in Hrun. injection Hrun as <-. reflexivity.
Defined.

(** ** AutoscalingGroup.RenderAWS: the order of the calls of an update *)

Section AutoscalingGroup_update_order.
Import fi awsup awstasks AutoscalingGroup.
Context {S : Type} `{!AWSCloud S}.

Lemma perform__inv (c : Call) (format : string) (w w' : World S Call) :
  perform_ c format w = (Return tt, w') -> calls w' = calls w ++ [c].
Proof.
  unfold perform_. erewrite bind_Return; [|apply call_run].
  destruct (perform c (backend w)) as [[err|[]] b']; simpl; [done|]. by intros [= <-].
Qed.

Lemma mret_inv {A} (a b : A) (w w' : World S Call) :
  (mret a : M (World S Call) A) w = (Return b, w') -> b = a /\ w' = w.
Proof. by intros [= -> ->]. Qed.

Lemma optional_perform_inv {X} (o : option X) (c : X -> Call) (format : string)
    (w w' : World S Call) :
  match o with Some x => perform_ (c x) format | None => mret tt end w = (Return tt, w') ->
  exists cs, calls w' = calls w ++ cs /\ (cs = [] \/ exists x, o = Some x /\ cs = [c x]).
Proof.
  destruct o as [x|].
  - intros Hc%perform__inv. exists [c x]. split; [done|]. right. by exists x.
  - intros [_ ->]%mret_inv. exists []. rewrite app_nil_r. split; [done|by left].
Qed.

(** X27.  In an update that succeeds, AutoscalingGroup.RenderAWS sends
    UpdateAutoScalingGroup exactly once.  Before it come only the calls for
    metrics and for suspending and resuming processes; after it, each at
    most once and in this order: DeleteTags, CreateOrUpdateTags,
    DetachLoadBalancers, AttachLoadBalancers, DetachLoadBalancerTargetGroups,
    AttachLoadBalancerTargetGroups.  So old tags are deleted before the tags
    of the task are written, and load balancers and target groups are
    detached before the desired ones are attached. *)
Theorem AutoscalingGroup_update_order (v a e changes : t) (w w' : World S Call) :
  RenderAWS v (Some a) e changes w = (Return tt, w') ->
  exists request pre dt ut dl al dg ag,
    updateRequest a e changes = Return request /\
    calls w' =
      calls w ++ pre ++ [UpdateAutoScalingGroup request] ++ dt ++ ut ++ dl ++ al ++ dg ++ ag /\
    Forall (fun c => match c with
                     | EnableMetricsCollection _ _ _ | SuspendProcesses _ _
                     | ResumeProcesses _ _ => True
                     | _ => False
                     end) pre /\
    (dt = [] \/ exists tags, dt = [DeleteTags tags]) /\
    (ut = [] \/ ut = [CreateOrUpdateTags (AutoscalingGroupTags e)]) /\
    (dl = [] \/ exists names, dl = [DetachLoadBalancers (Name e) names]) /\
    (al = [] \/ al = [AttachLoadBalancers (Name e) (AutoscalingLoadBalancers e)]) /\
    (dg = [] \/ exists arns, dg = [DetachLoadBalancerTargetGroups (Name e) arns]) /\
    (ag = [] \/ ag = [AttachLoadBalancerTargetGroups (Name e) (AutoscalingTargetGroups e)]).
Proof.
  simpl. unfold RenderAWS_update. intros Hrun.
  apply bind_inv_Return in Hrun as (request & w1 & [Hreq ->]%lift_inv_Return & Hrun).
  apply bind_inv_Return in Hrun as ([attachLB detachLB] & w2 & Hlb & Hrun).
  assert (w2 = w /\ (attachLB = None \/ attachLB = Some (AutoscalingLoadBalancers e)))
    as [-> HattachLB].
  { destruct (LoadBalancers changes); [|apply mret_inv in Hlb as [[= -> ->] ->]; auto].
    destruct (0 <? length (elems (LoadBalancers a))).
    - apply bind_inv_Return in Hlb as (names & w0 & [_ ->]%lift_inv_Return & Hlb).
      apply mret_inv in Hlb as [[= -> ->] ->].
      split; [done|]. destruct (0 <? length (elems (LoadBalancers e))); auto.
    - apply mret_inv in Hlb as [[= -> ->] ->].
      split; [done|]. destruct (0 <? length (elems (LoadBalancers e))); auto. }
  apply bind_inv_Return in Hrun as ([attachTG detachTG] & w3 & Htg & Hrun).
  assert (w3 = w /\ (attachTG = None \/ attachTG = Some (AutoscalingTargetGroups e)))
    as [-> HattachTG].
  { destruct (TargetGroups changes); [|apply mret_inv in Htg as [[= -> ->] ->]; auto].
    destruct (0 <? length (elems (TargetGroups a))).
    - apply bind_inv_Return in Htg as (arns & w0 & [_ ->]%lift_inv_Return & Htg).
      apply mret_inv in Htg as [[= -> ->] ->].
      split; [done|]. destruct (0 <? length (elems (TargetGroups e))); auto.
    - apply mret_inv in Htg as [[= -> ->] ->].
      split; [done|]. destruct (0 <? length (elems (TargetGroups e))); auto. }
  apply bind_inv_Return in Hrun as ([] & w4 & Hmetrics & Hrun).
  assert (exists cs, calls w4 = calls w ++ cs /\
            Forall (fun c => match c with
                             | EnableMetricsCollection _ _ _ | SuspendProcesses _ _
                             | ResumeProcesses _ _ => True
                             | _ => False
                             end) cs) as (pre1 & Hpre1 & Hkind1).
  { destruct (_ || _);
      [destruct (negb _); [apply perform__inv in Hmetrics; eexists [_]; by repeat constructor|]|];
      apply mret_inv in Hmetrics as [_ ->]; exists []; by rewrite app_nil_r. }
  apply bind_inv_Return in Hrun as ([] & w5 & Hproc & Hrun).
  assert (exists cs, calls w5 = calls w4 ++ cs /\
            Forall (fun c => match c with
                             | EnableMetricsCollection _ _ _ | SuspendProcesses _ _
                             | ResumeProcesses _ _ => True
                             | _ => False
                             end) cs) as (pre2 & Hpre2 & Hkind2).
  { destruct (SuspendProcesses_ changes);
      [|apply mret_inv in Hproc as [_ ->]; exists []; by rewrite app_nil_r].
    apply bind_inv_Return in Hproc as (toSuspend & w0 & [_ ->]%lift_inv_Return & Hproc).
    apply bind_inv_Return in Hproc as (toResume & w0 & [_ ->]%lift_inv_Return & Hproc).
    apply bind_inv_Return in Hproc as ([] & w6 & Hs & Hr).
    assert (exists cs, calls w6 = calls w4 ++ cs /\
              Forall (fun c => match c with
                               | EnableMetricsCollection _ _ _ | SuspendProcesses _ _
                               | ResumeProcesses _ _ => True
                               | _ => False
                               end) cs) as (s1 & Hs1 & Hk1).
    { destruct (0 <? length toSuspend);
        [apply perform__inv in Hs; eexists [_]; by repeat constructor|].
      apply mret_inv in Hs as [_ ->]. exists []. by rewrite app_nil_r. }
    destruct (0 <? length toResume).
    - apply perform__inv in Hr. eexists (s1 ++ [_]).
      rewrite Hr, Hs1, <- app_assoc. split; [done|].
      apply Forall_app. split; [done|by repeat constructor].
    - apply mret_inv in Hr as [_ ->]. by exists s1. }
  apply bind_inv_Return in Hrun as ([] & w6 & Hupdate%perform__inv & Hrun).
  apply bind_inv_Return in Hrun as ([] & w7 & Hdt & Hrun).
  assert (exists dt, calls w7 = calls w6 ++ dt /\ (dt = [] \/ exists tags, dt = [DeleteTags tags]))
    as (dt & Hdt' & Hdtk).
  { destruct (Tags changes);
      [|apply mret_inv in Hdt as [_ ->]; exists []; rewrite app_nil_r; auto].
    destruct (0 <? length (entries (Tags a)));
      [|apply mret_inv in Hdt as [_ ->]; exists []; rewrite app_nil_r; auto].
    destruct (0 <? length (getASGTagsToDelete e (Tags a)));
      [|apply mret_inv in Hdt as [_ ->]; exists []; rewrite app_nil_r; auto].
    apply perform__inv in Hdt. eexists [_]. split; [done|]. right. by eexists. }
  apply bind_inv_Return in Hrun as ([] & w8 & Hut & Hrun).
  apply optional_perform_inv in Hut as (ut & Hut & Hutk).
  apply bind_inv_Return in Hrun as ([] & w9 & Hdl & Hrun).
  apply optional_perform_inv in Hdl as (dl & Hdl & Hdlk).
  apply bind_inv_Return in Hrun as ([] & w10 & Hal & Hrun).
  apply optional_perform_inv in Hal as (al & Hal & Halk).
  apply bind_inv_Return in Hrun as ([] & w11 & Hdg & Hrun).
  apply optional_perform_inv in Hdg as (dg & Hdg & Hdgk).
  apply optional_perform_inv in Hrun as (ag & Hag & Hagk).
  exists request, (pre1 ++ pre2), dt, ut, dl, al, dg, ag.
  split; [done|]. split.
  { rewrite Hag, Hdg, Hal, Hdl, Hut, Hdt', Hupdate, Hpre2, Hpre1.
    by rewrite <- !app_assoc. }
  split; [by apply Forall_app|]. split; [done|].
  split.
  { destruct Hutk as [->|(x & Hx & ->)]; [by left|right].
    destruct (Tags changes); [|done]. by injection Hx as <-. }
  split.
  { destruct Hdlk as [->|(x & Hx & ->)]; [by left|right]. by exists x. }
  split.
  { destruct Halk as [->|(x & -> & ->)]; [by left|right].
    destruct HattachLB as [?|[= ->]]; done. }
  split.
  { destruct Hdgk as [->|(x & Hx & ->)]; [by left|right]. by exists x. }
  destruct Hagk as [->|(x & -> & ->)]; [by left|right].
  destruct HattachTG as [?|[= ->]]; done.
Qed.

End AutoscalingGroup_update_order.

(** The group "nodes.c" with changed tags on the fake AWS: the update, then
    the tags of the task. *)
Lemma AutoscalingGroup_update_order_witness :
  let changes :=
    AutoscalingGroup.mk None "" None None None None None None None None None None None None
      None None None None None (Some ∅) None in
  let w := fake.emptyWorld (fake.Build_AWS [] [fake.asGroup "nodes.c" None] None) in
  let w' := (@AutoscalingGroup.RenderAWS _ fake.awsCloud fake.autoscalingGroup
               (Some fake.autoscalingGroup) fake.autoscalingGroup changes w).2 in
  length (calls w') = 2 /\
  exists request pre dt ut dl al dg ag,
    AutoscalingGroup.updateRequest fake.autoscalingGroup fake.autoscalingGroup changes =
      Return request /\
    calls w' =
      calls w ++ pre ++ [awsup.UpdateAutoScalingGroup request] ++ dt ++ ut ++ dl ++ al ++ dg
      ++ ag.
Proof.
  intros changes w w'. split; [vm_compute; reflexivity|].
  destruct (@AutoscalingGroup_update_order _ fake.awsCloud fake.autoscalingGroup
              fake.autoscalingGroup fake.autoscalingGroup changes w w')
    as (request & pre & dt & ut & dl & al & dg & ag & Hreq & Hcalls & _).
  - vm_compute. reflexivity.
  - by exists request, pre, dt, ut, dl, al, dg, ag.
Defined.

(** ** AutoscalingGroup: what an update removes and what it sets *)

Section AutoscalingGroup_requests.
Import fi awsup awstasks AutoscalingGroup.

(** X28.  The requests of one update do not undo each other for tags and target
    groups: no key is both in the tags to delete (getASGTagsToDelete) and in
    the tags to write (AutoscalingGroupTags), and no target group ARN is both
    detached (getTGsToDetach, which returns ARNs of current target groups
    only) and attached (AutoscalingTargetGroups).  For load balancers this
    does not hold: they are detached by task Name and attached by
    LoadBalancerName, so a load balancer whose current task is named after
    its LoadBalancerName and whose desired task has another Name is detached
    and attached in the same update. *)
Theorem AutoscalingGroup_requests_disjoint (e : t) (currentTags : option (gmap string string))
    (currentTGs : list TargetGroup) :
  (forall tag tag', tag ∈ getASGTagsToDelete e currentTags -> tag' ∈ AutoscalingGroupTags e ->
     tag_Key tag <> tag_Key tag') /\
  (forall arns arn, getTGsToDetach e currentTGs = Return arns -> arn ∈ arns ->
     (arn ∉ AutoscalingTargetGroups e) /\
     exists tg, tg ∈ currentTGs /\ TargetGroup_ARN tg = arn) /\
  (forall name loadBalancerName, name <> loadBalancerName ->
     let desired :=
       ClassicLoadBalancer.set_LoadBalancerName
         (ClassicLoadBalancer.mk (Some name) "" None None None None None None None None None
            None None None "" ∅ false None) (Some loadBalancerName) in
     let current :=
       ClassicLoadBalancer.set_LoadBalancerName
         (ClassicLoadBalancer.mk (Some loadBalancerName) "" None None None None None None None
            None None None None None "" ∅ false None) (Some loadBalancerName) in
     let e' :=
       mk (Name e) (Lifecycle e) (Granularity e) (InstanceProtection e) (LaunchTemplate_ e)
          (Some [desired]) (MaxSize e) (Metrics e) (MinSize e) (MixedInstanceOverrides e)
          (InstanceRequirements_ e) (MixedOnDemandAllocationStrategy e) (MixedOnDemandBase e)
          (MixedOnDemandAboveBase e) (MixedSpotAllocationStrategy e)
          (MixedSpotInstancePools e) (MixedSpotMaxPrice e) (Subnets e) (SuspendProcesses_ e)
          (Tags e) (TargetGroups e) in
     getLBsToDetach e' [current] = Return [Some loadBalancerName] /\
     AutoscalingLoadBalancers e' = [Some loadBalancerName]).
Proof.
  split; [|split].
  - intros tag tag' Hdel Hset Hkey. unfold getASGTagsToDelete in Hdel.
    apply list_elem_of_omap in Hdel as ([k v] & _ & Hk).
    destruct (default ∅ (Tags e) !! k) eqn:Hlookup; [done|]. injection Hk as <-.
    unfold AutoscalingGroupTags in Hset.
    apply list_elem_of_fmap in Hset as ([k' v'] & -> & Hin).
    simpl in Hkey. injection Hkey as ->.
    unfold entries in Hin. destruct (Tags e) as [tags|]; simpl in *.
    + apply elem_of_map_to_list in Hin. congruence.
    + by apply elem_of_nil in Hin.
  - intros arns arn. unfold getTGsToDetach, AutoscalingTargetGroups.
    destruct (derefAll TargetGroup_ARN (elems (TargetGroups e))) as [desired|?|?] eqn:Hd;
      [|done..].
    destruct (derefAll TargetGroup_ARN currentTGs) as [current|?|?] eqn:Hc; [|done..].
    intros [= <-] Harn.
    apply list_elem_of_fmap in Harn as (n & -> & Hn).
    apply elem_of_List_filter in Hn as [Hn Hnot].
    apply derefAll_Return in Hd. apply derefAll_Return in Hc. split.
    + rewrite Hd. intros Hin. apply list_elem_of_fmap in Hin as (n' & [= <-] & Hin).
      apply negb_true_iff in Hnot. rewrite <- not_true_iff_false in Hnot.
      apply Hnot, existsb_eqb_true. done.
    + assert (Some n ∈ map TargetGroup_ARN currentTGs) as Hin.
      { rewrite Hc. by apply list_elem_of_fmap_2. }
      apply list_elem_of_fmap in Hin as (tg & Htg & Hin). by exists tg.
  - intros name loadBalancerName Hne desired current e'. split; [|done].
    unfold getLBsToDetach. simpl.
    destruct (String.eqb_spec loadBalancerName name) as [->|_]; done.
Qed.

End AutoscalingGroup_requests.

(** ** The lookup of a load balancer by its alias *)

Section Alias_lookup.
Import fi awsup ClassicLoadBalancer.
Context {S : Type} `{!AWSCloud S}.

Lemma TrimSuffix_dot (d : string) : strings.TrimSuffix (d +:+ ".") "." = d.
Proof.
  induction d as [|c d IH]; [done|].
  simpl. rewrite IH. by destruct c as [[|] [|] [|] [|] [|] [|] [|] [|]], d.
Qed.

(** X29.  findLoadBalancerByAlias compares DNS names without their trailing dot.
    An alias whose DNS name is nil, empty or a single dot is refused before
    any call.  A load balancer that is returned has the hosted zone of the
    alias and, up to the trailing dots, the DNS name of the alias or that
    name without its prefix "dualstack."; the listing of all load balancers
    was the only call.  Whether the alias is written with or without the
    trailing dot makes no difference to what is returned. *)
Theorem findLoadBalancerByAlias_matches (alias : route53_AliasTarget) (w w' : World S Call) :
  (strings.TrimSuffix (StringValue (alias_DNSName alias)) "." = "" ->
   findLoadBalancerByAlias (Some alias) w =
     (Raise (Errorf "DNSName not set on AliasTarget" []), w)) /\
  (forall lb,
     findLoadBalancerByAlias (Some alias) w = (Return (Some lb), w') ->
     StringValue (CanonicalHostedZoneNameID lb) = StringValue (alias_HostedZoneId alias) /\
     (let lbDnsName := strings.TrimSuffix (StringValue (awsup.DNSName lb)) "." in
      let matchDnsName := strings.TrimSuffix (StringValue (alias_DNSName alias)) "." in
      lbDnsName = matchDnsName \/ "dualstack." +:+ lbDnsName = matchDnsName) /\
     calls w' = calls w ++ [DescribeLoadBalancersPages []]) /\
  (forall d zone r,
     strings.TrimSuffix d "." = d ->
     findLoadBalancerByAlias
       (Some {| alias_DNSName := Some (d +:+ "."); alias_HostedZoneId := zone |}) w =
       (Return r, w') <->
     findLoadBalancerByAlias
       (Some {| alias_DNSName := Some d; alias_HostedZoneId := zone |}) w = (Return r, w')).
Proof.
  split; [|split].
  - intros Hd. unfold findLoadBalancerByAlias. by rewrite Hd.
  - intros lb. unfold findLoadBalancerByAlias, describeLoadBalancers.
    destruct (String.eqb (strings.TrimSuffix _ ".") ""); [done|].
    destruct (describeLoadBalancersPages [] (backend w)) as [[err|pages] b'] eqn:Hlist.
    + erewrite bind_Return;
        [|erewrite bind_Return; [|apply call_run]; rewrite Hlist; reflexivity].
      done.
    + erewrite bind_Return;
        [|erewrite bind_Return; [|apply call_run]; rewrite Hlist; reflexivity].
      simpl.
      destruct (List.filter _ (concat pages)) as [|x [|y rest]] eqn:Hfound; [done| |done].
      intros [= -> <-]. apply filter_singleton in Hfound as [Hmatch _].
      destruct (String.eqb_spec (StringValue (alias_HostedZoneId alias))
                  (StringValue (CanonicalHostedZoneNameID lb))) as [Hzone|]; [|done].
      cbn [negb] in Hmatch. split; [done|]. split; [|done].
      apply orb_prop in Hmatch as [Hm|Hm]; [left; by apply String.eqb_eq in Hm|right].
      change (String.eqb
                ("dualstack." +:+ strings.TrimSuffix (StringValue (awsup.DNSName lb)) ".")
                (strings.TrimSuffix (StringValue (alias_DNSName alias)) ".") = true) in Hm.
      by apply String.eqb_eq in Hm.
  - intros d zone r Hd. unfold findLoadBalancerByAlias, describeLoadBalancers. simpl.
    rewrite TrimSuffix_dot, Hd.
    destruct (String.eqb d ""); [done|].
    destruct (describeLoadBalancersPages [] (backend w)) as [[err|pages] b'] eqn:Hlist.
    + erewrite !bind_Return;
        [|erewrite bind_Return; [|apply call_run]; rewrite Hlist; reflexivity..].
      done.
    + erewrite !bind_Return;
        [|erewrite bind_Return; [|apply call_run]; rewrite Hlist; reflexivity..].
      simpl. by destruct (List.filter _ (concat pages)) as [|x [|y rest]].
Qed.

End Alias_lookup.

(** ** AutoscalingGroup.RenderAWS: a new group without SuspendProcesses *)

Section AutoscalingGroup_create_processes.
Import fi awsup awstasks AutoscalingGroup.
Context {S : Type} `{!AWSCloud S}.

(** X30.  On the create path AutoscalingGroup.RenderAWS dereferences
    SuspendProcesses only after the group exists: for a task whose
    SuspendProcesses is nil, once the request is built and
    CreateAutoScalingGroup and EnableMetricsCollection (sent whatever the
    metrics of the task, also for none) have succeeded, RenderAWS panics; the
    group has been created by then. *)
Theorem AutoscalingGroup_create_nil_SuspendProcesses (v e changes : t) (w : World S Call)
    request w1 b2 b3 :
  createRequest v e w = (Return request, w1) ->
  perform (CreateAutoScalingGroup request) (backend w1) = (inr tt, b2) ->
  perform (EnableMetricsCollection (Name e) (Granularity e) (elems (Metrics e))) b2 =
    (inr tt, b3) ->
  SuspendProcesses_ e = None ->
  RenderAWS v None e changes w =
    (Panic "invalid memory address or nil pointer dereference",
     mkWorld b3
       (calls w1 ++
        [CreateAutoScalingGroup request;
         EnableMetricsCollection (Name e) (Granularity e) (elems (Metrics e))])).
Proof.
  intros Hreq Hcreate Hmetrics Hnil. simpl.
  rewrite (RenderAWS_create_run v e w request w1 Hreq), Hcreate.
  unfold createMetricsAndProcesses. rewrite Hnil.
  erewrite bind_Return; [|erewrite bind_Return; [|apply call_run]; simpl; rewrite Hmetrics;
                          reflexivity].
  simpl. by rewrite <- app_assoc.
Qed.

End AutoscalingGroup_create_processes.

(** On the fake AWS the group "nodes.c" is created, then RenderAWS panics. *)
Lemma AutoscalingGroup_create_nil_SuspendProcesses_witness :
  exists request,
    @AutoscalingGroup.RenderAWS _ fake.awsCloud fixtures.groupNilProcesses None
      fixtures.groupNilProcesses fixtures.groupNilProcesses
      (fake.emptyWorld (fake.Build_AWS [] [] None)) =
    (Panic "invalid memory address or nil pointer dereference",
     mkWorld (fake.Build_AWS [] [] None)
       [awsup.CreateAutoScalingGroup request;
        awsup.EnableMetricsCollection (Some "nodes.c") None []]).
Proof.
  eexists.
  apply (@AutoscalingGroup_create_nil_SuspendProcesses _ fake.awsCloud
           fixtures.groupNilProcesses fixtures.groupNilProcesses fixtures.groupNilProcesses
           (fake.emptyWorld (fake.Build_AWS [] [] None)) _
           (fake.emptyWorld (fake.Build_AWS [] [] None)) (fake.Build_AWS [] [] None)
           (fake.Build_AWS [] [] None)); reflexivity.
Defined.
